(** * DiscordTikTokNotifier: the live-session reconciliation engine

    A shallow embedding of [discord_webhook.py] (class [DiscordWebhook]) and
    [monitoring_service.py] (class [MonitoringService] with the three adapter
    callbacks [on_connect], [on_disconnect], [on_gift] and the periodic
    [check_users]), followed by the properties of the specification.

    Conventions of the embedding.
    - Python dictionaries keyed by user name are [gmap string _], Python sets of
      user names are [gset string]; the one dictionary whose iteration order is
      observable ([currently_live] in [check_users]) is an association list in
      insertion order.
    - A Python [str] is the string of its UTF-8 bytes; comparison,
      concatenation and prefix tests on the bytes are those on the text.
    - [time.time()] readings are integers (seconds), supplied by the event
      that triggers a handler; [datetime.now().isoformat()] readings are
      strings, compared as Python compares strings.
    - The outcome of every HTTP request is an input of the handler that
      performs it (the network is not part of the program).
    - Every call of a [send_*_notification] method is recorded as a
      [Dispatch]; handlers return the new state together with the dispatches
      they performed, in order. *)

From Stdlib Require Import ZArith String Ascii List Bool Lia OrderedTypeEx.
From stdpp Require Import base decidable option list gmap sets strings.
Import ListNotations.

Local Open Scope string_scope.
Local Open Scope Z_scope.

#[local] Set Warnings "-clear-no-such-hyp".

(* ===================================================================== *)
(** ** Python values met in event payloads *)
(* ===================================================================== *)

Module Py.

#[local] Set Warnings "-register-all".

(** The values that reach the handlers: [None], integers, floats (a float
    is written as [repr] prints it: ["2.5"], ["0.0"], ["-0.0"], ["nan"],
    ["inf"], ["-inf"]), strings, plain objects and the bound method that
    [getattr] finds on a string under the name [count]. An object has two
    tables that need not agree: [attrs], what [getattr(o, k, None)] finds
    (instance and class attributes, properties), and [dict], the object's
    [__dict__] when it has one. *)
Inductive pyval : Type :=
| PNone
| PInt (z : Z)
| PFloat (repr : string)
| PStr (s : string)
| PObj (attrs : list (string * pyval)) (dict : option (list (string * pyval)))
| PMethod (name : string).

(** Python truthiness ([bool(v)]); of the floats only the two zeros are
    false. *)
Definition truthy (v : pyval) : bool :=
  match v with
  | PNone => false
  | PInt z => negb (Z.eqb z 0)
  | PFloat r => negb (String.eqb r "0.0" || String.eqb r "-0.0")
  | PStr s => negb (String.eqb s "")
  | PObj _ _ => true
  | PMethod _ => true
  end.

(** [a or b]. *)
Definition py_or (a b : pyval) : pyval := if truthy a then a else b.

Fixpoint assoc (k : string) (l : list (string * pyval)) : option pyval :=
  match l with
  | [] => None
  | (k', v) :: l' => if String.eqb k k' then Some v else assoc k l'
  end.

(** [hasattr(o, k)] for the attribute names the handlers probe. Of these
    names, [None] and numbers carry none and strings carry [count]. *)
Definition hasattr (o : pyval) (k : string) : bool :=
  match o with
  | PObj attrs _ => match assoc k attrs with Some _ => true | None => false end
  | PStr _ => String.eqb k "count"
  | _ => false
  end.

(** [getattr(o, k, None)]. *)
Definition getattr (o : pyval) (k : string) : pyval :=
  match o with
  | PObj attrs _ => default PNone (assoc k attrs)
  | PStr _ => if String.eqb k "count" then PMethod "count" else PNone
  | _ => PNone
  end.

(** [hasattr(o, '__dict__')]: false of [None], numbers and [str], and of
    an object without a [__dict__]. *)
Definition has_dict (o : pyval) : bool :=
  match o with PObj _ (Some _) => true | _ => false end.

(** [o.__dict__.get(k)], for an [o] that has a [__dict__]; [None] stands
    in where the handlers do not ask. *)
Definition dict_get (o : pyval) (k : string) : pyval :=
  match o with
  | PObj _ (Some dict) => default PNone (assoc k dict)
  | _ => PNone
  end.

(** Decimal digits of a non-negative number, most significant first. *)
Fixpoint digits_pos (fuel : nat) (n : N) (acc : string) : string :=
  match fuel with
  | O => acc
  | S fuel' =>
      let d := ascii_of_N (48 + n mod 10)%N in
      let acc' := String d acc in
      if (n <? 10)%N then acc' else digits_pos fuel' (n / 10)%N acc'
  end.

Definition str_of_Z (z : Z) : string :=
  match z with
  | Z0 => "0"
  | Zpos p => digits_pos (S (Pos.to_nat p)) (Npos p) ""
  | Zneg p => String "-" (digits_pos (S (Pos.to_nat p)) (Npos p) "")
  end.

(** [str(v)]. The text of an object is its [repr], which the program only
    inspects for digits and for the letters "id"; it is fixed here to an
    angle-bracket form without either. *)
Definition py_str (v : pyval) : string :=
  match v with
  | PNone => "None"
  | PInt z => str_of_Z z
  | PFloat r => r
  | PStr s => s
  | PObj _ _ => "<object>"
  | PMethod _ => "<built-in method>"
  end.

Definition is_digit (c : ascii) : bool :=
  let n := N_of_ascii c in ((48 <=? n) && (n <=? 57))%N.

(** [s.isdigit()] for the digits [0] to [9]: non-empty and all characters
    digits. Like [lower] below it is used once, in the test of the gift
    handler that decides whether to look for a better name. *)
Fixpoint all_digits (s : string) : bool :=
  match s with
  | EmptyString => true
  | String c s' => is_digit c && all_digits s'
  end.

Definition isdigit (s : string) : bool :=
  match s with EmptyString => false | _ => all_digits s end.

Definition lower_ascii (c : ascii) : ascii :=
  let n := N_of_ascii c in
  if ((65 <=? n) && (n <=? 90))%N then ascii_of_N (n + 32) else c.

(** [s.lower()] as far as the letters [A] to [Z] go; other characters are
    left as they are. It is used once, by the gift handler, to look for the
    text [id] in a name; the routes of [app.py] take [str.lower()] as a
    parameter. *)
Fixpoint lower (s : string) : string :=
  match s with
  | EmptyString => EmptyString
  | String c s' => String (lower_ascii c) (lower s')
  end.

(** [p in s] for strings. *)
Fixpoint contains (p s : string) : bool :=
  if String.prefix p s then true
  else match s with
       | EmptyString => false
       | String _ s' => contains p s'
       end.

(** The characters that [str.strip()] removes are those of
    [str.isspace()]: U+0009 to U+000D, U+001C to U+0020, U+0085, U+00A0,
    U+1680, U+2000 to U+200A, U+2028, U+2029, U+202F, U+205F and U+3000.
    In UTF-8 the first ten are one byte, the next two are two bytes and
    the others three. *)
Definition is_space (c : ascii) : bool :=
  let n := N_of_ascii c in
  (((9 <=? n) && (n <=? 13)) || ((28 <=? n) && (n <=? 32)))%N.

(** U+0085 is [C2 85] and U+00A0 is [C2 A0]. *)
Definition is_space2 (c1 c2 : ascii) : bool :=
  let n1 := N_of_ascii c1 in
  let n2 := N_of_ascii c2 in
  ((n1 =? 194) && ((n2 =? 133) || (n2 =? 160)))%N.

(** U+1680 is [E1 9A 80]; U+2000 to U+200A, U+2028, U+2029 and U+202F are
    [E2 80 80] to [E2 80 8A], [E2 80 A8], [E2 80 A9] and [E2 80 AF];
    U+205F is [E2 81 9F]; U+3000 is [E3 80 80]. *)
Definition is_space3 (c1 c2 c3 : ascii) : bool :=
  let n1 := N_of_ascii c1 in
  let n2 := N_of_ascii c2 in
  let n3 := N_of_ascii c3 in
  (((n1 =? 225) && (n2 =? 154) && (n3 =? 128))
   || ((n1 =? 226) && (n2 =? 128)
       && (((128 <=? n3) && (n3 <=? 138)) || (n3 =? 168) || (n3 =? 169) || (n3 =? 175)))
   || ((n1 =? 226) && (n2 =? 129) && (n3 =? 159))
   || ((n1 =? 227) && (n2 =? 128) && (n3 =? 128)))%N.

(** [s.lstrip()]: the white-space characters at the head are dropped. *)
Fixpoint lstrip (s : string) : string :=
  match s with
  | EmptyString => EmptyString
  | String c1 s1 =>
      if is_space c1 then lstrip s1
      else match s1 with
           | EmptyString => s
           | String c2 s2 =>
               if is_space2 c1 c2 then lstrip s2
               else match s2 with
                    | EmptyString => s
                    | String c3 s3 => if is_space3 c1 c2 c3 then lstrip s3 else s
                    end
           end
  end.

(** [s.rstrip()]: a white-space character goes when nothing but white
    space follows it. *)
Fixpoint rstrip (s : string) : string :=
  match s with
  | EmptyString => EmptyString
  | String c1 s1 =>
      let keep := String c1 (rstrip s1) in
      if is_space c1 then
        match rstrip s1 with EmptyString => EmptyString | _ => keep end
      else match s1 with
           | EmptyString => keep
           | String c2 s2 =>
               if is_space2 c1 c2 then
                 match rstrip s2 with EmptyString => EmptyString | _ => keep end
               else match s2 with
                    | EmptyString => keep
                    | String c3 s3 =>
                        if is_space3 c1 c2 c3 then
                          match rstrip s3 with EmptyString => EmptyString | _ => keep end
                        else keep
                    end
           end
  end.

Definition strip (s : string) : string := rstrip (lstrip s).

End Py.

Export Py.

(** Outcome of a call that may raise. *)
Inductive outcome (A : Type) : Type :=
| Returned (a : A)
| Raised (exc : string).
Arguments Returned {A} a.
Arguments Raised {A} exc.

(** [os.environ]. *)
Abbreviation environ := (gmap string string).

(** [os.environ.get(k, '')]. *)
Definition env_get (env : environ) (k : string) : string := default "" (env !! k).

(** Truthiness of an optional string ([None] and [''] are both false). *)
Definition str_truthy (s : string) : bool := negb (String.eqb s "").

Definition opt_truthy (o : option string) : bool :=
  match o with Some s => str_truthy s | None => false end.

(** [o or d] where [o] is [None] or a string and [d] a string. *)
Definition opt_or (o : option string) (d : string) : string :=
  match o with
  | Some s => if str_truthy s then s else d
  | None => d
  end.

(* ===================================================================== *)
(** ** Notifications and their dispatch records *)
(* ===================================================================== *)

Inductive Notification : Type :=
| GoLive (username : string) (is_host : bool)
| EndLive (username : string)
| Gift (username : string) (gift_type gift_amount gifter_username : pyval).

(** One call of a [send_*_notification] method: what was asked, the URL
    that [send] handed to [requests.post] with a payload that can be
    encoded ([None] when there was no URL or no such payload), and the
    boolean the method returned. Whether [requests] accepts the URL and
    reaches the server shows in the boolean only: a URL that it refuses, a
    failed connection and an error status all give [False]. *)
Record Dispatch : Type := mkDispatch {
  d_note : Notification;
  d_posted : option string;
  d_ok : bool
}.

(* ===================================================================== *)
(** ** discord_webhook.py *)
(* ===================================================================== *)

Module Webhook.

Record DiscordWebhook : Type := mkWebhook {
  webhook_url : string;
  gift_webhook_url : string
}.

(** [DiscordWebhook.__init__]. *)
Definition init (env : environ) (url gift_url : option string) : DiscordWebhook :=
  {| webhook_url := opt_or url (env_get env "DISCORD_WEBHOOK_URL");
     gift_webhook_url := opt_or gift_url (env_get env "DISCORD_GIFT_WEBHOOK_URL") |}.

(** The values that [requests] encodes in an embed field (it calls
    [json.dumps] with [allow_nan=False]). *)
Definition json_ok (v : pyval) : bool :=
  match v with
  | PNone | PInt _ | PStr _ => true
  | PFloat r => negb (String.eqb r "nan" || String.eqb r "inf" || String.eqb r "-inf")
  | PObj _ _ | PMethod _ => false
  end.

(** [DiscordWebhook.send]: [False] at once without a URL; otherwise
    [requests.post(self.webhook_url, ...)] and [raise_for_status()], every
    exception of which is caught. A payload that cannot be encoded
    ([serializable = false]) makes the call raise; for one that can,
    [post_ok] says whether the call came back without raising, which it
    does not when [requests] refuses the URL, cannot connect, or gets an
    error status. Returns the result and the URL handed over. *)
Definition send (w : DiscordWebhook) (serializable post_ok : bool)
    : bool * option string :=
  if negb (str_truthy (webhook_url w)) then (false, None)
  else if negb serializable then (false, None)
  else (post_ok, Some (webhook_url w)).

(** [send_go_live_notification]: builds the embed and sends it. *)
Definition send_go_live_notification (w : DiscordWebhook) (username : string)
    (is_host : bool) (post_ok : bool) : Dispatch :=
  let '(r, url) := send w true post_ok in
  mkDispatch (GoLive username is_host) url r.

(** [send_end_live_notification]. *)
Definition send_end_live_notification (w : DiscordWebhook) (username : string)
    (post_ok : bool) : Dispatch :=
  let '(r, url) := send w true post_ok in
  mkDispatch (EndLive username) url r.

(** The format specification [{gift_amount:,}] accepts numbers only. *)
Definition format_thousands (v : pyval) : outcome unit :=
  match v with
  | PInt _ | PFloat _ => Returned tt
  | PStr _ => Raised "ValueError"
  | _ => Raised "TypeError"
  end.

(** [send_gift_notification]: the embed is built first (the quantity field
    may raise; the gift type goes into a field as it is, the other
    arguments as text); then the main URL is saved, replaced by the gift URL when
    one is configured, the embed is sent, and the saved URL is put back.
    The object after the call is returned with the outcome. *)
Definition send_gift_notification (w : DiscordWebhook) (username : string)
    (gift_type gift_amount gifter_username : pyval) (post_ok : bool)
    : DiscordWebhook * outcome Dispatch :=
  match format_thousands gift_amount with
  | Raised e => (w, Raised e)
  | Returned _ =>
      let original_webhook_url := webhook_url w in
      let w1 :=
        if str_truthy (gift_webhook_url w)
        then {| webhook_url := gift_webhook_url w;
                gift_webhook_url := gift_webhook_url w |}
        else w in
      let '(result, url) := send w1 (json_ok gift_type) post_ok in
      let w2 := {| webhook_url := original_webhook_url;
                   gift_webhook_url := gift_webhook_url w1 |} in
      (w2, Returned (mkDispatch (Gift username gift_type gift_amount gifter_username)
                                url result))
  end.

End Webhook.

(* ===================================================================== *)
(** ** monitoring_service.py: the state *)
(* ===================================================================== *)

Module Service.

Import Webhook.

(** A value of [self.last_status]: [is_live], [last_checked] and, when the
    connect handler wrote it, [connected_at]. *)
Record Status : Type := mkStatus {
  is_live : bool;
  last_checked : string;
  status_connected_at : option string
}.

(** A value of [self.current_live_users]: [connected_at] and, when the
    connect handler wrote it, [room_id]. *)
Record LiveInfo : Type := mkLiveInfo {
  connected_at : string;
  room_id : option pyval
}.

(** The attributes of a [MonitoringService], with the process environment. *)
Record MonitoringService : Type := mkService {
  _running : bool;  (* [self._running] *)
  last_status : gmap string Status;  (* [self.last_status] *)
  current_live_users : gmap string LiveInfo;  (* [self.current_live_users] *)
  host_priority : option string;  (* [self.host_priority] *)
  live_clients : gset string;  (* [self.live_clients]: the user names that hold a client *)
  loop : option bool;  (* [self.loop]: [None], or a loop with its [is_running()] *)
  loop_threads : nat;  (* threads created for the event loop so far *)
  scheduler_jobs : list string;  (* ids of the jobs held by [self.scheduler] *)
  scheduler_started : bool;  (* whether [self.scheduler] runs *)
  _webhook_url : option string;  (* [self._webhook_url] *)
  _gift_webhook_url : option string;  (* [self._gift_webhook_url] *)
  connection_attempts : gmap string Z;  (* [self.connection_attempts] *)
  notified_users : gset string;  (* [self.notified_users] *)
  successfully_connected : gset string;  (* [self.successfully_connected] *)
  connection_start_times : gmap string Z;  (* [self.connection_start_times] *)
  pending_end_notifications : gmap string Z;  (* [self.pending_end_notifications] *)
  end_notification_sent : gset string;  (* [self.end_notification_sent] *)
  end_notification_cooldown : gmap string Z;  (* [self.end_notification_cooldown] *)
  os_environ : environ  (* [os.environ], the process-wide table both classes read *)
}.

(** Assignment to one attribute. *)
Definition set_running (v : bool) (s : MonitoringService)
    : MonitoringService :=
  mkService v (last_status s) (current_live_users s) (host_priority s)
    (live_clients s) (loop s) (loop_threads s) (scheduler_jobs s)
    (scheduler_started s) (_webhook_url s) (_gift_webhook_url s)
    (connection_attempts s) (notified_users s) (successfully_connected s)
    (connection_start_times s) (pending_end_notifications s)
    (end_notification_sent s) (end_notification_cooldown s) (os_environ s).

Definition set_last_status (v : gmap string Status) (s : MonitoringService)
    : MonitoringService :=
  mkService (_running s) v (current_live_users s) (host_priority s) (live_clients s)
    (loop s) (loop_threads s) (scheduler_jobs s) (scheduler_started s)
    (_webhook_url s) (_gift_webhook_url s) (connection_attempts s)
    (notified_users s) (successfully_connected s) (connection_start_times s)
    (pending_end_notifications s) (end_notification_sent s)
    (end_notification_cooldown s) (os_environ s).

Definition set_current_live_users (v : gmap string LiveInfo) (s : MonitoringService)
    : MonitoringService :=
  mkService (_running s) (last_status s) v (host_priority s) (live_clients s)
    (loop s) (loop_threads s) (scheduler_jobs s) (scheduler_started s)
    (_webhook_url s) (_gift_webhook_url s) (connection_attempts s)
    (notified_users s) (successfully_connected s) (connection_start_times s)
    (pending_end_notifications s) (end_notification_sent s)
    (end_notification_cooldown s) (os_environ s).

Definition set_host_priority (v : option string) (s : MonitoringService)
    : MonitoringService :=
  mkService (_running s) (last_status s) (current_live_users s) v (live_clients s)
    (loop s) (loop_threads s) (scheduler_jobs s) (scheduler_started s)
    (_webhook_url s) (_gift_webhook_url s) (connection_attempts s)
    (notified_users s) (successfully_connected s) (connection_start_times s)
    (pending_end_notifications s) (end_notification_sent s)
    (end_notification_cooldown s) (os_environ s).

Definition set_live_clients (v : gset string) (s : MonitoringService)
    : MonitoringService :=
  mkService (_running s) (last_status s) (current_live_users s) (host_priority s) v
    (loop s) (loop_threads s) (scheduler_jobs s) (scheduler_started s)
    (_webhook_url s) (_gift_webhook_url s) (connection_attempts s)
    (notified_users s) (successfully_connected s) (connection_start_times s)
    (pending_end_notifications s) (end_notification_sent s)
    (end_notification_cooldown s) (os_environ s).

Definition set_loop (v : option bool) (s : MonitoringService)
    : MonitoringService :=
  mkService (_running s) (last_status s) (current_live_users s) (host_priority s)
    (live_clients s) v (loop_threads s) (scheduler_jobs s) (scheduler_started s)
    (_webhook_url s) (_gift_webhook_url s) (connection_attempts s)
    (notified_users s) (successfully_connected s) (connection_start_times s)
    (pending_end_notifications s) (end_notification_sent s)
    (end_notification_cooldown s) (os_environ s).

Definition set_loop_threads (v : nat) (s : MonitoringService)
    : MonitoringService :=
  mkService (_running s) (last_status s) (current_live_users s) (host_priority s)
    (live_clients s) (loop s) v (scheduler_jobs s) (scheduler_started s)
    (_webhook_url s) (_gift_webhook_url s) (connection_attempts s)
    (notified_users s) (successfully_connected s) (connection_start_times s)
    (pending_end_notifications s) (end_notification_sent s)
    (end_notification_cooldown s) (os_environ s).

Definition set_scheduler_jobs (v : list string) (s : MonitoringService)
    : MonitoringService :=
  mkService (_running s) (last_status s) (current_live_users s) (host_priority s)
    (live_clients s) (loop s) (loop_threads s) v (scheduler_started s)
    (_webhook_url s) (_gift_webhook_url s) (connection_attempts s)
    (notified_users s) (successfully_connected s) (connection_start_times s)
    (pending_end_notifications s) (end_notification_sent s)
    (end_notification_cooldown s) (os_environ s).

Definition set_scheduler_started (v : bool) (s : MonitoringService)
    : MonitoringService :=
  mkService (_running s) (last_status s) (current_live_users s) (host_priority s)
    (live_clients s) (loop s) (loop_threads s) (scheduler_jobs s) v (_webhook_url s)
    (_gift_webhook_url s) (connection_attempts s) (notified_users s)
    (successfully_connected s) (connection_start_times s)
    (pending_end_notifications s) (end_notification_sent s)
    (end_notification_cooldown s) (os_environ s).

Definition set_webhook_url (v : option string) (s : MonitoringService)
    : MonitoringService :=
  mkService (_running s) (last_status s) (current_live_users s) (host_priority s)
    (live_clients s) (loop s) (loop_threads s) (scheduler_jobs s)
    (scheduler_started s) v (_gift_webhook_url s) (connection_attempts s)
    (notified_users s) (successfully_connected s) (connection_start_times s)
    (pending_end_notifications s) (end_notification_sent s)
    (end_notification_cooldown s) (os_environ s).

Definition set_gift_webhook_url (v : option string) (s : MonitoringService)
    : MonitoringService :=
  mkService (_running s) (last_status s) (current_live_users s) (host_priority s)
    (live_clients s) (loop s) (loop_threads s) (scheduler_jobs s)
    (scheduler_started s) (_webhook_url s) v (connection_attempts s)
    (notified_users s) (successfully_connected s) (connection_start_times s)
    (pending_end_notifications s) (end_notification_sent s)
    (end_notification_cooldown s) (os_environ s).

Definition set_connection_attempts (v : gmap string Z) (s : MonitoringService)
    : MonitoringService :=
  mkService (_running s) (last_status s) (current_live_users s) (host_priority s)
    (live_clients s) (loop s) (loop_threads s) (scheduler_jobs s)
    (scheduler_started s) (_webhook_url s) (_gift_webhook_url s) v
    (notified_users s) (successfully_connected s) (connection_start_times s)
    (pending_end_notifications s) (end_notification_sent s)
    (end_notification_cooldown s) (os_environ s).

Definition set_notified_users (v : gset string) (s : MonitoringService)
    : MonitoringService :=
  mkService (_running s) (last_status s) (current_live_users s) (host_priority s)
    (live_clients s) (loop s) (loop_threads s) (scheduler_jobs s)
    (scheduler_started s) (_webhook_url s) (_gift_webhook_url s)
    (connection_attempts s) v (successfully_connected s) (connection_start_times s)
    (pending_end_notifications s) (end_notification_sent s)
    (end_notification_cooldown s) (os_environ s).

Definition set_successfully_connected (v : gset string) (s : MonitoringService)
    : MonitoringService :=
  mkService (_running s) (last_status s) (current_live_users s) (host_priority s)
    (live_clients s) (loop s) (loop_threads s) (scheduler_jobs s)
    (scheduler_started s) (_webhook_url s) (_gift_webhook_url s)
    (connection_attempts s) (notified_users s) v (connection_start_times s)
    (pending_end_notifications s) (end_notification_sent s)
    (end_notification_cooldown s) (os_environ s).

Definition set_connection_start_times (v : gmap string Z) (s : MonitoringService)
    : MonitoringService :=
  mkService (_running s) (last_status s) (current_live_users s) (host_priority s)
    (live_clients s) (loop s) (loop_threads s) (scheduler_jobs s)
    (scheduler_started s) (_webhook_url s) (_gift_webhook_url s)
    (connection_attempts s) (notified_users s) (successfully_connected s) v
    (pending_end_notifications s) (end_notification_sent s)
    (end_notification_cooldown s) (os_environ s).

Definition set_pending_end_notifications (v : gmap string Z) (s : MonitoringService)
    : MonitoringService :=
  mkService (_running s) (last_status s) (current_live_users s) (host_priority s)
    (live_clients s) (loop s) (loop_threads s) (scheduler_jobs s)
    (scheduler_started s) (_webhook_url s) (_gift_webhook_url s)
    (connection_attempts s) (notified_users s) (successfully_connected s)
    (connection_start_times s) v (end_notification_sent s)
    (end_notification_cooldown s) (os_environ s).

Definition set_end_notification_sent (v : gset string) (s : MonitoringService)
    : MonitoringService :=
  mkService (_running s) (last_status s) (current_live_users s) (host_priority s)
    (live_clients s) (loop s) (loop_threads s) (scheduler_jobs s)
    (scheduler_started s) (_webhook_url s) (_gift_webhook_url s)
    (connection_attempts s) (notified_users s) (successfully_connected s)
    (connection_start_times s) (pending_end_notifications s) v
    (end_notification_cooldown s) (os_environ s).

Definition set_end_notification_cooldown (v : gmap string Z) (s : MonitoringService)
    : MonitoringService :=
  mkService (_running s) (last_status s) (current_live_users s) (host_priority s)
    (live_clients s) (loop s) (loop_threads s) (scheduler_jobs s)
    (scheduler_started s) (_webhook_url s) (_gift_webhook_url s)
    (connection_attempts s) (notified_users s) (successfully_connected s)
    (connection_start_times s) (pending_end_notifications s)
    (end_notification_sent s) v (os_environ s).

Definition set_os_environ (v : environ) (s : MonitoringService)
    : MonitoringService :=
  mkService (_running s) (last_status s) (current_live_users s) (host_priority s)
    (live_clients s) (loop s) (loop_threads s) (scheduler_jobs s)
    (scheduler_started s) (_webhook_url s) (_gift_webhook_url s)
    (connection_attempts s) (notified_users s) (successfully_connected s)
    (connection_start_times s) (pending_end_notifications s)
    (end_notification_sent s) (end_notification_cooldown s) v.

(** [MonitoringService.__init__]. *)
Definition init (env : environ) : MonitoringService :=
  {| _running := false;
     last_status := ∅;
     current_live_users := ∅;
     host_priority := None;
     live_clients := ∅;
     loop := None;
     loop_threads := 0;
     scheduler_jobs := [];
     scheduler_started := false;
     _webhook_url := None;
     _gift_webhook_url := None;
     connection_attempts := ∅;
     notified_users := ∅;
     successfully_connected := ∅;
     connection_start_times := ∅;
     pending_end_notifications := ∅;
     end_notification_sent := ∅;
     end_notification_cooldown := ∅;
     os_environ := env |}.

(* ------------------------------------------------------------------- *)
(** *** Lifecycle: [start], [stop], [is_running] *)

(** [self.scheduler.add_job(..., id='check_users', replace_existing=True)]. *)
Definition add_job (id : string) (jobs : list string) : list string :=
  if bool_decide (id ∈ jobs) then jobs else jobs ++ [id].

(** [MonitoringService.start]. Everything happens under
    [if not self._running]. *)
Definition start (webhook_url gift_webhook_url : option string)
    (s : MonitoringService) : MonitoringService :=
  if negb (_running s) then
    let s1 :=
      if opt_truthy webhook_url then
        set_os_environ (<["DISCORD_WEBHOOK_URL" := opt_or webhook_url ""]> (os_environ s))
          (set_webhook_url webhook_url s)
      else set_webhook_url (Some (env_get (os_environ s) "DISCORD_WEBHOOK_URL")) s in
    let s2 :=
      if opt_truthy gift_webhook_url then
        set_os_environ
          (<["DISCORD_GIFT_WEBHOOK_URL" := opt_or gift_webhook_url ""]> (os_environ s1))
          (set_gift_webhook_url gift_webhook_url s1)
      else
        set_gift_webhook_url (Some (env_get (os_environ s1) "DISCORD_GIFT_WEBHOOK_URL")) s1 in
    let s3 := set_loop_threads (S (loop_threads s2)) (set_loop (Some true) s2) in
    let s4 := set_scheduler_jobs (add_job "check_users" (scheduler_jobs s3)) s3 in
    set_running true (set_scheduler_started true s4)
  else s.

(** [MonitoringService.stop]. *)
Definition stop (s : MonitoringService) : MonitoringService :=
  if _running s then
    let s1 := set_live_clients ∅ s in
    let s2 := match loop s1 with
              | Some _ => set_loop (Some false) s1
              | None => s1
              end in
    let s3 := set_running false (set_scheduler_started false s2) in
    set_end_notification_cooldown ∅
      (set_end_notification_sent ∅
        (set_pending_end_notifications ∅
          (set_connection_start_times ∅
            (set_successfully_connected ∅
              (set_notified_users ∅
                (set_host_priority None
                  (set_current_live_users ∅
                    (set_last_status ∅ s3))))))))
  else s.

(** [MonitoringService.is_running]. *)
Definition is_running (s : MonitoringService) : bool := _running s.

(* ------------------------------------------------------------------- *)
(** *** Readings shared by the handlers *)

(** [self.last_status.get(username, {}).get('is_live', False)]. *)
Definition was_live_of (s : MonitoringService) (username : string) : bool :=
  match last_status s !! username with
  | Some st => is_live st
  | None => false
  end.

(** [len([u for u, s in self.last_status.items() if s.get('is_live', False)])]. *)
Definition currently_live_count (ls : gmap string Status) : nat :=
  length (List.filter (λ p : string * Status, is_live p.2) (map_to_list ls)).

(** [self._webhook_url or os.environ.get('DISCORD_WEBHOOK_URL', '')]. *)
Definition main_url (s : MonitoringService) : string :=
  opt_or (_webhook_url s) (env_get (os_environ s) "DISCORD_WEBHOOK_URL").

(** [self._gift_webhook_url or os.environ.get('DISCORD_GIFT_WEBHOOK_URL', '')]. *)
Definition gift_url (s : MonitoringService) : string :=
  opt_or (_gift_webhook_url s) (env_get (os_environ s) "DISCORD_GIFT_WEBHOOK_URL").

(** [self.successfully_connected.discard(username)] followed by
    [if username in self.connection_start_times: del ...]: the clean-up
    that ends several branches. *)
Definition forget_connection (username : string) (s : MonitoringService)
    : MonitoringService :=
  set_connection_start_times (delete username (connection_start_times s))
    (set_successfully_connected (successfully_connected s ∖ {[username]}) s).

(** [if username in self.live_clients: del self.live_clients[username]]. *)
Definition drop_client (username : string) (s : MonitoringService)
    : MonitoringService :=
  set_live_clients (live_clients s ∖ {[username]}) s.

(* ------------------------------------------------------------------- *)
(** *** [on_connect] *)

(** What a connect callback reads from outside the service: the event
    object, the two clock readings and the fate of the HTTP POST, should
    one be made. *)
Record ConnectInput : Type := mkConnect {
  c_event : pyval;
  c_now : Z;           (* time.time() *)
  c_iso : string;      (* datetime.now().isoformat() *)
  c_post_ok : bool
}.

Definition on_connect (username : string) (i : ConnectInput)
    (s : MonitoringService) : MonitoringService * list Dispatch :=
  let connection_time := c_iso i in
  let room_id :=
    if truthy (c_event i) && hasattr (c_event i) "room_id"
    then getattr (c_event i) "room_id" else PNone in
  let s1 := set_successfully_connected (successfully_connected s ∪ {[username]}) s in
  let s2 := set_connection_start_times
              (<[username := c_now i]> (connection_start_times s1)) s1 in
  let s3 := set_current_live_users
              (<[username := mkLiveInfo connection_time (Some room_id)]>
                 (current_live_users s2)) s2 in
  let s4 := set_connection_attempts (delete username (connection_attempts s3)) s3 in
  let was_live := was_live_of s4 username in
  let live_now := mkStatus true connection_time (Some connection_time) in
  if bool_decide (username ∈ notified_users s4) then
    (set_last_status (<[username := live_now]> (last_status s4)) s4, [])
  else if negb was_live then
    let is_host := Nat.eqb (currently_live_count (last_status s4)) 0 in
    let webhook := Webhook.init (os_environ s4) (Some (main_url s4)) None in
    let d := send_go_live_notification webhook username is_host (c_post_ok i) in
    let s5 :=
      if d_ok d then
        set_end_notification_cooldown (delete username (end_notification_cooldown s4))
          (set_end_notification_sent (end_notification_sent s4 ∖ {[username]})
            (set_notified_users (notified_users s4 ∪ {[username]}) s4))
      else s4 in
    (set_last_status (<[username := live_now]> (last_status s5)) s5, [d])
  else
    (set_last_status (<[username := live_now]> (last_status s4)) s4, []).

(* ------------------------------------------------------------------- *)
(** *** [on_disconnect] *)

(** Result of the out-of-band request of the re-verification step: the
    request raised, or answered with a status code. *)
Inductive Probe : Type :=
| ProbeRaised
| ProbeStatus (status_code : Z).

Record DisconnectInput : Type := mkDisconnect {
  x_now : Z;           (* time.time() when the gates are evaluated *)
  x_probe : Probe;     (* requests.get(check_url, ...) after the 5 s wait *)
  x_post_ok : bool;
  x_sent_at : Z;       (* time.time() after a successful send *)
  x_iso : string       (* datetime.now().isoformat() *)
}.

(** The end of the handler that every path without [return] reaches. *)
Definition handled_disconnect (username : string) (s : MonitoringService)
    : MonitoringService :=
  drop_client username (forget_connection username s).

Definition on_disconnect (username : string) (i : DisconnectInput)
    (s : MonitoringService) : MonitoringService * list Dispatch :=
  let s1 := set_current_live_users (delete username (current_live_users s)) s in
  if bool_decide (username ∈ successfully_connected s1)
     && bool_decide (username ∈ notified_users s1) then
    if bool_decide (username ∈ end_notification_sent s1) then
      (* already sent: clean up and return *)
      (forget_connection username s1, [])
    else
      let last_end_time := default 0 (end_notification_cooldown s1 !! username) in
      let time_since_last :=
        if 0 <? last_end_time then x_now i - last_end_time else 999 in
      if time_since_last <? 60 then
        (* cooldown active: return *)
        (s1, [])
      else if was_live_of s1 username then
        let connection_start := default 0 (connection_start_times s1 !! username) in
        let connection_duration :=
          if 0 <? connection_start then x_now i - connection_start else 0 in
        if connection_duration <? 30 then
          (* too short: clean up and return, status kept *)
          (forget_connection username s1, [])
        else
          match x_probe i with
          | ProbeRaised => (s1, [])
          | ProbeStatus code =>
              if code =? 200 then (s1, [])
              else
                let webhook := Webhook.init (os_environ s1) (Some (main_url s1)) None in
                let d := send_end_live_notification webhook username (x_post_ok i) in
                let s2 :=
                  if d_ok d then
                    set_end_notification_cooldown
                      (<[username := x_sent_at i]> (end_notification_cooldown s1))
                      (set_end_notification_sent
                         (end_notification_sent s1 ∪ {[username]}) s1)
                  else s1 in
                let s3 := set_notified_users (notified_users s2 ∖ {[username]}) s2 in
                let s4 := set_last_status
                            (<[username := mkStatus false (x_iso i) None]> (last_status s3))
                            s3 in
                (handled_disconnect username s4, [d])
          end
      else
        (handled_disconnect username s1, [])
  else
    (handled_disconnect username s1, []).

(* ------------------------------------------------------------------- *)
(** *** [on_gift] *)

(** [v1 or v2 or ... or last]: the first truthy operand, else the last. *)
Fixpoint or_chain (vs : list pyval) (last : pyval) : pyval :=
  match vs with
  | [] => last
  | v :: vs' => if truthy v then v else or_chain vs' last
  end.

(** The [gift] object the handler works on: [event.gift] when the event
    has that attribute, else the event itself, else [None]. *)
Definition gift_of (event : pyval) : pyval :=
  if truthy event && hasattr event "gift" then getattr event "gift"
  else if truthy event then event
  else PNone.

(** The name taken from the five attribute names, then from [__dict__],
    then the placeholder, then the attempt to replace an id by a name. *)
Definition extract_gift_name (gift : pyval) : pyval :=
  let n0 := or_chain [getattr gift "name"; getattr gift "gift_name";
                      getattr gift "giftName"; getattr gift "giftId";
                      getattr gift "gift_id"] PNone in
  let n1 :=
    if negb (truthy n0) && has_dict gift then
      or_chain [dict_get gift "name"; dict_get gift "gift_name";
                dict_get gift "giftName"] PNone
    else n0 in
  let n2 := if negb (truthy n1) then PStr "Gift" else n1 in
  if truthy n2 && (isdigit (py_str n2) || contains "id" (lower (py_str n2))) then
    let actual_name := py_or (getattr gift "name") (getattr gift "gift_name") in
    if truthy actual_name then actual_name else n2
  else n2.

Definition extract_repeat_count (gift : pyval) : pyval :=
  or_chain [getattr gift "repeat_count"; getattr gift "repeatCount";
            getattr gift "count"; getattr gift "amount";
            (if has_dict gift then dict_get gift "repeat_count" else PNone);
            (if has_dict gift then dict_get gift "count" else PNone)]
           (PInt 1).

Definition extract_gifter (event : pyval) : pyval :=
  if truthy event && hasattr event "user" then
    let gifter := getattr event "user" in
    if truthy gifter then
      or_chain [getattr gifter "unique_id"; getattr gifter "uniqueId";
                getattr gifter "nickname"; getattr gifter "name"] (PStr "")
    else PStr ""
  else PStr "".

(** The body of the handler, inside its [try]. The service is not
    modified; the [DiscordWebhook] object is local to the call. *)
Definition on_gift_body (username : string) (event : pyval) (post_ok : bool)
    (s : MonitoringService) : outcome (list Dispatch) :=
  let gift := gift_of event in
  let '(gift_name, repeat_count) :=
    if truthy gift then (extract_gift_name gift, extract_repeat_count gift)
    else (PStr "Gift", PInt 1) in
  let gifter_username := extract_gifter event in
  let webhook := Webhook.init (os_environ s) (Some (main_url s)) (Some (gift_url s)) in
  match send_gift_notification webhook username gift_name repeat_count
          gifter_username post_ok with
  | (_, Returned d) => Returned [d]
  | (_, Raised e) => Raised e
  end.

(** [on_gift]: the body under [try: ... except Exception: print]. *)
Definition on_gift (username : string) (event : pyval) (post_ok : bool)
    (s : MonitoringService) : outcome (list Dispatch) :=
  match on_gift_body username event post_ok s with
  | Returned ds => Returned ds
  | Raised _ => Returned []
  end.

(* ------------------------------------------------------------------- *)
(** *** [connect_to_live_stream] and the failure of [client.start()] *)

(** The client is stored only when the event loop exists and runs. *)
Definition connect_to_live_stream (username : string) (s : MonitoringService)
    : MonitoringService :=
  if bool_decide (username ∈ live_clients s) then s
  else match loop s with
       | Some true => set_live_clients (live_clients s ∪ {[username]}) s
       | _ => s
       end.

(** The [except] branch of [start_connection]. *)
Definition on_start_failed (username : string) (s : MonitoringService)
    : MonitoringService :=
  forget_connection username (drop_client username s).

(* ------------------------------------------------------------------- *)
(** *** [check_users] *)

(** [user_data.get('username', '').strip()], the test for emptiness, and
    then the removal of a leading [@]. [None] stands for [continue]. *)
Definition normalize_username (raw : string) : option string :=
  let username := strip raw in
  if negb (str_truthy username) then None
  else match username with
       | String "@" rest => Some rest
       | _ => Some username
       end.

(** [currently_live[username] = {...}] on a dictionary kept in insertion
    order: an existing key keeps its place. *)
Fixpoint dict_set (k : string) (v : string) (d : list (string * string))
    : list (string * string) :=
  match d with
  | [] => [(k, v)]
  | (k', v') :: d' =>
      if String.eqb k k' then (k, v) :: d' else (k', v') :: dict_set k v d'
  end.

(** The local variables of the first loop. *)
Record PollLocals : Type := mkLocals {
  currently_live : list (string * string);   (* username, connected_at *)
  new_live_users : list (string * string);   (* username, connected_at *)
  ended_live_users : list string
}.

Record PollInput : Type := mkPoll {
  p_users : list string;       (* the 'username' entries of load_users() *)
  p_now : Z;                   (* time.time() *)
  p_iso : string;              (* datetime.now().isoformat() *)
  p_post_ok : string → bool    (* fate of the POST for each user name *)
}.

(** The connection step of an iteration: a new connection attempt when
    there is no client and the last attempt is more than 15 seconds old,
    else the removal of the client of a user who is not live. *)
Definition poll_connection (i : PollInput) (username : string) (live : bool)
    (s : MonitoringService) : MonitoringService :=
  let last_attempt := default 0 (connection_attempts s !! username) in
  let time_since_attempt :=
    if negb (last_attempt =? 0) then p_now i - last_attempt else 999 in
  if negb (bool_decide (username ∈ live_clients s)) && (15 <? time_since_attempt)
  then
    connect_to_live_stream username
      (set_connection_attempts (<[username := p_now i]> (connection_attempts s)) s)
  else if negb live && bool_decide (username ∈ live_clients s) then
    match loop s with
    | Some _ => set_live_clients (live_clients s ∖ {[username]}) s
    | None => s    (* run_coroutine_threadsafe raises, the del is skipped *)
    end
  else s.

(** One iteration of [for user_data in users]. *)
Definition check_one (i : PollInput) (raw : string)
    (acc : MonitoringService * PollLocals) : MonitoringService * PollLocals :=
  let '(s, loc) := acc in
  match normalize_username raw with
  | None => (s, loc)
  | Some username =>
      let was_live := was_live_of s username in
      let live := bool_decide (username ∈ dom (current_live_users s)) in
      let s1 := poll_connection i username live s in
      if live then
        let at_ := match current_live_users s1 !! username with
                   | Some info => connected_at info
                   | None => p_iso i
                   end in
        let cl := dict_set username at_ (currently_live loc) in
        let notified := bool_decide (username ∈ notified_users s1) in
        let '(s2, new_) :=
          if negb was_live && negb notified then
            (s1, (new_live_users loc ++ [(username, at_)])%list)
          else if was_live && notified then
            (s1, new_live_users loc)
          else if negb was_live && notified then
            (set_notified_users (notified_users s1 ∖ {[username]}) s1,
             (new_live_users loc ++ [(username, at_)])%list)
          else (s1, new_live_users loc) in
        (set_last_status (<[username := mkStatus true (p_iso i) None]> (last_status s2)) s2,
         mkLocals cl new_ (ended_live_users loc))
      else
        if was_live
           && bool_decide (username ∈ successfully_connected s1)
           && bool_decide (username ∈ notified_users s1)
           && negb (bool_decide (username ∈ live_clients s1)) then
          let connection_start := default 0 (connection_start_times s1 !! username) in
          let connection_duration :=
            if 0 <? connection_start then p_now i - connection_start else 0 in
          if 10 <=? connection_duration then
            (s1, mkLocals (currently_live loc) (new_live_users loc)
                          (ended_live_users loc ++ [username])%list)
          else (s1, loc)
        else if was_live && negb (bool_decide (username ∈ notified_users s1)) then
          (forget_connection username
             (set_last_status
                (<[username := mkStatus false (p_iso i) None]> (last_status s1)) s1),
           loc)
        else
          (set_last_status
             (<[username := mkStatus false (p_iso i) None]> (last_status s1)) s1,
           loc)
  end.

(** The host loop: the first entry, then every entry whose [connected_at]
    is strictly smaller (as strings) than the smallest so far. *)
Fixpoint elect_host (d : list (string * string)) (host earliest : option string)
    : option string :=
  match d with
  | [] => host
  | (username, connection_time) :: d' =>
      match earliest with
      | None => elect_host d' (Some username) (Some connection_time)
      | Some e =>
          if String.ltb connection_time e
          then elect_host d' (Some username) (Some connection_time)
          else elect_host d' host earliest
      end
  end.

(** One iteration of [for user_data in users_to_notify]. *)
Definition notify_one (i : PollInput) (webhook : DiscordWebhook)
    (live_count : nat) (user_data : string * string)
    (acc : MonitoringService * list Dispatch) : MonitoringService * list Dispatch :=
  let '(s, ds) := acc in
  let username := user_data.1 in
  let is_host := bool_decide (host_priority s = Some username) && (1 <? live_count)%nat in
  if bool_decide (username ∈ notified_users s) then (s, ds)
  else if negb (bool_decide (username ∈ live_clients s)) then
    let d := send_go_live_notification webhook username is_host (p_post_ok i username) in
    ((if d_ok d then set_notified_users (notified_users s ∪ {[username]}) s else s),
     (ds ++ [d])%list)
  else (s, ds).

Definition check_users (i : PollInput) (s : MonitoringService)
    : MonitoringService * list Dispatch :=
  let s0 :=
    if negb (opt_truthy (_webhook_url s))
    then set_webhook_url (Some (env_get (os_environ s) "DISCORD_WEBHOOK_URL")) s
    else s in
  if negb (opt_truthy (_webhook_url s0)) then (s0, [])
  else match p_users i with
  | [] => (s0, [])
  | _ =>
    let '(s1, loc) :=
      fold_left (λ acc raw, check_one i raw acc) (p_users i) (s0, mkLocals [] [] []) in
    let live_count := length (currently_live loc) in
    let s2 :=
      match currently_live loc with
      | [] => set_host_priority None s1
      | _ => set_host_priority (elect_host (currently_live loc) None None) s1
      end in
    let users_to_notify :=
      if (1 <? live_count)%nat then
        List.filter (λ user_data : string * string,
                       bool_decide (Some user_data.1 = host_priority s2))
                    (new_live_users loc)
      else new_live_users loc in
    let webhook := Webhook.init (os_environ s2) (Some (main_url s2)) None in
    let '(s3, ds) :=
      fold_left (λ acc user_data, notify_one i webhook live_count user_data acc)
                users_to_notify (s2, []) in
    (* the loop over ended_live_users only prints *)
    (set_current_live_users
       (list_to_map ((λ p : string * string, (p.1, mkLiveInfo p.2 None))
                       <$> currently_live loc))
       s3,
     ds)
  end.

(* ------------------------------------------------------------------- *)
(** *** Serialized histories *)

(** What can happen to the service, one thing at a time. *)
Inductive Event : Type :=
| Connect (username : string) (i : ConnectInput)
| Disconnect (username : string) (i : DisconnectInput)
| GiftReceived (username : string) (event : pyval) (post_ok : bool)
| StartFailed (username : string)
| Poll (i : PollInput).

Definition step (s : MonitoringService) (e : Event)
    : MonitoringService * list Dispatch :=
  match e with
  | Connect u i => on_connect u i s
  | Disconnect u i => on_disconnect u i s
  | GiftReceived u ev ok =>
      match on_gift u ev ok s with
      | Returned ds => (s, ds)
      | Raised _ => (s, [])
      end
  | StartFailed u => (on_start_failed u s, [])
  | Poll i => check_users i s
  end.

(** A history, with the dispatches of each event in order. *)
Fixpoint run (s : MonitoringService) (es : list Event)
    : MonitoringService * list Dispatch :=
  match es with
  | [] => (s, [])
  | e :: es' =>
      let '(s1, ds) := step s e in
      let '(s2, ds') := run s1 es' in
      (s2, (ds ++ ds')%list)
  end.

End Service.

(* ===================================================================== *)
(** ** discord_webhook.py: the embed colour *)
(* ===================================================================== *)

Module Embed.

(** [DiscordWebhook._generate_random_color]: the three components are the
    results of [random.randint(50, 255)], inputs here; the value is
    [(r << 16) | (g << 8) | b]. *)
Definition _generate_random_color (r g b : Z) : Z :=
  Z.lor (Z.lor (Z.shiftl r 16) (Z.shiftl g 8)) b.

(** What [random.randint(50, 255)] can return. *)
Definition vibrant (c : Z) : Prop := 50 ≤ c ≤ 255.

End Embed.

(* ===================================================================== *)
(** ** app.py: the routes *)
(* ===================================================================== *)

Module App.

Import Webhook Service.

(** An entry of [monitored_users.json] as [add_user] writes it. *)
Record UserData : Type := mkUser {
  ud_username : string;
  ud_added_at : string
}.

(** The process as the routes see it: the users file ([None] while it does
    not exist) and the one [MonitoringService] with the environment. *)
Record AppState : Type := mkApp {
  users_file : option (list UserData);
  monitoring_service : MonitoringService
}.

(** A JSON response: the status code and the message or error text. *)
Record Response : Type := mkResponse {
  status : Z;
  body : string
}.

(** [load_users]: the content of the file, or [[]] without a file. *)
Definition load_users (a : AppState) : list UserData := default [] (users_file a).

(** [save_users]. *)
Definition save_users (users : list UserData) (a : AppState) : AppState :=
  mkApp (Some users) (monitoring_service a).

(** The two routes that compare names compare them after [str.lower()].
    That function is a parameter of the routes here: what it does to
    letters outside [A] to [Z] is not spelled out in this file. *)
Section UserRoutes.

Variable str_lower : string → string.

(** [u.get('username', '').lower() == username.lower()]. *)
Definition same_user (username : string) (u : UserData) : bool :=
  String.eqb (str_lower (ud_username u)) (str_lower username).

(** [POST /api/users]: [raw] is [data.get('username', '')], [now_iso] the
    reading of [datetime.now().isoformat()]. *)
Definition add_user (raw now_iso : string) (a : AppState) : AppState * Response :=
  let username := strip raw in
  if negb (str_truthy username) then (a, mkResponse 400 "Username is required")
  else
    let users := load_users a in
    if existsb (same_user username) users
    then (a, mkResponse 400 "User already in list")
    else
      (save_users (users ++ [mkUser username now_iso]) a,
       mkResponse 200 "User added successfully").

(** [DELETE /api/users/<username>]. *)
Definition remove_user (username : string) (a : AppState) : AppState * Response :=
  let users := List.filter (λ u, negb (same_user username u)) (load_users a) in
  (save_users users a, mkResponse 200 "User removed successfully").

End UserRoutes.

(** Assignment to the service, for the routes that call into it. *)
Definition with_service (m : MonitoringService) (a : AppState) : AppState :=
  mkApp (users_file a) m.

(** [POST /api/monitoring/start]: the two arguments are
    [request.json.get('webhook_url', '')] and
    [request.json.get('gift_webhook_url', '')]. *)
Definition start_monitoring (raw_url raw_gift_url : string) (a : AppState)
    : AppState * Response :=
  let webhook_url := strip raw_url in
  let gift_webhook_url := strip raw_gift_url in
  if negb (str_truthy webhook_url)
  then (a, mkResponse 400 "Discord webhook URL is required")
  else
    let m := monitoring_service a in
    let env1 := <["DISCORD_WEBHOOK_URL" := webhook_url]> (os_environ m) in
    let env2 :=
      if str_truthy gift_webhook_url
      then <["DISCORD_GIFT_WEBHOOK_URL" := gift_webhook_url]> env1
      else delete "DISCORD_GIFT_WEBHOOK_URL" env1 in
    let m1 := set_os_environ env2 m in
    let m2 := start (Some webhook_url)
                (if str_truthy gift_webhook_url then Some gift_webhook_url else None)
                m1 in
    (with_service m2 a, mkResponse 200 "Monitoring started").


(** [GET /api/monitoring/status]: [is_running] and [users_count]. *)
Definition monitoring_status (a : AppState) : bool * nat :=
  (is_running (monitoring_service a), length (load_users a)).

(** The URL [test_webhook] settles on: the one of the request, else the
    environment's, else the one stored in the service. *)
Definition test_url (raw_url : string) (a : AppState) : string :=
  let webhook_url := strip raw_url in
  if str_truthy webhook_url then webhook_url
  else
    let from_env := env_get (os_environ (monitoring_service a)) "DISCORD_WEBHOOK_URL" in
    if str_truthy from_env then from_env
    else default "" (_webhook_url (monitoring_service a)).

(** [POST /api/webhook/test]: the response and the dispatch made, if any. *)
Definition test_webhook (raw_url : string) (post_ok : bool) (a : AppState)
    : Response * list Dispatch :=
  let webhook_url := test_url raw_url a in
  if negb (str_truthy webhook_url)
  then (mkResponse 400 "Discord webhook URL is required", [])
  else
    let webhook := Webhook.init (os_environ (monitoring_service a))
                     (Some webhook_url) None in
    let d := send_go_live_notification webhook "TEST_USER" false post_ok in
    if d_ok d
    then (mkResponse 200 "Test notification sent successfully! Check your Discord channel.",
          [d])
    else (mkResponse 500 "Failed to send test notification. Check console for details.",
          [d]).

End App.

(* ===================================================================== *)
(** * Vocabulary of the properties *)
(* ===================================================================== *)

Import Service.

(** States and inputs used by the examples below. *)
Module Fixture.

Definition hook : string := "https://discord.example/api/webhooks/main".
Definition gift_hook : string := "https://discord.example/api/webhooks/gifts".

(** A process environment with the main webhook configured. *)
Definition env0 : environ := {[ "DISCORD_WEBHOOK_URL" := hook ]}.

(** A freshly started service. *)
Definition s0 : MonitoringService := start None None (Service.init env0).

(** A service started with both webhooks given explicitly. *)
Definition s_both : MonitoringService :=
  start (Some hook) (Some gift_hook) (Service.init ∅).

Definition always_ok : string → bool := λ _, true.

(** A connect confirmation at clock reading [t] whose POST, if one is
    made, succeeds or not according to [ok]. *)
Definition connect_at (t : Z) (iso : string) (ok : bool) : ConnectInput :=
  mkConnect PNone t iso ok.

(** A disconnect at clock reading [t]; the re-verification request, if it
    is reached, answers 404, and the end notification, if it is sent, has
    the fate [ok] and is stamped six seconds later. *)
Definition disconnect_at (t : Z) (iso : string) (ok : bool) : DisconnectInput :=
  mkDisconnect t (ProbeStatus 404) ok (t + 6) iso.

(** A poll cycle over the watch list [users]. *)
Definition poll_at (t : Z) (iso : string) (users : list string) : PollInput :=
  mkPoll users t iso always_ok.

Definition start_ok (b : string) (is_host : bool) : Dispatch :=
  mkDispatch (GoLive b is_host) (Some hook) true.

Definition start_failed (b : string) (is_host : bool) : Dispatch :=
  mkDispatch (GoLive b is_host) (Some hook) false.

Definition end_ok (b : string) : Dispatch :=
  mkDispatch (EndLive b) (Some hook) true.

Definition end_failed (b : string) : Dispatch :=
  mkDispatch (EndLive b) (Some hook) false.

(** The service after "alice" was confirmed at 105 and her start
    notification was delivered. *)
Definition alice_live : MonitoringService :=
  (on_connect "alice" (connect_at 105 "2025-01-15T10:01:45" true) s0).1.

(** The same, except that the delivery of the start notification failed. *)
Definition alice_unannounced : MonitoringService :=
  (on_connect "alice" (connect_at 105 "2025-01-15T10:01:45" false) s0).1.


(** "bob" is confirmed at 105 and "carol" at 110, both on the watch list. *)
Definition two_live : MonitoringService :=
  (run s0
     [Poll (poll_at 100 "2025-01-15T10:01:40" ["bob"; "carol"]);
      Connect "bob" (connect_at 105 "2025-01-15T10:01:45" true);
      Connect "carol" (connect_at 110 "2025-01-15T10:01:50" true)]).1.

(** Then "bob" disconnects at 150 and his end notification is delivered. *)
Definition carol_alone : MonitoringService :=
  (on_disconnect "bob" (disconnect_at 150 "2025-01-15T10:02:30" true) two_live).1.

End Fixture.

(** Kinds of dispatch. *)
Definition is_start (d : Dispatch) : bool :=
  match d_note d with GoLive _ _ => true | _ => false end.

Definition is_end (d : Dispatch) : bool :=
  match d_note d with EndLive _ => true | _ => false end.

Definition is_start_for (b : string) (d : Dispatch) : bool :=
  match d_note d with GoLive u _ => String.eqb u b | _ => false end.

Definition is_end_for (b : string) (d : Dispatch) : bool :=
  match d_note d with EndLive u => String.eqb u b | _ => false end.

(** The attribute names under which the gift handler looks for the name of
    the gift, for the repeat count, and for the name of the gifter. *)
Definition name_keys : list string :=
  ["name"; "gift_name"; "giftName"; "giftId"; "gift_id"].

Definition count_keys : list string :=
  ["repeat_count"; "repeatCount"; "count"; "amount"].

Definition gifter_keys : list string :=
  ["unique_id"; "uniqueId"; "nickname"; "name"].

(** The names that the handler also looks up in [__dict__]. *)
Definition dict_name_keys : list string := ["name"; "gift_name"; "giftName"].

Definition dict_count_keys : list string := ["repeat_count"; "count"].

(** The values that the gift handler probes for the name of the gift, in
    its order: the five attributes, then the three entries of [__dict__];
    it probes nothing when the event has no gift object. *)
Definition name_probes (gift : pyval) : list pyval :=
  if truthy gift
  then (getattr gift <$> name_keys) ++ (dict_get gift <$> dict_name_keys)
  else [].

(** The same for the repeat count: the four attributes, then the two
    entries of [__dict__]. *)
Definition count_probes (gift : pyval) : list pyval :=
  if truthy gift
  then (getattr gift <$> count_keys) ++ (dict_get gift <$> dict_count_keys)
  else [].

(** The same for the gifter: the four attributes of [event.user]. *)
Definition gifter_probes (event : pyval) : list pyval :=
  getattr (getattr event "user") <$> gifter_keys.

(** None of the values is usable: each is absent, [None], zero or the
    empty string. A field of the payload is missing when none of the values
    probed for it is usable. *)
Definition all_falsy (vs : list pyval) : bool :=
  forallb (λ v, negb (truthy v)) vs.

(** The values that the format specification [{gift_amount:,}] accepts. *)
Definition is_number (v : pyval) : bool :=
  match v with PInt _ | PFloat _ => true | _ => false end.

(** Reading the dispatches of a history for broadcaster [b]. [session_open]
    says that a start notification for [b] has succeeded and no end
    notification for [b] has succeeded since. The history keeps to one
    start per session when no start notification for [b] is dispatched
    while the session is open. *)
Fixpoint one_start_per_session (b : string) (session_open : bool)
    (ds : list Dispatch) : bool :=
  match ds with
  | [] => true
  | d :: ds' =>
      if is_start_for b d then
        if session_open then false
        else one_start_per_session b (d_ok d) ds'
      else if is_end_for b d && d_ok d then one_start_per_session b false ds'
      else one_start_per_session b session_open ds'
  end.

(** The session flag of [b] after the dispatches [ds]: set by a delivered
    start notification, cleared by a delivered end notification. *)
Fixpoint session_after (b : string) (session_open : bool) (ds : list Dispatch) : bool :=
  match ds with
  | [] => session_open
  | d :: ds' =>
      if is_start_for b d then session_after b (d_ok d) ds'
      else if is_end_for b d && d_ok d then session_after b false ds'
      else session_after b session_open ds'
  end.

(** Every end notification for [b] among [ds] was delivered. *)
Definition ends_delivered (b : string) (ds : list Dispatch) : bool :=
  forallb (λ d, negb (is_end_for b d) || d_ok d) ds.

(** Every user in [current_live_users] is marked live in [last_status]. The
    handlers establish this for the users they enter and keep it for the
    others. *)
Definition live_implies_marked (s : MonitoringService) : Prop :=
  ∀ u, is_Some (current_live_users s !! u) → was_live_of s u = true.

(** The disconnect handler gets as far as its cooldown test for [b]: [b] is
    connected and notified, and no end notification is recorded as sent. *)
Definition reaches_cooldown_gate (b : string) (s : MonitoringService) : bool :=
  bool_decide (b ∈ successfully_connected s)
  && bool_decide (b ∈ notified_users s)
  && negb (bool_decide (b ∈ end_notification_sent s)).

(** The main webhook URL is available to [check_users], stored or in the
    environment. *)
Definition webhook_configured (s : MonitoringService) : bool :=
  opt_truthy (_webhook_url s)
  || str_truthy (env_get (os_environ s) "DISCORD_WEBHOOK_URL").

(** The state a disconnect leaves when every gate has passed and the end
    notification [d] has been sent. *)
Definition after_end_dispatch (b : string) (i : DisconnectInput)
    (s : MonitoringService) (d : Dispatch) : MonitoringService :=
  let s1 := set_current_live_users (delete b (current_live_users s)) s in
  let s2 :=
    if d_ok d then
      set_end_notification_cooldown
        (<[b := x_sent_at i]> (end_notification_cooldown s1))
        (set_end_notification_sent (end_notification_sent s1 ∪ {[b]}) s1)
    else s1 in
  handled_disconnect b
    (set_last_status (<[b := mkStatus false (x_iso i) None]> (last_status s2))
       (set_notified_users (notified_users s2 ∖ {[b]}) s2)).

(** [u] is on the watch list: some entry normalizes to it. *)
Definition watched (users : list string) (u : string) : Prop :=
  ∃ raw, raw ∈ users ∧ normalize_username raw = Some u.

(** The entry a poll cycle writes for a live user. *)
Definition live_entry (p : string * string) : string * LiveInfo :=
  (p.1, mkLiveInfo p.2 None).

(** The entries of [currently_live] agree with [current_live_users]. *)
Definition live_consistent (s : MonitoringService) (cl : list (string * string)) : Prop :=
  NoDup cl.*1 ∧
  ∀ u t, (u, t) ∈ cl →
         ∃ info, current_live_users s !! u = Some info ∧ connected_at info = t.

(** The flag a poll-cycle start notification carries, computed from the
    state the notification loop runs in and the number of live users. *)
Definition poll_is_host (s : MonitoringService) (live_count : nat) (username : string)
    : bool :=
  bool_decide (host_priority s = Some username) && (1 <? live_count)%nat.

Definition poll_start (s : MonitoringService) (live_count : nat) (d : Dispatch) : Prop :=
  ∃ username, d_note d = GoLive username (poll_is_host s live_count username).

(** Rewrites every test of a value whose truthiness is known, then decides
    the remaining test on the text of the name. *)
Ltac settle_truthy :=
  repeat (simpl;
          match goal with
          | H : truthy ?v = _ |- context [truthy ?v] => rewrite H
          end);
  simpl;
  try match goal with
      | |- context [if ?c then _ else _] => destruct c
      end.

(** What the service records about the user [u], read in two states: the
    same status, live entry, client, attempt time, flags and times. *)
Definition same_for (u : string) (s s' : MonitoringService) : Prop :=
  last_status s' !! u = last_status s !! u ∧
  current_live_users s' !! u = current_live_users s !! u ∧
  connection_attempts s' !! u = connection_attempts s !! u ∧
  connection_start_times s' !! u = connection_start_times s !! u ∧
  end_notification_cooldown s' !! u = end_notification_cooldown s !! u ∧
  (u ∈ live_clients s' ↔ u ∈ live_clients s) ∧
  (u ∈ notified_users s' ↔ u ∈ notified_users s) ∧
  (u ∈ successfully_connected s' ↔ u ∈ successfully_connected s) ∧
  (u ∈ end_notification_sent s' ↔ u ∈ end_notification_sent s).

(** What is not recorded per user: the lifecycle, the URLs, the environment
    and the host. *)
Definition same_settings (s s' : MonitoringService) : Prop :=
  _running s' = _running s ∧
  loop s' = loop s ∧
  _webhook_url s' = _webhook_url s ∧
  _gift_webhook_url s' = _gift_webhook_url s ∧
  os_environ s' = os_environ s ∧
  host_priority s' = host_priority s.

(** The seven conditions that the comment at the head of the end sequence
    lists, in the order the handler tests them: connected, announced, no
    end on record, cooldown over, marked live, connected for 30 seconds,
    and found offline by the re-verification. *)
Definition end_gates (b : string) (i : DisconnectInput) (s : MonitoringService) : bool :=
  bool_decide (b ∈ successfully_connected s)
  && bool_decide (b ∈ notified_users s)
  && negb (bool_decide (b ∈ end_notification_sent s))
  && (let last_end_time := default 0 (end_notification_cooldown s !! b) in
      negb (0 <? last_end_time) || (60 <=? x_now i - last_end_time))
  && was_live_of s b
  && (let connection_start := default 0 (connection_start_times s !! b) in
      (0 <? connection_start) && (30 <=? x_now i - connection_start))
  && match x_probe i with
     | ProbeRaised => false
     | ProbeStatus code => negb (code =? 200)
     end.

(** Splits a goal about [same_for] and [same_settings] into its fields. *)
Ltac split_same :=
  unfold same_for, same_settings;
  repeat match goal with
         | |- _ ∧ _ => split
         end.

(** Reading the dispatches of a history for [b] the other way round:
    [announced] says that a start notification for [b] has been delivered
    and no end notification for [b] has been dispatched since. Every end
    notification for [b] has to find [b] announced. *)
Fixpoint ends_follow_starts (b : string) (announced : bool) (ds : list Dispatch) : bool :=
  match ds with
  | [] => true
  | d :: ds' =>
      if is_end_for b d then announced && ends_follow_starts b false ds'
      else if is_start_for b d && d_ok d then ends_follow_starts b true ds'
      else ends_follow_starts b announced ds'
  end.

Fixpoint announced_after (b : string) (announced : bool) (ds : list Dispatch) : bool :=
  match ds with
  | [] => announced
  | d :: ds' =>
      if is_end_for b d then announced_after b false ds'
      else if is_start_for b d && d_ok d then announced_after b true ds'
      else announced_after b announced ds'
  end.

(** A cooldown time is on record only for a broadcaster whose end is on
    record. *)
Definition cooldown_with_end (s : MonitoringService) : Prop :=
  ∀ b, is_Some (end_notification_cooldown s !! b) → b ∈ end_notification_sent s.

(** Where a start or end notification goes, given the main URL: to that
    URL, or nowhere when there is none. *)
Definition live_route (url : string) (d : Dispatch) : Prop :=
  if is_start d || is_end d
  then d_posted d = (if str_truthy url then Some url else None)
       ∧ (str_truthy url = false → d_ok d = false)
  else True.

(** Where a gift notification goes: to the gift URL, or to the main URL
    when there is no gift URL. *)
Definition gift_route (s : MonitoringService) : string :=
  if str_truthy (gift_url s) then gift_url s else main_url s.

(** The last connection attempt for [u] is more than 15 seconds before the
    poll, or there is none on record. *)
Definition backoff_over (i : PollInput) (u : string) (s : MonitoringService) : bool :=
  let last_attempt := default 0 (connection_attempts s !! u) in
  15 <? (if negb (last_attempt =? 0) then p_now i - last_attempt else 999).

(** No two entries of the users file have the same name after
    [str_lower], and no name is empty. *)
Definition distinct_users (str_lower : string → string)
    (users : list App.UserData) : Prop :=
  NoDup ((λ u, str_lower (App.ud_username u)) <$> users) ∧
  Forall (λ u, str_truthy (App.ud_username u) = true) users.



(** The dispatch [d] is a call of [send_go_live_notification] or of
    [send_end_live_notification] on a [DiscordWebhook] whose [webhook_url]
    is [url]. *)
Definition sent_with (url : string) (d : Dispatch) : Prop :=
  ∃ (w : Webhook.DiscordWebhook) (u : string) (h ok : bool),
    Webhook.webhook_url w = url ∧
    (d = Webhook.send_go_live_notification w u h ok
     ∨ d = Webhook.send_end_live_notification w u ok).

(* ===================================================================== *)
(** * Properties *)
(* ===================================================================== *)

(* --------------------------------------------------------------------- *)
(** ** The dispatcher object *)

Lemma send_gift_notification_raises_early (w : Webhook.DiscordWebhook)
    (username : string) (gift_type gift_amount gifter_username : pyval)
    (post_ok : bool) (e : string) :
  Webhook.format_thousands gift_amount = Raised e →
  Webhook.send_gift_notification w username gift_type gift_amount gifter_username post_ok
    = (w, Raised e).
Proof. unfold Webhook.send_gift_notification. by intros ->. Qed.

Lemma send_gift_notification_keeps_gift_url (w : Webhook.DiscordWebhook)
    (username : string) (gift_type gift_amount gifter_username : pyval)
    (post_ok : bool) :
  Webhook.gift_webhook_url
    (Webhook.send_gift_notification w username gift_type gift_amount gifter_username
       post_ok).1
  = Webhook.gift_webhook_url w.
Proof.
  unfold Webhook.send_gift_notification.
  destruct (Webhook.format_thousands gift_amount); [|done].
  destruct (str_truthy (Webhook.gift_webhook_url w)); simpl;
    by destruct (Webhook.send _ _ _).
Qed.

(** C10. For every call of [send_gift_notification], whatever its arguments
    and whatever the fate of the request, the [webhook_url] field of the
    dispatcher after the call is the one from before the call; and when the
    call returns, the request (if the payload could be serialized) went to
    the gift URL if one is configured, otherwise to the main URL if that
    one is configured, otherwise nowhere. *)
Theorem send_gift_notification_restores_webhook_url :
  ∀ (w : Webhook.DiscordWebhook) (username : string)
    (gift_type gift_amount gifter_username : pyval) (post_ok : bool),
    let r := Webhook.send_gift_notification w username gift_type gift_amount
               gifter_username post_ok in
    Webhook.webhook_url r.1 = Webhook.webhook_url w ∧
    match r.2 with
    | Returned d =>
        d_posted d =
          if negb (Webhook.json_ok gift_type) then None
          else if str_truthy (Webhook.gift_webhook_url w)
               then Some (Webhook.gift_webhook_url w)
          else if str_truthy (Webhook.webhook_url w) then Some (Webhook.webhook_url w)
          else None
    | Raised _ => True
    end.
Proof.
  intros w username gift_type gift_amount gifter_username post_ok.
  unfold Webhook.send_gift_notification.
  destruct (Webhook.format_thousands gift_amount) as [[]|e]; simpl; [|done].
  unfold Webhook.send.
  destruct (str_truthy (Webhook.gift_webhook_url w)) eqn:Hg; simpl.
  - rewrite Hg. simpl. by destruct (Webhook.json_ok gift_type).
  - destruct (str_truthy (Webhook.webhook_url w)) eqn:Hm; simpl;
      by destruct (Webhook.json_ok gift_type).
Qed.

(* --------------------------------------------------------------------- *)
(** ** Lifecycle *)

(** C9. [start] on a running service returns the service as it was: the two
    stored webhook URLs, the scheduler's jobs, the number of event-loop
    threads, the environment and the running flag are all unchanged,
    whatever URLs are passed. *)
Theorem start_while_running_changes_nothing :
  ∀ (webhook_url gift_webhook_url : option string) (s : MonitoringService),
    is_running s = true →
    start webhook_url gift_webhook_url s = s ∧
    _webhook_url (start webhook_url gift_webhook_url s) = _webhook_url s ∧
    _gift_webhook_url (start webhook_url gift_webhook_url s) = _gift_webhook_url s ∧
    scheduler_jobs (start webhook_url gift_webhook_url s) = scheduler_jobs s ∧
    loop_threads (start webhook_url gift_webhook_url s) = loop_threads s ∧
    is_running (start webhook_url gift_webhook_url s) = true.
Proof.
  intros webhook_url gift_webhook_url s Hrun.
  assert (Hid : start webhook_url gift_webhook_url s = s).
  { unfold start. unfold is_running in Hrun. by rewrite Hrun. }
  rewrite Hid. by repeat split.
Qed.

Lemma start_while_running_changes_nothing_witness :
  is_running Fixture.s_both = true ∧
  start (Some "https://other.example/a") (Some "https://other.example/b") Fixture.s_both
    = Fixture.s_both ∧
  _webhook_url
    (start (Some "https://other.example/a") (Some "https://other.example/b") Fixture.s_both)
    = Some Fixture.hook.
Proof.
  destruct (start_while_running_changes_nothing
              (Some "https://other.example/a") (Some "https://other.example/b")
              Fixture.s_both eq_refl) as (Hid & Hurl & _).
  split; [reflexivity|]. split; [exact Hid|]. rewrite Hurl. reflexivity.
Defined.

(** A stopped service does take the new URLs: the guard of [start] is the
    running flag and nothing else. *)
Example start_when_stopped_takes_urls :
  _webhook_url (start (Some "https://other.example/a") None (stop Fixture.s_both))
    = Some "https://other.example/a".
Proof. reflexivity. Qed.

(* --------------------------------------------------------------------- *)
(** ** The gift handler *)

Lemma or_chain_all_falsy (vs : list pyval) (last : pyval) :
  forallb (λ v, negb (truthy v)) vs = true → or_chain vs last = last.
Proof.
  induction vs as [|v vs IH]; simpl; [done|].
  intros [Hv Hvs]%andb_prop. apply negb_true_iff in Hv. rewrite Hv. auto.
Qed.

Lemma or_chain_truthy (vs : list pyval) (last : pyval) :
  truthy last = true → truthy (or_chain vs last) = true.
Proof.
  intros Hlast. induction vs as [|v vs IH]; simpl; [done|].
  by destruct (truthy v) eqn:Hv.
Qed.

Lemma or_chain_app (vs ws : list pyval) (last : pyval) :
  or_chain (vs ++ ws) last = or_chain vs (or_chain ws last).
Proof.
  induction vs as [|v vs IH]; cbn [app or_chain]; [done|].
  by destruct (truthy v).
Qed.

Lemma or_chain_placeholder (vs : list pyval) (last : pyval) :
  or_chain vs last
  = if truthy (or_chain vs PNone) then or_chain vs PNone else last.
Proof.
  induction vs as [|v vs IH]; cbn [or_chain truthy]; [done|].
  destruct (truthy v) eqn:Hv; [by rewrite Hv|done].
Qed.

(** The id-replacement step asks for [name] and [gift_name] again; it
    cannot find what the first look-up did not. *)
Lemma replacement_is_idle (gift n : pyval) :
  n = or_chain (getattr gift <$> name_keys) n →
  (if truthy (py_or (getattr gift "name") (getattr gift "gift_name"))
   then py_or (getattr gift "name") (getattr gift "gift_name")
   else n) = n.
Proof.
  unfold name_keys, py_or. cbn [fmap list_fmap or_chain].
  destruct (truthy (getattr gift "name")) eqn:H1; [intros ->; by rewrite H1|].
  by destruct (truthy (getattr gift "gift_name")) eqn:H2.
Qed.

(** The name is the first usable value among the five attributes and then
    the three entries of [__dict__], else the placeholder; the attempt to
    replace an id by a name changes nothing. *)
Lemma extract_gift_name_first_truthy (gift : pyval) :
  extract_gift_name gift
  = or_chain ((getattr gift <$> name_keys) ++ (dict_get gift <$> dict_name_keys))
             (PStr "Gift").
Proof.
  unfold extract_gift_name. cbv zeta.
  change [getattr gift "name"; getattr gift "gift_name"; getattr gift "giftName";
          getattr gift "giftId"; getattr gift "gift_id"]
    with (getattr gift <$> name_keys).
  change [dict_get gift "name"; dict_get gift "gift_name"; dict_get gift "giftName"]
    with (dict_get gift <$> dict_name_keys).
  rewrite or_chain_app.
  set (n0 := or_chain (getattr gift <$> name_keys) PNone).
  set (d := dict_get gift <$> dict_name_keys).
  rewrite (or_chain_placeholder (getattr gift <$> name_keys) (or_chain d (PStr "Gift"))).
  fold n0.
  destruct (truthy n0) eqn:Hn0; cbn [negb andb].
  - (* found among the attributes *)
    rewrite Hn0. cbn [negb].
    assert (Hfix : n0 = or_chain (getattr gift <$> name_keys) n0).
    { rewrite (or_chain_placeholder _ n0). fold n0. by rewrite Hn0. }
    destruct (truthy n0 && _); [|done]. by apply replacement_is_idle.
  - (* not found there: [__dict__], then the placeholder *)
    assert (Hd : (if has_dict gift then or_chain d PNone else n0) = or_chain d PNone
                 ∨ truthy (if has_dict gift then or_chain d PNone else n0) = false
                   ∧ truthy (or_chain d PNone) = false).
    { destruct (has_dict gift) eqn:Hh; [by left|]. right. split; [done|].
      unfold d, dict_name_keys. destruct gift as [| | | |attrs [dict|]|]; try done. }
    assert (Hn2 : (if negb (truthy (if has_dict gift then or_chain d PNone else n0))
                   then PStr "Gift"
                   else if has_dict gift then or_chain d PNone else n0)
                  = or_chain d (PStr "Gift")).
    { rewrite (or_chain_placeholder d (PStr "Gift")).
      destruct Hd as [->|[-> ->]]; [|done]. by destruct (truthy (or_chain d PNone)). }
    rewrite Hn2.
    assert (Hname : truthy (getattr gift "name") = false
                    ∧ truthy (getattr gift "gift_name") = false).
    { revert Hn0. unfold n0, name_keys. cbn [fmap list_fmap or_chain].
      destruct (truthy (getattr gift "name")) eqn:H1; [by rewrite H1|].
      destruct (truthy (getattr gift "gift_name")) eqn:H2; [by rewrite H2|]. done. }
    destruct Hname as [H1 H2]. unfold py_or. rewrite H1, H2.
    by destruct (truthy (or_chain d (PStr "Gift")) && _).
Qed.

(** The count is the first usable value among the four attributes and then
    the two entries of [__dict__], else [1]. *)
Lemma extract_repeat_count_first_truthy (gift : pyval) :
  extract_repeat_count gift
  = or_chain ((getattr gift <$> count_keys) ++ (dict_get gift <$> dict_count_keys))
             (PInt 1).
Proof.
  unfold extract_repeat_count, count_keys, dict_count_keys.
  cbn [fmap list_fmap app].
  destruct (has_dict gift) eqn:Hh; [done|].
  by destruct gift as [| | | |attrs [dict|]|].
Qed.

(** The gifter is the first usable value among the four attributes of
    [event.user], else the empty string. *)
Lemma extract_gifter_first_truthy (event : pyval) :
  extract_gifter event = or_chain (gifter_probes event) (PStr "").
Proof.
  unfold extract_gifter, gifter_probes, gifter_keys. cbn [fmap list_fmap].
  destruct (truthy event && hasattr event "user") eqn:He.
  - destruct (truthy (getattr event "user")) eqn:Hu; [done|].
    by destruct (getattr event "user") as [|z|r|g|attrs dict|m]; try discriminate Hu.
  - destruct event as [|z|r|g|attrs dict|m]; try done.
    cbn [truthy hasattr andb getattr] in *.
    by destruct (assoc "user" attrs).
Qed.

(** What the handler extracts from an event. *)
Lemma on_gift_fields (event : pyval) :
  (if truthy (gift_of event)
   then (extract_gift_name (gift_of event), extract_repeat_count (gift_of event))
   else (PStr "Gift", PInt 1))
  = (or_chain (name_probes (gift_of event)) (PStr "Gift"),
     or_chain (count_probes (gift_of event)) (PInt 1)).
Proof.
  unfold name_probes, count_probes.
  destruct (truthy (gift_of event)); [|done].
  by rewrite extract_gift_name_first_truthy, extract_repeat_count_first_truthy.
Qed.

Lemma format_thousands_number (v : pyval) :
  (∃ e, Webhook.format_thousands v = Raised e) ↔ is_number v = false.
Proof.
  destruct v; cbn; split; try done; try (intros [e ?]; done); eauto.
Qed.

(** C8. For every gift event the handler returns; no exception leaves it.
    The gift object is [event.gift] when the event has that attribute,
    else the event itself, and there is none when the event is empty. The
    count is the first usable repeat count of the payload, else [1]. When
    the count is a number, the handler performs exactly one dispatch, a
    gift notification for the broadcaster with that count, in which the
    name is ['Gift'] if the payload carries no gift name, the count is [1]
    if it carries no repeat count, and the gifter is [''] if it carries no
    gifter. When the count is not a number (a string, say), the handler
    dispatches nothing. A field is missing when none of the values that
    the handler probes for it ([name_probes], [count_probes],
    [gifter_probes]) is usable. *)
Theorem on_gift_degrades_to_placeholders :
  ∀ (username : string) (event : pyval) (post_ok : bool) (s : MonitoringService),
    let gift := gift_of event in
    let count := or_chain (count_probes gift) (PInt 1) in
    (∃ ds, on_gift username event post_ok s = Returned ds) ∧
    gift = (if truthy event
            then if hasattr event "gift" then getattr event "gift" else event
            else PNone) ∧
    (is_number count = true →
     ∃ name gifter posted ok,
       on_gift username event post_ok s
         = Returned [mkDispatch (Gift username name count gifter) posted ok] ∧
       (all_falsy (name_probes gift) = true → name = PStr "Gift") ∧
       (all_falsy (count_probes gift) = true → count = PInt 1) ∧
       (all_falsy (gifter_probes event) = true → gifter = PStr "")) ∧
    (is_number count = false → on_gift username event post_ok s = Returned []).
Proof.
  intros username event post_ok s. cbv zeta. split; [|split; [|split]].
  - unfold on_gift. destruct (on_gift_body username event post_ok s); eauto.
  - unfold gift_of. by destruct (truthy event), (hasattr event "gift").
  - intros Hnum. unfold on_gift, on_gift_body. cbv zeta.
    rewrite on_gift_fields, extract_gifter_first_truthy.
    unfold Webhook.send_gift_notification.
    destruct (or_chain (count_probes (gift_of event)) (PInt 1)) eqn:Hc;
      try discriminate Hnum; cbn [Webhook.format_thousands].
    all: destruct (Webhook.send _ _ _) as [r url].
    all: eexists _, _, _, _; (split; [reflexivity|]).
    all: split; [intros Hl; by apply or_chain_all_falsy|].
    all: split; [intros Hl; by rewrite <- Hc; apply or_chain_all_falsy|].
    all: intros Hl; by apply or_chain_all_falsy.
  - intros Hnum. unfold on_gift, on_gift_body. cbv zeta.
    rewrite on_gift_fields, extract_gifter_first_truthy.
    unfold Webhook.send_gift_notification.
    by destruct (or_chain (count_probes (gift_of event)) (PInt 1)).
Qed.

Lemma on_gift_degrades_to_placeholders_witness :
  let event := PObj [("gift", PObj [("diamond_count", PInt 5)] (Some []))] None in
  is_number (or_chain (count_probes (gift_of event)) (PInt 1)) = true ∧
  all_falsy (name_probes (gift_of event)) = true ∧
  ∃ posted ok,
    on_gift "bob" event true Fixture.s0
      = Returned [mkDispatch (Gift "bob" (PStr "Gift") (PInt 1) (PStr "")) posted ok].
Proof.
  intros event.
  destruct (on_gift_degrades_to_placeholders "bob" event true Fixture.s0)
    as (_ & _ & Hdispatch & _).
  destruct (Hdispatch eq_refl)
    as (name & gifter & posted & ok & Heq & Hname & _ & Hgifter).
  split; [reflexivity|]. split; [reflexivity|].
  exists posted, ok.
  rewrite <- (Hname eq_refl), <- (Hgifter eq_refl). exact Heq.
Defined.

(** C8, counterexample. A gift event whose payload has a name and, as its
    count, the text ["3"]: the quantity field of the embed cannot be
    formatted, the handler catches the exception, and no gift notification
    is dispatched. *)
Example gift_with_text_count_is_not_dispatched :
  let event := PObj [("gift", PObj [("name", PStr "Rose"); ("count", PStr "3")]
                                  (Some [("name", PStr "Rose"); ("count", PStr "3")]))]
                    None in
  on_gift "bob" event true Fixture.s0 = Returned [] ∧
  ¬ ∃ d, on_gift "bob" event true Fixture.s0 = Returned [d].
Proof.
  cbv zeta. split; [by vm_compute|]. intros [d Hd]. vm_compute in Hd. discriminate Hd.
Qed.

(** A payload that has only an id is announced under that id, and a count
    that is present replaces the default. *)
Example on_gift_uses_id_and_count :
  on_gift "bob" (PObj [("gift", PObj [("giftId", PInt 5655); ("repeat_count", PInt 3)]
                                     None);
                       ("user", PObj [("nickname", PStr "carol")] None)] None)
          true Fixture.s0
  = Returned [mkDispatch (Gift "bob" (PInt 5655) (PInt 3) (PStr "carol"))
                         (Some Fixture.hook) true].
Proof. vm_compute. reflexivity. Qed.

(** A name that only [__dict__] holds is used, a float count is formatted
    like an integer one, and the gift object is the event itself when the
    event has no [gift] attribute. *)
Example on_gift_reads_dict_and_float :
  on_gift "bob" (PObj [("amount", PFloat "2.5")] (Some [("gift_name", PStr "Rose")]))
          true Fixture.s0
  = Returned [mkDispatch (Gift "bob" (PStr "Rose") (PFloat "2.5") (PStr ""))
                         (Some Fixture.hook) true].
Proof. vm_compute. reflexivity. Qed.

(* --------------------------------------------------------------------- *)
(** ** The poll cycle: what it dispatches *)

Lemma notify_one_inv (i : PollInput) (w : Webhook.DiscordWebhook) (n : nat)
    (user_data : string * string) (s : MonitoringService) (ds : list Dispatch) :
  ∃ s' ds1,
    notify_one i w n user_data (s, ds) = (s', (ds ++ ds1)%list) ∧
    host_priority s' = host_priority s ∧
    current_live_users s' = current_live_users s ∧
    Forall (poll_start s n) ds1.
Proof.
  unfold notify_one.
  destruct (bool_decide (user_data.1 ∈ notified_users s)).
  { exists s, []. rewrite app_nil_r. by repeat split. }
  destruct (negb (bool_decide (user_data.1 ∈ live_clients s))).
  - eexists _, [_]. split; [reflexivity|].
    split; [by destruct (d_ok _)|]. split; [by destruct (d_ok _)|].
    constructor; [|constructor].
    exists user_data.1. unfold Webhook.send_go_live_notification.
    by destruct (Webhook.send _ _ _).
  - exists s, []. rewrite app_nil_r. by repeat split.
Qed.

Lemma notify_fold_inv (i : PollInput) (w : Webhook.DiscordWebhook) (n : nat)
    (l : list (string * string)) :
  ∀ (s : MonitoringService) (ds : list Dispatch),
  ∃ s' ds1,
    fold_left (λ acc user_data, notify_one i w n user_data acc) l (s, ds)
      = (s', (ds ++ ds1)%list) ∧
    host_priority s' = host_priority s ∧
    current_live_users s' = current_live_users s ∧
    Forall (poll_start s n) ds1.
Proof.
  induction l as [|user_data l IH]; intros s ds; cbn [fold_left].
  - exists s, []. rewrite app_nil_r. by repeat split.
  - destruct (notify_one_inv i w n user_data s ds) as (s1 & ds1 & -> & Hh & Hc & Hd).
    destruct (IH s1 (ds ++ ds1)%list) as (s2 & ds2 & -> & Hh2 & Hc2 & Hd2).
    exists s2, (ds1 ++ ds2)%list. rewrite app_assoc.
    split; [done|]. split; [congruence|]. split; [congruence|].
    apply Forall_app. split; [done|].
    eapply Forall_impl; [exact Hd2|].
    intros d [u Hu]. exists u. unfold poll_is_host in *. by rewrite <- Hh.
Qed.

(** Every dispatch of a poll cycle is a start notification. *)
Lemma check_users_only_starts (i : PollInput) (s : MonitoringService) :
  Forall (λ d, is_start d = true) (check_users i s).2.
Proof.
  unfold check_users.
  destruct (negb (opt_truthy (_webhook_url _))); [constructor|].
  destruct (p_users i) as [|raw rest]; [constructor|].
  destruct (fold_left _ (raw :: rest) _) as [s1 loc].
  match goal with
  | |- context [fold_left ?f ?l (?a, [])] =>
      destruct (notify_fold_inv i
                  (Webhook.init (os_environ a) (Some (main_url a)) None)
                  (length (currently_live loc)) l a [])
        as (s3 & ds & Heq & _ & _ & Hds)
  end.
  rewrite Heq. simpl.
  eapply Forall_impl; [exact Hds|].
  intros d [u Hu]. unfold is_start. by rewrite Hu.
Qed.

Lemma on_connect_only_starts (username : string) (i : ConnectInput)
    (s : MonitoringService) :
  Forall (λ d, is_start d = true) (on_connect username i s).2.
Proof.
  unfold on_connect.
  destruct (bool_decide _); [constructor|].
  destruct (negb _); [|constructor].
  simpl. constructor; [|constructor].
  unfold is_start, Webhook.send_go_live_notification. by destruct (Webhook.send _ _ _).
Qed.

Lemma on_gift_only_gifts (username : string) (event : pyval) (post_ok : bool)
    (s : MonitoringService) (ds : list Dispatch) :
  on_gift username event post_ok s = Returned ds →
  Forall (λ d, is_end d = false) ds.
Proof.
  unfold on_gift, on_gift_body.
  destruct (if truthy (gift_of event) then _ else _) as [gift_name repeat_count].
  unfold Webhook.send_gift_notification.
  destruct (Webhook.format_thousands repeat_count).
  - destruct (Webhook.send _ _ _). intros [= <-]. by repeat constructor.
  - intros [= <-]. constructor.
Qed.

Lemma starts_are_not_ends (ds : list Dispatch) :
  Forall (λ d, is_start d = true) ds → forallb (λ d, negb (is_end d)) ds = true.
Proof.
  induction 1 as [|d ds Hd _ IH]; simpl; [done|].
  rewrite IH, andb_true_r. unfold is_start, is_end in *. by destruct (d_note d).
Qed.

(** C6. No poll cycle dispatches an end notification, in any state and for
    any watch list; and among all the events of a history only a
    disconnect event can dispatch one. *)
Theorem poll_never_dispatches_end :
  (∀ (i : PollInput) (s : MonitoringService),
     forallb (λ d, negb (is_end d)) (check_users i s).2 = true) ∧
  (∀ (s : MonitoringService) (e : Event),
     match e with
     | Disconnect _ _ => True
     | _ => forallb (λ d, negb (is_end d)) (step s e).2 = true
     end).
Proof.
  split.
  - intros i s. apply starts_are_not_ends, check_users_only_starts.
  - intros s [u i|u i|u ev ok|u|i]; simpl; [ | done | | done | ].
    + apply starts_are_not_ends, on_connect_only_starts.
    + destruct (on_gift u ev ok s) as [ds|e] eqn:Hg; simpl; [|done].
      apply on_gift_only_gifts in Hg.
      induction Hg as [|d ds Hd _ IH]; simpl; [done|]. by rewrite Hd, IH.
    + apply starts_are_not_ends, check_users_only_starts.
Qed.

(* --------------------------------------------------------------------- *)
(** ** The end sequence *)

(** A disconnect that comes less than 30 seconds after the recorded
    connection time dispatches nothing. *)
Lemma short_disconnect_dispatches_nothing (b : string) (i : DisconnectInput)
    (s : MonitoringService) (t0 : Z) :
  connection_start_times s !! b = Some t0 →
  x_now i - t0 < 30 →
  (on_disconnect b i s).2 = [].
Proof.
  intros Hstart Hshort. unfold on_disconnect. simpl.
  repeat (match goal with
          | |- context [if ?c then _ else _] => destruct c eqn:?
          end; simpl; try done).
  all: rewrite Hstart in *; simpl in *.
  all: repeat match goal with
         | H : ((if ?c then _ else _) <? _) = _ |- _ => destruct c eqn:?
         | H : (_ <? _) = false |- _ => apply Z.ltb_ge in H
         | H : (_ <? _) = true |- _ => apply Z.ltb_lt in H
         end; try lia.
Qed.

(** A disconnect of a broadcaster that is not in [successfully_connected]
    dispatches nothing. *)
Lemma on_disconnect_unconnected (b : string) (i : DisconnectInput)
    (s : MonitoringService) :
  b ∉ successfully_connected s → (on_disconnect b i s).2 = [].
Proof.
  intros Hc. unfold on_disconnect. cbn [successfully_connected set_current_live_users].
  by rewrite (bool_decide_eq_false_2 _ Hc).
Qed.

(** The state and the dispatch of a disconnect that dispatches: every gate
    has passed, the dispatch is the end notification, and the state is the
    one of the last branch. *)
Lemma on_disconnect_dispatched (b : string) (i : DisconnectInput)
    (s s1 : MonitoringService) (d : Dispatch) :
  on_disconnect b i s = (s1, [d]) →
  d = Webhook.send_end_live_notification
        (Webhook.init (os_environ s) (Some (main_url s)) None) b (x_post_ok i) ∧
  s1 = after_end_dispatch b i s d ∧
  30 ≤ x_now i - default 0 (connection_start_times s !! b) ∧
  0 < default 0 (connection_start_times s !! b).
Proof.
  unfold on_disconnect. cbv zeta.
  repeat (match goal with
          | |- context [if ?c then _ else _] => destruct c eqn:?
          | |- context [match x_probe i with _ => _ end] => destruct (x_probe i)
          end; try (intros [=]; done)).
  all: intros Heq; injection Heq as Hs Hd; subst s1 d.
  all: unfold after_end_dispatch; cbv zeta.
  all: cbn [os_environ main_url _webhook_url connection_start_times
            set_current_live_users] in *.
  all: match goal with H : d_ok _ = _ |- _ => rewrite H end.
  all: split; [reflexivity|]; split; [reflexivity|].
  all: repeat match goal with
         | H : ((if ?c then _ else _) <? _) = _ |- _ => destruct c eqn:?
         | H : (_ <? _) = false |- _ => apply Z.ltb_ge in H
         | H : (_ <? _) = true |- _ => apply Z.ltb_lt in H
         end; lia.
Qed.


(** While the cooldown time [T] of [b] is recorded, a disconnect that
    comes before [T + 60] dispatches nothing. *)
Lemma cooldown_gate_suppresses (b : string) (i : DisconnectInput)
    (s : MonitoringService) (T : Z) :
  end_notification_cooldown s !! b = Some T → 0 < T → x_now i < T + 60 →
  (on_disconnect b i s).2 = [].
Proof.
  intros Hcool Hpos Hsoon. unfold on_disconnect. simpl.
  rewrite Hcool. simpl.
  destruct (bool_decide _ && bool_decide _); [|done].
  destruct (bool_decide _); [done|].
  apply Z.ltb_lt in Hpos as ->.
  assert ((x_now i - T <? 60) = true) as -> by (apply Z.ltb_lt; lia).
  done.
Qed.


(* --------------------------------------------------------------------- *)
(** ** Failed deliveries *)

(** What a connect confirmation dispatches, in terms of the state it
    finds: a start notification exactly when the broadcaster is neither
    notified nor marked live. *)
Lemma on_connect_dispatch_cases (b : string) (i : ConnectInput)
    (s : MonitoringService) :
  (on_connect b i s).2 =
    if bool_decide (b ∈ notified_users s) then []
    else if was_live_of s b then []
    else [Webhook.send_go_live_notification
            (Webhook.init (os_environ s) (Some (main_url s)) None) b
            (Nat.eqb (currently_live_count (last_status s)) 0) (c_post_ok i)].
Proof.
  unfold on_connect. simpl.
  destruct (bool_decide (b ∈ notified_users s)); [done|].
  unfold was_live_of, main_url. simpl.
  destruct (last_status s !! b) as [st|]; [destruct (is_live st)|]; done.
Qed.

(** C4, as amended. When the start notification of a connect confirmation
    fails, the broadcaster stays out of [notified_users] but is marked
    live. A connect confirmation that finds this state dispatches nothing;
    one that finds the broadcaster not notified and no longer marked live
    dispatches the start notification again. *)
Theorem failed_start_retry_needs_status_reset :
  ∀ (b : string) (i : ConnectInput) (s s1 : MonitoringService) (d : Dispatch),
    on_connect b i s = (s1, [d]) →
    d_ok d = false →
    (b ∉ notified_users s1) ∧
    was_live_of s1 b = true ∧
    (∀ i2 : ConnectInput, (on_connect b i2 s1).2 = []) ∧
    (∀ (s2 : MonitoringService) (i2 : ConnectInput),
       b ∉ notified_users s2 → was_live_of s2 b = false →
       ∃ d2, (on_connect b i2 s2).2 = [d2] ∧ is_start_for b d2 = true).
Proof.
  intros b i s s1 d Hrun Hfail.
  assert (Hs1 : (b ∉ notified_users s1) ∧ was_live_of s1 b = true).
  { revert Hrun. unfold on_connect. simpl.
    destruct (bool_decide (b ∈ notified_users s)) eqn:Hn; [intros [=]|].
    apply bool_decide_eq_false in Hn.
    destruct (negb _); [|intros [=]].
    intros Heq. injection Heq as Hs Hd. subst s1 d. rewrite Hfail.
    unfold was_live_of. simpl. rewrite lookup_insert_eq. done. }
  destruct Hs1 as [Hn Hl].
  split; [exact Hn|]. split; [exact Hl|]. split.
  - intros i2. rewrite on_connect_dispatch_cases, Hl. by destruct (bool_decide _).
  - intros s2 i2 Hn2 Hl2. rewrite on_connect_dispatch_cases, Hl2.
    rewrite bool_decide_eq_false_2 by done.
    eexists. split; [reflexivity|].
    unfold is_start_for, Webhook.send_go_live_notification.
    destruct (Webhook.send _ _ _). simpl. apply String.eqb_refl.
Qed.

Lemma failed_start_retry_needs_status_reset_witness :
  let i := Fixture.connect_at 105 "2025-01-15T10:01:45" false in
  on_connect "alice" i Fixture.s0
    = (Fixture.alice_unannounced, [Fixture.start_failed "alice" true]) ∧
  bool_decide ("alice" ∈ notified_users Fixture.alice_unannounced) = false ∧
  was_live_of Fixture.alice_unannounced "alice" = true ∧
  (on_connect "alice" (Fixture.connect_at 110 "2025-01-15T10:01:50" true)
     Fixture.alice_unannounced).2 = [].
Proof.
  intros i.
  assert (H1 : on_connect "alice" i Fixture.s0
               = (Fixture.alice_unannounced, [Fixture.start_failed "alice" true]))
    by (vm_compute; reflexivity).
  destruct (failed_start_retry_needs_status_reset "alice" i Fixture.s0
              Fixture.alice_unannounced (Fixture.start_failed "alice" true) H1 eq_refl)
    as (Hn & Hl & Hskip & _).
  split; [exact H1|]. split; [by apply bool_decide_eq_false|].
  split; [exact Hl|]. apply Hskip.
Defined.

(** C4, counterexample. The start notification for "alice" fails at 105.
    She is still not in [notified_users], yet neither a connect
    confirmation that follows at once, nor one that follows a disconnect,
    dispatches anything; only after a poll cycle has found her disconnected
    and reset her status does a connect confirmation dispatch again. *)
Lemma failed_start_not_retried_on_reconnect :
  let retry := Connect "alice" (Fixture.connect_at 130 "2025-01-15T10:02:10" true) in
  let drop := Disconnect "alice" (Fixture.disconnect_at 120 "2025-01-15T10:02:00" true) in
  let poll := Poll (Fixture.poll_at 125 "2025-01-15T10:02:05" ["alice"]) in
  (on_connect "alice" (Fixture.connect_at 105 "2025-01-15T10:01:45" false) Fixture.s0).2
    = [Fixture.start_failed "alice" true] ∧
  bool_decide ("alice" ∈ notified_users Fixture.alice_unannounced) = false ∧
  (run Fixture.alice_unannounced [retry]).2 = [] ∧
  (run Fixture.alice_unannounced [drop; retry]).2 = [] ∧
  (run Fixture.alice_unannounced [drop; poll; retry]).2 = [Fixture.start_ok "alice" true].
Proof. vm_compute. repeat split; reflexivity. Qed.

(** What the end sequence does when every gate has passed and the delivery
    of the end notification fails: nothing is recorded as sent, but the
    broadcaster leaves [notified_users], is marked not live, and no later
    disconnect dispatches anything for the state left behind. *)
Lemma failed_end_closes_session (b : string) (i : DisconnectInput)
    (s s1 : MonitoringService) (d : Dispatch) :
  on_disconnect b i s = (s1, [d]) → d_ok d = false →
  b ∈ notified_users s ∧
  end_notification_sent s1 = end_notification_sent s ∧
  end_notification_cooldown s1 = end_notification_cooldown s ∧
  (b ∉ notified_users s1) ∧
  was_live_of s1 b = false ∧
  ∀ i2 : DisconnectInput, (on_disconnect b i2 s1).2 = [].
Proof.
  intros Hrun Hfail.
  assert (Hn : b ∈ notified_users s).
  { revert Hrun. unfold on_disconnect. simpl.
    destruct (bool_decide (b ∈ successfully_connected s)); simpl; [|intros [=]].
    destruct (bool_decide (b ∈ notified_users s)) eqn:Hn; simpl; [|intros [=]].
    intros _. by apply bool_decide_eq_true in Hn. }
  split; [exact Hn|].
  destruct (on_disconnect_dispatched b i s s1 d Hrun) as (-> & -> & _).
  unfold after_end_dispatch. cbv zeta. rewrite Hfail.
  unfold handled_disconnect, drop_client, forget_connection.
  cbn [end_notification_sent end_notification_cooldown notified_users last_status
       successfully_connected set_live_clients set_connection_start_times
       set_successfully_connected set_last_status set_notified_users
       set_current_live_users].
  split; [done|]. split; [done|].
  split; [rewrite elem_of_difference, elem_of_singleton; tauto|].
  split.
  - unfold was_live_of.
    cbn [last_status set_live_clients set_connection_start_times
         set_successfully_connected set_last_status].
    by rewrite lookup_insert_eq.
  - intros i2. apply on_disconnect_unconnected.
    cbn [successfully_connected set_live_clients set_connection_start_times
         set_successfully_connected].
    rewrite elem_of_difference, elem_of_singleton. tauto.
Qed.

(** C2, at the failing input. "alice" is live and announced; her disconnect
    at 140 passes every gate and the delivery of the end notification
    fails. No end is recorded as sent, but she is no longer in
    [notified_users], she is marked not live, and the disconnect that
    follows dispatches nothing: the end notification is not retried. *)
Theorem failed_end_dispatch_clears_session :
  let i := Fixture.disconnect_at 140 "2025-01-15T10:02:20" false in
  let s1 := (on_disconnect "alice" i Fixture.alice_live).1 in
  bool_decide ("alice" ∈ notified_users Fixture.alice_live) = true ∧
  was_live_of Fixture.alice_live "alice" = true ∧
  (on_disconnect "alice" i Fixture.alice_live).2 = [Fixture.end_failed "alice"] ∧
  bool_decide ("alice" ∈ end_notification_sent s1) = false ∧
  bool_decide ("alice" ∈ notified_users s1) = false ∧
  was_live_of s1 "alice" = false ∧
  (on_disconnect "alice" (Fixture.disconnect_at 150 "2025-01-15T10:02:30" true) s1).2 = [].
Proof. vm_compute. repeat split; reflexivity. Qed.

(** C1, at the failing input. "alice" is confirmed and announced at 105;
    her disconnect at 140 passes every gate but the delivery of the end
    notification fails; she is confirmed again at 160 and announced a
    second time. The history holds two delivered start notifications for
    her and no delivered end notification between them. *)
Theorem duplicate_start_after_failed_end :
  let history :=
    [Connect "alice" (Fixture.connect_at 105 "2025-01-15T10:01:45" true);
     Disconnect "alice" (Fixture.disconnect_at 140 "2025-01-15T10:02:20" false);
     Connect "alice" (Fixture.connect_at 160 "2025-01-15T10:02:40" true)] in
  (run Fixture.s0 history).2
    = [Fixture.start_ok "alice" true; Fixture.end_failed "alice";
       Fixture.start_ok "alice" true] ∧
  one_start_per_session "alice" false (run Fixture.s0 history).2 = false.
Proof. vm_compute. split; reflexivity. Qed.

(** C3, at the failing input. A poll cycle opens the connection to
    "alice"; she is confirmed and announced at 105 and disconnects at 115,
    ten seconds later. The disconnect dispatches nothing and leaves her
    marked live, but takes her out of [successfully_connected]; the poll
    cycle at 130 then falls through to its last branch and marks her not
    live. *)
Theorem short_disconnect_then_poll_marks_not_live :
  let before :=
    (run Fixture.s0
       [Poll (Fixture.poll_at 100 "2025-01-15T10:01:40" ["alice"]);
        Connect "alice" (Fixture.connect_at 105 "2025-01-15T10:01:45" true)]).1 in
  let i := Fixture.disconnect_at 115 "2025-01-15T10:01:55" true in
  let after := (on_disconnect "alice" i before).1 in
  let polled := (check_users (Fixture.poll_at 130 "2025-01-15T10:02:10" ["alice"]) after).1 in
  bool_decide ("alice" ∈ notified_users before) = true ∧
  connection_start_times before !! "alice" = Some 105 ∧
  (on_disconnect "alice" i before).2 = [] ∧
  was_live_of after "alice" = true ∧
  bool_decide ("alice" ∈ notified_users after) = true ∧
  was_live_of polled "alice" = false.
Proof. vm_compute. repeat split; reflexivity. Qed.

(* --------------------------------------------------------------------- *)
(** ** Host election *)

(** The order of [connected_at] strings. *)
Lemma ltb_lt (a b : string) : String.ltb a b = true ↔ String_as_OT.lt a b.
Proof.
  unfold String.ltb. rewrite <- String_as_OT.cmp_lt. unfold String_as_OT.cmp.
  destruct (String.compare a b); split; congruence.
Qed.

Lemma ltb_trans (a b c : string) :
  String.ltb a b = true → String.ltb b c = true → String.ltb a c = true.
Proof. rewrite !ltb_lt. apply String_as_OT.lt_trans. Qed.

Lemma ltb_false_cases (a b : string) :
  String.ltb a b = false → a = b ∨ String.ltb b a = true.
Proof.
  unfold String.ltb. rewrite (String.compare_antisym b a).
  destruct (String.compare a b) eqn:Hc; simpl; intros H; try discriminate.
  - left. by apply String.compare_eq_iff.
  - by right.
Qed.

Lemma ltb_le_trans (a b c : string) :
  String.ltb a b = true → String.ltb c b = false → String.ltb a c = true.
Proof.
  intros Hab Hcb. destruct (ltb_false_cases c b Hcb) as [->|Hbc]; [done|].
  by apply (ltb_trans a b c).
Qed.

Lemma ltb_irrefl (a : string) : String.ltb a a = false.
Proof.
  destruct (String.ltb a a) eqn:H; [|done].
  apply ltb_lt in H. by apply String_as_OT.lt_not_eq in H.
Qed.

(** Started with a candidate, the host loop returns an entry that no other
    entry precedes; the candidate is replaced only by a strictly earlier
    entry. *)
Lemma elect_host_from (d : list (string * string)) :
  ∀ h0 e0 : string,
  ∃ h e,
    elect_host d (Some h0) (Some e0) = Some h ∧
    ((h, e) = (h0, e0) ∨ (h, e) ∈ d) ∧
    String.ltb e0 e = false ∧
    ∀ u t, (u, t) ∈ d → String.ltb t e = false.
Proof.
  induction d as [|[u1 t1] d IH]; intros h0 e0; simpl.
  - exists h0, e0. split; [done|]. split; [by left|]. split; [apply ltb_irrefl|].
    intros u t Hin. by apply elem_of_nil in Hin.
  - destruct (String.ltb t1 e0) eqn:Hlt.
    + destruct (IH u1 t1) as (h & e & -> & Hin & Hle & Hmin).
      exists h, e. split; [done|]. split.
      { right. destruct Hin as [[= -> ->]|Hin]; [left|by right]. }
      split.
      { destruct (String.ltb e0 e) eqn:Hc; [|done].
        rewrite (ltb_trans t1 e0 e Hlt Hc) in Hle. discriminate. }
      intros u t [[= -> ->]|Hin']%elem_of_cons; [done|]. by eapply Hmin.
    + destruct (IH h0 e0) as (h & e & -> & Hin & Hle & Hmin).
      exists h, e. split; [done|]. split.
      { destruct Hin as [Heq|Hin]; [by left|right; by right]. }
      split; [done|].
      intros u t [[= -> ->]|Hin']%elem_of_cons; [|by eapply Hmin].
      destruct (String.ltb t1 e) eqn:Hc; [|done].
      rewrite (ltb_le_trans t1 e e0 Hc Hle) in Hlt. discriminate.
Qed.

(** The host loop on a non-empty dictionary returns one of its entries,
    and no entry has a [connected_at] before the host's. *)
Lemma elect_host_earliest (d : list (string * string)) :
  d ≠ [] →
  ∃ h e,
    elect_host d None None = Some h ∧
    (h, e) ∈ d ∧
    ∀ u t, (u, t) ∈ d → String.ltb t e = false.
Proof.
  destruct d as [|[u1 t1] d]; [done|]. intros _. simpl.
  destruct (elect_host_from d u1 t1) as (h & e & -> & Hin & Hle & Hmin).
  exists h, e. split; [done|]. split.
  - destruct Hin as [[= -> ->]|Hin]; [left|by right].
  - intros u t [[= -> ->]|Hin']%elem_of_cons; [done|]. by eapply Hmin.
Qed.

(** Among entries with the same earliest time the first one is the host. *)
Example elect_host_tie :
  elect_host [("bob", "2025-01-15T10:00:00"); ("carol", "2025-01-15T10:00:00")] None None
  = Some "bob".
Proof. reflexivity. Qed.

(** [dict_set] keeps the keys distinct and in place. *)
Lemma dict_set_keys (k v : string) (d : list (string * string)) :
  (dict_set k v d).*1 = if bool_decide (k ∈ d.*1) then d.*1 else (d.*1 ++ [k])%list.
Proof.
  induction d as [|[k' v'] d IH]; [done|].
  cbn [dict_set]. destruct (String.eqb_spec k k') as [->|Hne]; rewrite !fmap_cons.
  - cbn [fst]. by rewrite bool_decide_eq_true_2 by left.
  - cbn [fst]. rewrite IH. destruct (bool_decide (k ∈ d.*1)) eqn:Hk.
    + apply bool_decide_eq_true in Hk. by rewrite bool_decide_eq_true_2 by by right.
    + apply bool_decide_eq_false in Hk.
      rewrite bool_decide_eq_false_2; [done|].
      by intros [?|?]%elem_of_cons.
Qed.

Lemma dict_set_NoDup (k v : string) (d : list (string * string)) :
  NoDup d.*1 → NoDup (dict_set k v d).*1.
Proof.
  intros Hd. rewrite dict_set_keys. case_bool_decide as Hk; [done|].
  apply NoDup_app. split; [done|]. split; [|apply NoDup_singleton].
  intros x Hx ->%list_elem_of_singleton. done.
Qed.

Lemma elem_of_dict_set (k v : string) (d : list (string * string)) (u t : string) :
  NoDup d.*1 →
  (u, t) ∈ dict_set k v d ↔ (u = k ∧ t = v) ∨ (u ≠ k ∧ (u, t) ∈ d).
Proof.
  induction d as [|[k' v'] d IH]; cbn [dict_set]; intros Hd.
  - rewrite list_elem_of_singleton. split.
    + intros [= -> ->]. by left.
    + intros [[-> ->]|[_ H]]; [done|]. by apply elem_of_nil in H.
  - rewrite fmap_cons in Hd. cbn [fst] in Hd. apply NoDup_cons in Hd as [Hk' Hd].
    destruct (String.eqb_spec k k') as [->|Hne].
    + rewrite !elem_of_cons. split.
      * intros [[= -> ->]|Hin]; [by left|]. right. split; [|by right].
        intros ->. apply Hk'. apply list_elem_of_fmap. by exists (k', t).
      * intros [[-> ->]|[Hne [[= -> _]|Hin]]]; [by left|done|by right].
    + rewrite !elem_of_cons, (IH Hd). split.
      * intros [[= -> ->]|[[-> ->]|[Hu Hin]]].
        -- right. split; [done|by left].
        -- by left.
        -- right. split; [done|by right].
      * intros [[-> ->]|[Hu [[= -> ->]|Hin]]].
        -- right. by left.
        -- by left.
        -- right. right. by split.
Qed.

(* --------------------------------------------------------------------- *)
(** ** The poll cycle: the live set it computes *)

Lemma connect_to_live_stream_frame (u : string) (s : MonitoringService) :
  current_live_users (connect_to_live_stream u s) = current_live_users s ∧
  os_environ (connect_to_live_stream u s) = os_environ s ∧
  _webhook_url (connect_to_live_stream u s) = _webhook_url s ∧
  last_status (connect_to_live_stream u s) = last_status s ∧
  notified_users (connect_to_live_stream u s) = notified_users s.
Proof.
  unfold connect_to_live_stream.
  destruct (bool_decide _); [done|]. by destruct (loop s) as [[]|].
Qed.

(** The connection step touches the clients and the attempt times only. *)
Lemma poll_connection_frame (i : PollInput) (u : string) (live : bool)
    (s : MonitoringService) :
  current_live_users (poll_connection i u live s) = current_live_users s ∧
  os_environ (poll_connection i u live s) = os_environ s ∧
  _webhook_url (poll_connection i u live s) = _webhook_url s ∧
  last_status (poll_connection i u live s) = last_status s ∧
  notified_users (poll_connection i u live s) = notified_users s.
Proof.
  unfold poll_connection. cbv zeta.
  destruct (_ && _).
  - exact (connect_to_live_stream_frame u
             (set_connection_attempts (<[u := p_now i]> (connection_attempts s)) s)).
  - destruct (_ && _); [|done]. by destruct (loop s).
Qed.

(** One iteration leaves [current_live_users], the environment and the
    stored URL alone, and enters the user into [currently_live] exactly
    when the user is in [current_live_users]. *)
Lemma check_one_spec (i : PollInput) (raw : string) (s : MonitoringService)
    (loc : PollLocals) :
  let r := check_one i raw (s, loc) in
  current_live_users r.1 = current_live_users s ∧
  os_environ r.1 = os_environ s ∧
  _webhook_url r.1 = _webhook_url s ∧
  currently_live r.2 =
    match normalize_username raw with
    | Some u =>
        match current_live_users s !! u with
        | Some info => dict_set u (connected_at info) (currently_live loc)
        | None => currently_live loc
        end
    | None => currently_live loc
    end.
Proof.
  unfold check_one.
  destruct (normalize_username raw) as [u|]; [|done].
  cbv zeta.
  destruct (poll_connection_frame i u
              (bool_decide (u ∈ dom (current_live_users s))) s)
    as (Hc & He & Hw & _ & _).
  set (s1 := poll_connection i u _ s) in *. clearbody s1.
  destruct (current_live_users s !! u) as [info|] eqn:Hlook.
  - rewrite bool_decide_eq_true_2 by (apply elem_of_dom; eauto).
    rewrite Hc, Hlook.
    repeat case_match; simplify_eq; cbn; done.
  - rewrite bool_decide_eq_false_2
      by (rewrite elem_of_dom, Hlook; by intros [? ?]).
    repeat case_match; simplify_eq; cbn; done.
Qed.

Lemma check_fold_spec (i : PollInput) (users : list string) :
  ∀ (s : MonitoringService) (loc : PollLocals),
    live_consistent s (currently_live loc) →
    let r := fold_left (λ acc raw, check_one i raw acc) users (s, loc) in
    current_live_users r.1 = current_live_users s ∧
    os_environ r.1 = os_environ s ∧
    _webhook_url r.1 = _webhook_url s ∧
    NoDup (currently_live r.2).*1 ∧
    ∀ u t, (u, t) ∈ currently_live r.2 ↔
           (u, t) ∈ currently_live loc ∨
           (watched users u ∧
            ∃ info, current_live_users s !! u = Some info ∧ connected_at info = t).
Proof.
  induction users as [|raw users IH]; intros s loc [Hnd Hcons]; cbn [fold_left].
  - cbn. repeat split; try done; [by left|].
    intros [H|[(raw & Hin & _) _]]; [done|]. by apply elem_of_nil in Hin.
  - pose proof (check_one_spec i raw s loc) as Hone. cbv zeta in Hone.
    destruct (check_one i raw (s, loc)) as [s1 loc1]. cbn [fst snd] in Hone.
    destruct Hone as (Hc1 & He1 & Hw1 & Hcl1).
    assert (Hcons1 : live_consistent s1 (currently_live loc1)).
    { split.
      - rewrite Hcl1. destruct (normalize_username raw) as [u0|]; [|done].
        destruct (current_live_users s !! u0); [by apply dict_set_NoDup|done].
      - intros u t. rewrite Hcl1, Hc1.
        destruct (normalize_username raw) as [u0|]; [|by apply Hcons].
        destruct (current_live_users s !! u0) as [info0|] eqn:Hl0; [|by apply Hcons].
        intros [[-> ->]|[_ Hin]]%elem_of_dict_set; [eauto|eauto|done]. }
    specialize (IH s1 loc1 Hcons1). cbv zeta in IH.
    destruct IH as (Hc & He & Hw & Hnd' & Hiff).
    split; [congruence|]. split; [congruence|]. split; [congruence|].
    split; [done|].
    intros u t. rewrite Hiff, Hc1, Hcl1. clear Hiff.
    unfold watched. setoid_rewrite elem_of_cons.
    destruct (normalize_username raw) as [u0|] eqn:Hnorm.
    + destruct (current_live_users s !! u0) as [info0|] eqn:Hl0.
      * rewrite (elem_of_dict_set _ _ _ _ _ Hnd). split.
        -- intros [[[-> ->]|[Hne Hin]]|[(raw' & Hin & Hn') Hlive]].
           ++ right. split; [exists raw; eauto|eauto].
           ++ by left.
           ++ right. split; [exists raw'; eauto|done].
        -- intros [Hin|[(raw' & [->|Hin] & Hn') (info & Hl & Ht)]].
           ++ destruct (decide (u = u0)) as [->|Hne]; [|left; right; done].
              left. left. split; [done|].
              destruct (Hcons u0 t Hin) as (info & Hl & <-). congruence.
           ++ left. left. simplify_eq. done.
           ++ right. split; [exists raw'; eauto|eauto].
      * split.
        -- intros [Hin|[(raw' & Hin & Hn') Hlive]]; [by left|].
           right. split; [exists raw'; eauto|done].
        -- intros [Hin|[(raw' & [->|Hin] & Hn') (info & Hl & Ht)]]; [by left| |].
           ++ simplify_eq.
           ++ right. split; [exists raw'; eauto|eauto].
    + split.
      * intros [Hin|[(raw' & Hin & Hn') Hlive]]; [by left|].
        right. split; [exists raw'; eauto|done].
      * intros [Hin|[(raw' & [->|Hin] & Hn') (info & Hl & Ht)]]; [by left| |].
        -- simplify_eq.
        -- right. split; [exists raw'; eauto|eauto].
Qed.

Lemma poll_start_ext (s s' : MonitoringService) (n : nat) (d : Dispatch) :
  host_priority s = host_priority s' → poll_start s n d → poll_start s' n d.
Proof. intros H [u Hu]. exists u. unfold poll_is_host in *. by rewrite <- H. Qed.

(** A poll cycle that gets past its two early returns: the live set it
    computes is the watched part of [current_live_users], it becomes the
    new [current_live_users], the host is elected over it, and its
    dispatches carry the flag of the poll path. *)
Lemma check_users_poll_state (i : PollInput) (s : MonitoringService) :
  webhook_configured s = true →
  p_users i ≠ [] →
  ∃ cl : list (string * string),
    NoDup cl.*1 ∧
    (∀ u t, (u, t) ∈ cl ↔
            watched (p_users i) u ∧
            ∃ info, current_live_users s !! u = Some info ∧ connected_at info = t) ∧
    current_live_users (check_users i s).1 = list_to_map (live_entry <$> cl) ∧
    host_priority (check_users i s).1
      = match cl with [] => None | _ => elect_host cl None None end ∧
    Forall (poll_start (check_users i s).1 (length cl)) (check_users i s).2.
Proof.
  intros Hurl Husers. unfold check_users.
  set (s0 := if negb (opt_truthy (_webhook_url s)) then _ else s).
  assert (Hs0 : opt_truthy (_webhook_url s0) = true
                ∧ current_live_users s0 = current_live_users s).
  { unfold s0, webhook_configured in *.
    destruct (opt_truthy (_webhook_url s)) eqn:Hs; cbn in *; [done|].
    split; [|done]. unfold opt_truthy. cbn. exact Hurl. }
  destruct Hs0 as [Hcfg Hclu0]. rewrite Hcfg. cbn [negb].
  destruct (p_users i) as [|raw rest] eqn:Hpu; [done|]. clear Husers.
  assert (Hinit : live_consistent s0 (currently_live (mkLocals [] [] []))).
  { split; cbn; [constructor|]. intros u t Hin. by apply elem_of_nil in Hin. }
  pose proof (check_fold_spec i (raw :: rest) s0 (mkLocals [] [] []) Hinit) as Hfold.
  cbv zeta in Hfold.
  destruct (fold_left _ (raw :: rest) _) as [s1 loc].
  cbn [fst snd currently_live] in Hfold.
  destruct Hfold as (Hc1 & _ & _ & Hnd & Hiff).
  exists (currently_live loc).
  split; [exact Hnd|]. split.
  { intros u t. rewrite Hiff, Hclu0. split; [|by right].
    intros [Hin|H]; [by apply elem_of_nil in Hin|done]. }
  set (s2 := match currently_live loc with [] => _ | _ => _ end).
  assert (Hh2 : host_priority s2
                = match currently_live loc with
                  | [] => None
                  | _ => elect_host (currently_live loc) None None
                  end).
  { unfold s2. by destruct (currently_live loc). }
  match goal with
  | |- context [fold_left ?f ?l (s2, [])] =>
      destruct (notify_fold_inv i
                  (Webhook.init (os_environ s2) (Some (main_url s2)) None)
                  (length (currently_live loc)) l s2 [])
        as (s3 & ds & Heq & Hh3 & _ & Hds)
  end.
  rewrite Heq. cbn [fst snd app].
  split; [reflexivity|]. split.
  - cbn [host_priority set_current_live_users]. congruence.
  - eapply Forall_impl; [exact Hds|]. intros d. apply poll_start_ext.
    cbn [host_priority set_current_live_users]. congruence.
Qed.

(** The scenario of the specification: with "bob" confirmed before "carol"
    the host is "bob"; once "bob" has ended and only "carol" is live, the
    next election returns "carol". *)
Example host_moves_to_carol :
  host_priority
    (check_users (Fixture.poll_at 130 "2025-01-15T10:02:10" ["bob"; "carol"])
                 Fixture.two_live).1 = Some "bob" ∧
  (on_disconnect "bob" (Fixture.disconnect_at 150 "2025-01-15T10:02:30" true)
                 Fixture.two_live).2 = [Fixture.end_ok "bob"] ∧
  host_priority
    (check_users (Fixture.poll_at 160 "2025-01-15T10:02:40" ["bob"; "carol"])
                 Fixture.carol_alone).1 = Some "carol".
Proof. vm_compute. repeat split; reflexivity. Qed.

(* --------------------------------------------------------------------- *)
(** ** One start per session, as long as end notifications are delivered *)

Lemma one_start_per_session_app (b : string) (ds ds' : list Dispatch) :
  ∀ o : bool,
    one_start_per_session b o (ds ++ ds')
    = one_start_per_session b o ds
      && one_start_per_session b (session_after b o ds) ds'.
Proof.
  induction ds as [|d ds IH]; intros o; cbn [app one_start_per_session session_after].
  - done.
  - destruct (is_start_for b d).
    + destruct o; [done|]. apply IH.
    + destruct (is_end_for b d && d_ok d); apply IH.
Qed.

Lemma ends_delivered_app (b : string) (ds ds' : list Dispatch) :
  ends_delivered b (ds ++ ds') = ends_delivered b ds && ends_delivered b ds'.
Proof. unfold ends_delivered. apply forallb_app. Qed.

(** A disconnect that dispatches nothing leaves [notified_users] and
    [last_status] as they were. *)
Lemma on_disconnect_quiet (u : string) (i : DisconnectInput)
    (s s' : MonitoringService) :
  on_disconnect u i s = (s', []) →
  notified_users s' = notified_users s ∧
  last_status s' = last_status s ∧
  current_live_users s' = delete u (current_live_users s).
Proof.
  unfold on_disconnect. cbv zeta.
  repeat (match goal with
          | |- context [if ?c then _ else _] => destruct c eqn:?
          | |- context [match x_probe i with _ => _ end] => destruct (x_probe i)
          end; try (intros [=]; done)).
  all: intros Heq; injection Heq as Hs; subst s'; done.
Qed.

Lemma on_disconnect_shape (u : string) (i : DisconnectInput) (s : MonitoringService) :
  (on_disconnect u i s).2 = [] ∨
  ∃ d, (on_disconnect u i s).2 = [d] ∧ d_note d = EndLive u.
Proof.
  unfold on_disconnect. cbv zeta.
  repeat (match goal with
          | |- context [if ?c then _ else _] => destruct c eqn:?
          | |- context [match x_probe i with _ => _ end] => destruct (x_probe i)
          end; try (left; done)).
  all: right; eexists; (split; [reflexivity|]).
  all: unfold Webhook.send_end_live_notification; by destruct (Webhook.send _ _ _).
Qed.

Lemma was_live_of_insert (s : MonitoringService) (u v : string) (st : Status)
    (ls : gmap string Status) :
  last_status s = <[u := st]> ls →
  was_live_of s v = if decide (u = v) then is_live st
                    else match ls !! v with Some st' => is_live st' | None => false end.
Proof.
  intros H. unfold was_live_of. rewrite H, lookup_insert. by destruct (decide (u = v)).
Qed.

Lemma on_connect_marks (u : string) (i : ConnectInput) (s : MonitoringService) :
  ∃ ls st,
    last_status (on_connect u i s).1 = <[u := st]> (last_status s) ∧ is_live st = true ∧
    ls = last_status s ∧
    ∃ info, current_live_users (on_connect u i s).1 = <[u := info]> (current_live_users s).
Proof.
  unfold on_connect. cbv zeta.
  exists (last_status s). eexists.
  repeat (match goal with
          | |- context [if ?c then _ else _] => destruct c eqn:?
          end); cbn; (split; [reflexivity|]); (split; [reflexivity|]);
    (split; [reflexivity|]); eexists; reflexivity.
Qed.

Lemma on_connect_keeps_marks (u : string) (i : ConnectInput) (s : MonitoringService) :
  live_implies_marked s → live_implies_marked (on_connect u i s).1.
Proof.
  intros Hinv v Hv.
  destruct (on_connect_marks u i s) as (ls & st & Hls & Hst & -> & info & Hclu).
  rewrite (was_live_of_insert _ u v st _ Hls).
  destruct (decide (u = v)) as [->|Hne]; [done|].
  rewrite Hclu, lookup_insert_ne in Hv by done.
  apply (Hinv v Hv).
Qed.

Lemma on_disconnect_keeps_marks (u : string) (i : DisconnectInput)
    (s : MonitoringService) :
  live_implies_marked s → live_implies_marked (on_disconnect u i s).1.
Proof.
  intros Hinv v Hv.
  destruct (on_disconnect u i s) as [s' ds] eqn:Hrun. cbn [fst] in *.
  destruct (on_disconnect_shape u i s) as [Hq|(d & Hd & _)]; rewrite Hrun in *;
    cbn [snd] in *; subst ds.
  - destruct (on_disconnect_quiet u i s s' Hrun) as (_ & Hls & Hclu).
    rewrite Hclu in Hv. destruct (decide (u = v)) as [->|Hne].
    + rewrite lookup_delete_eq in Hv. by destruct Hv.
    + rewrite lookup_delete_ne in Hv by done.
      unfold was_live_of. rewrite Hls. apply (Hinv v Hv).
  - destruct (on_disconnect_dispatched u i s s' d Hrun) as (_ & -> & _).
    revert Hv. unfold after_end_dispatch, handled_disconnect, drop_client,
      forget_connection, was_live_of. cbv zeta.
    destruct (d_ok d);
      cbn [current_live_users last_status set_live_clients set_connection_start_times
           set_successfully_connected set_last_status set_notified_users
           set_end_notification_cooldown set_end_notification_sent
           set_current_live_users].
    all: destruct (decide (u = v)) as [->|Hne];
      [rewrite lookup_delete_eq; by intros [? ?]|].
    all: rewrite lookup_delete_ne, lookup_insert_ne by done; apply Hinv.
Qed.

(** One iteration of the poll loop in a state where every live user is
    marked live: nobody is reported as newly live, [notified_users] is not
    touched, and the live users stay marked. *)
Lemma check_one_marked (i : PollInput) (raw : string) (s s0 : MonitoringService)
    (loc : PollLocals) :
  current_live_users s = current_live_users s0 →
  (∀ v, is_Some (current_live_users s0 !! v) → was_live_of s v = true) →
  new_live_users loc = [] →
  (∀ v, is_Some (current_live_users s0 !! v) →
        was_live_of (check_one i raw (s, loc)).1 v = true) ∧
  new_live_users (check_one i raw (s, loc)).2 = [] ∧
  notified_users (check_one i raw (s, loc)).1 = notified_users s.
Proof.
  intros Hclu Hmark Hnew. unfold check_one.
  destruct (normalize_username raw) as [u|]; [|done].
  cbv zeta.
  destruct (poll_connection_frame i u
              (bool_decide (u ∈ dom (current_live_users s))) s)
    as (Hc & _ & _ & Hls & Hn).
  set (s1 := poll_connection i u _ s) in *. clearbody s1.
  assert (Hother : ∀ (st : Status) (v : string),
            u ≠ v → is_Some (current_live_users s0 !! v) →
            match <[u := st]> (last_status s1) !! v with
            | Some st' => is_live st'
            | None => false
            end = true).
  { intros st v Hne Hv. rewrite lookup_insert_ne, Hls by done. by apply Hmark. }
  destruct (current_live_users s !! u) as [info|] eqn:Hlook.
  - rewrite bool_decide_eq_true_2 by (apply elem_of_dom; eauto).
    rewrite (Hmark u) by (rewrite <- Hclu, Hlook; eauto).
    cbn [negb andb].
    destruct (bool_decide (u ∈ notified_users s1));
      cbn [fst snd new_live_users notified_users last_status set_last_status].
    all: split; [|by split].
    all: intros v Hv; unfold was_live_of;
      cbn [last_status set_last_status]; destruct (decide (u = v)) as [->|Hne];
      [by rewrite lookup_insert_eq|by apply Hother].
  - assert (Hu : ¬ is_Some (current_live_users s0 !! u)).
    { rewrite <- Hclu, Hlook. by intros [? ?]. }
    rewrite bool_decide_eq_false_2
      by (rewrite elem_of_dom, Hlook; by intros [? ?]).
    repeat match goal with
           | |- context [if ?c then _ else _] => destruct c
           end;
      unfold forget_connection;
      cbn [fst snd new_live_users notified_users last_status set_last_status
           set_connection_start_times set_successfully_connected].
    all: split; [|by split].
    all: intros v Hv; unfold was_live_of;
      cbn [last_status set_last_status set_connection_start_times
           set_successfully_connected];
      try (rewrite Hls; by apply Hmark).
    all: destruct (decide (u = v)) as [->|Hne]; [done|by apply Hother].
Qed.

Lemma check_fold_marked (i : PollInput) (users : list string) (s0 : MonitoringService) :
  ∀ (s : MonitoringService) (loc : PollLocals),
    current_live_users s = current_live_users s0 →
    (∀ v, is_Some (current_live_users s0 !! v) → was_live_of s v = true) →
    new_live_users loc = [] →
    let r := fold_left (λ acc raw, check_one i raw acc) users (s, loc) in
    (∀ v, is_Some (current_live_users s0 !! v) → was_live_of r.1 v = true) ∧
    new_live_users r.2 = [] ∧
    notified_users r.1 = notified_users s.
Proof.
  induction users as [|raw users IH]; intros s loc Hclu Hmark Hnew; cbn [fold_left].
  - by cbn.
  - destruct (check_one_marked i raw s s0 loc Hclu Hmark Hnew) as (Hm1 & Hn1 & Hnot1).
    pose proof (check_one_spec i raw s loc) as Hspec. cbv zeta in Hspec.
    destruct Hspec as (Hc1 & _).
    destruct (check_one i raw (s, loc)) as [s1 loc1]. cbn [fst snd] in *.
    destruct (IH s1 loc1) as (Hm & Hn & Hnot); [congruence|done|done|].
    cbv zeta. split; [done|]. split; [done|]. congruence.
Qed.

(** In a state where every live user is marked live, a poll cycle
    dispatches nothing, leaves [notified_users] alone and keeps the live
    users marked. *)
Lemma check_users_marked (i : PollInput) (s : MonitoringService) :
  live_implies_marked s →
  (check_users i s).2 = [] ∧
  notified_users (check_users i s).1 = notified_users s ∧
  live_implies_marked (check_users i s).1.
Proof.
  intros Hinv. unfold check_users.
  set (s0 := if negb (opt_truthy (_webhook_url s)) then _ else s).
  assert (Hs0 : current_live_users s0 = current_live_users s
                ∧ last_status s0 = last_status s
                ∧ notified_users s0 = notified_users s).
  { unfold s0. by destruct (negb _). }
  destruct Hs0 as (Hc0 & Hl0 & Hn0).
  assert (Hinv0 : live_implies_marked s0).
  { intros v Hv. unfold was_live_of. rewrite Hl0. apply Hinv. by rewrite <- Hc0. }
  destruct (negb (opt_truthy (_webhook_url s0))); [cbn [fst snd]; by repeat split|].
  destruct (p_users i) as [|raw rest] eqn:Hpu; [cbn [fst snd]; by repeat split|].
  assert (Hinit : live_consistent s0 (currently_live (mkLocals [] [] []))).
  { split; cbn; [constructor|]. intros u t Hin. by apply elem_of_nil in Hin. }
  pose proof (check_fold_spec i (raw :: rest) s0 (mkLocals [] [] []) Hinit) as Hfold.
  pose proof (check_fold_marked i (raw :: rest) s0 s0 (mkLocals [] [] [])
                eq_refl Hinv0 eq_refl) as Hmarked.
  cbv zeta in Hfold, Hmarked.
  destruct (fold_left _ (raw :: rest) _) as [s1 loc].
  cbn [fst snd currently_live] in Hfold, Hmarked.
  destruct Hfold as (_ & _ & _ & Hnd & Hiff).
  destruct Hmarked as (Hm & Hnew & Hnot).
  rewrite Hnew.
  assert (Hnone : ∀ n : nat,
            (if (1 <? n)%nat
             then List.filter
                    (λ user_data : string * string,
                       bool_decide (Some user_data.1
                                    = host_priority
                                        match currently_live loc with
                                        | [] => set_host_priority None s1
                                        | _ :: _ =>
                                            set_host_priority
                                              (elect_host (currently_live loc) None None) s1
                                        end))
                    []
             else []) = []).
  { intros n. by destruct (1 <? n)%nat. }
  rewrite Hnone. cbn [fold_left fst snd].
  split; [done|]. split.
  - destruct (currently_live loc); cbn; congruence.
  - intros v [info Hv].
    assert (Hin : ∃ t, (v, t) ∈ currently_live loc).
    { cbn [current_live_users set_current_live_users] in Hv.
      apply elem_of_list_to_map_2, list_elem_of_fmap in Hv
        as ([v' t'] & [= -> _] & Hin); eauto. }
    destruct Hin as [t Hin]. apply Hiff in Hin as [Hin|[_ (info0 & Hl & _)]].
    { by apply elem_of_nil in Hin. }
    assert (Hw : was_live_of s1 v = true) by (apply Hm; eauto).
    revert Hw. unfold was_live_of. by destruct (currently_live loc).
Qed.

Lemma on_connect_cases (u : string) (i : ConnectInput) (s : MonitoringService) :
  ((on_connect u i s).2 = [] ∧
   notified_users (on_connect u i s).1 = notified_users s) ∨
  (∃ d h,
     (on_connect u i s).2 = [d] ∧ d_note d = GoLive u h ∧
     (u ∉ notified_users s) ∧
     notified_users (on_connect u i s).1
       = if d_ok d then notified_users s ∪ {[u]} else notified_users s).
Proof.
  unfold on_connect. cbv zeta.
  cbn [notified_users set_connection_attempts set_current_live_users
       set_connection_start_times set_successfully_connected].
  destruct (bool_decide (u ∈ notified_users s)) eqn:Hn; [by left|].
  apply bool_decide_eq_false in Hn.
  destruct (negb _); [|by left].
  right. eexists _, _. split; [reflexivity|]. split.
  { unfold Webhook.send_go_live_notification. by destruct (Webhook.send _ _ _). }
  split; [done|]. by destruct (d_ok _).
Qed.

Lemma on_gift_shape (u : string) (event : pyval) (post_ok : bool)
    (s : MonitoringService) (ds : list Dispatch) :
  on_gift u event post_ok s = Returned ds →
  Forall (λ d, is_start d = false ∧ is_end d = false) ds.
Proof.
  unfold on_gift, on_gift_body.
  destruct (if truthy (gift_of event) then _ else _) as [gift_name repeat_count].
  unfold Webhook.send_gift_notification.
  destruct (Webhook.format_thousands repeat_count).
  - destruct (Webhook.send _ _ _). intros [= <-]. by repeat constructor.
  - intros [= <-]. constructor.
Qed.

Lemma one_start_per_session_neutral (b : string) (o : bool) (ds : list Dispatch) :
  Forall (λ d, is_start d = false ∧ is_end d = false) ds →
  one_start_per_session b o ds = true ∧ session_after b o ds = o.
Proof.
  induction 1 as [|d ds [Hs He] _ IH]; [done|].
  cbn [one_start_per_session session_after].
  unfold is_start_for, is_end_for, is_start, is_end in *.
  by destruct (d_note d).
Qed.

(** One event: the live users stay marked, the dispatches keep to one
    start per session, and an open session has its broadcaster in
    [notified_users]. *)
Lemma step_session (b : string) (e : Event) (s : MonitoringService) (o : bool) :
  live_implies_marked s →
  (o = true → b ∈ notified_users s) →
  ends_delivered b (step s e).2 = true →
  live_implies_marked (step s e).1 ∧
  one_start_per_session b o (step s e).2 = true ∧
  (session_after b o (step s e).2 = true → b ∈ notified_users (step s e).1).
Proof.
  intros Hinv Hopen Hends.
  destruct e as [u i|u i|u ev ok|u|i]; cbn [step] in *.
  - split; [by apply on_connect_keeps_marks|].
    destruct (on_connect_cases u i s) as [[-> ->]|(d & h & Hd & Hnote & Hn & ->)].
    { by split. }
    rewrite Hd. cbn [one_start_per_session session_after].
    unfold is_start_for, is_end_for. rewrite Hnote.
    destruct (String.eqb_spec u b) as [->|Hne].
    + destruct o; [by specialize (Hopen eq_refl)|].
      split; [done|]. intros ->. set_solver.
    + cbn. split; [done|]. intros Ho. specialize (Hopen Ho).
      destruct (d_ok d); set_solver.
  - split; [by apply on_disconnect_keeps_marks|].
    destruct (on_disconnect u i s) as [s' ds] eqn:Hrun. cbn [fst snd] in *.
    destruct (on_disconnect_shape u i s) as [Hq|(d & Hd & Hnote)];
      rewrite Hrun in *; cbn [snd] in *; subst ds.
    + destruct (on_disconnect_quiet u i s s' Hrun) as (-> & _). by split.
    + destruct (on_disconnect_dispatched u i s s' d Hrun) as (_ & -> & _).
      cbn [one_start_per_session session_after ends_delivered forallb] in *.
      unfold is_start_for, is_end_for in *. rewrite Hnote in *.
      destruct (String.eqb_spec u b) as [->|Hne].
      * cbn in Hends. rewrite andb_true_r in Hends. rewrite Hends. by cbn.
      * cbn. split; [done|]. intros Ho. specialize (Hopen Ho).
        unfold after_end_dispatch, handled_disconnect, drop_client, forget_connection.
        cbv zeta.
        destruct (d_ok d);
          cbn [notified_users set_live_clients set_connection_start_times
               set_successfully_connected set_last_status set_notified_users
               set_end_notification_cooldown set_end_notification_sent
               set_current_live_users];
          set_solver.
  - destruct (on_gift u ev ok s) as [ds|exc] eqn:Hg; cbn [fst snd].
    + split; [done|]. apply on_gift_shape in Hg.
      destruct (one_start_per_session_neutral b o ds Hg) as [-> ->]. by split.
    + by split.
  - cbn [fst snd one_start_per_session session_after]. split; [|by split].
    intros v Hv. apply (Hinv v Hv).
  - destruct (check_users_marked i s Hinv) as (-> & -> & Hinv'). by split.
Qed.

(** In a history that starts where every live user is marked live (as in
    a fresh service) and in which every end notification for [b] is
    delivered, no start notification for [b] is dispatched between a
    delivered start and the next delivered end. The histories that break
    the one-start-per-session rule are therefore those with a failed end
    notification. *)
Theorem one_start_per_session_when_ends_delivered :
  ∀ (b : string) (es : list Event) (s : MonitoringService) (o : bool),
    live_implies_marked s →
    (o = true → b ∈ notified_users s) →
    ends_delivered b (run s es).2 = true →
    one_start_per_session b o (run s es).2 = true.
Proof.
  intros b es. induction es as [|e es IH]; intros s o Hinv Hopen Hends; [done|].
  cbn [run] in *.
  pose proof (step_session b e s o Hinv Hopen) as Hstep.
  destruct (step s e) as [s1 ds]. cbn [fst snd] in Hstep.
  specialize (IH s1). destruct (run s1 es) as [s2 ds']. cbn [fst snd] in *.
  rewrite ends_delivered_app in Hends. apply andb_prop in Hends as [He1 He2].
  destruct (Hstep He1) as (Hinv1 & Hone & Hafter).
  rewrite one_start_per_session_app, Hone. cbn [andb].
  by apply IH.
Qed.

Lemma fresh_service_marked (env : environ) (webhook_url gift_webhook_url : option string) :
  live_implies_marked (start webhook_url gift_webhook_url (Service.init env)).
Proof.
  intros v [info Hv]. revert Hv. unfold start. cbn [_running Service.init negb].
  destruct (opt_truthy webhook_url), (opt_truthy gift_webhook_url);
    cbn; by rewrite lookup_empty.
Qed.

(* --------------------------------------------------------------------- *)
(** ** The poll cycle after a short disconnect *)

Lemma poll_connection_keeps_connected (i : PollInput) (u : string) (live : bool)
    (s : MonitoringService) :
  successfully_connected (poll_connection i u live s) = successfully_connected s.
Proof.
  unfold poll_connection, connect_to_live_stream. cbv zeta.
  cbn [loop live_clients set_connection_attempts].
  destruct (_ && _).
  - destruct (bool_decide _); [done|]. by destruct (loop s) as [[]|].
  - destruct (_ && _); [|done]. by destruct (loop s).
Qed.

Lemma notify_fold_last_status (i : PollInput) (w : Webhook.DiscordWebhook) (n : nat)
    (l : list (string * string)) :
  ∀ (s : MonitoringService) (ds : list Dispatch),
    last_status (fold_left (λ acc user_data, notify_one i w n user_data acc) l (s, ds)).1
    = last_status s.
Proof.
  induction l as [|user_data l IH]; intros s ds; cbn [fold_left]; [done|].
  unfold notify_one at 2. cbv zeta.
  destruct (bool_decide _); [apply IH|].
  destruct (negb _); [|apply IH].
  rewrite IH. by destruct (d_ok _).
Qed.

(** One iteration of the poll loop for a state in which [b] is notified
    but neither live nor connected: that stays so, and if the iteration is
    about [b], it marks [b] not live. *)
Lemma check_one_unconnected (i : PollInput) (raw : string) (s : MonitoringService)
    (loc : PollLocals) (b : string) :
  current_live_users s !! b = None →
  b ∉ successfully_connected s →
  b ∈ notified_users s →
  (b ∉ successfully_connected (check_one i raw (s, loc)).1) ∧
  b ∈ notified_users (check_one i raw (s, loc)).1 ∧
  (normalize_username raw = Some b ∨ was_live_of s b = false →
   was_live_of (check_one i raw (s, loc)).1 b = false).
Proof.
  intros Hlive Hconn Hnot. unfold check_one.
  destruct (normalize_username raw) as [u|]; [|by intuition].
  cbv zeta.
  destruct (poll_connection_frame i u
              (bool_decide (u ∈ dom (current_live_users s))) s)
    as (Hc & _ & _ & Hls & Hn).
  pose proof (poll_connection_keeps_connected i u
                (bool_decide (u ∈ dom (current_live_users s))) s) as Hsc.
  set (s1 := poll_connection i u _ s) in *. clearbody s1.
  destruct (current_live_users s !! u) as [info|] eqn:Hlook.
  - assert (Hne : u ≠ b) by (intros ->; congruence).
    rewrite bool_decide_eq_true_2 by (apply elem_of_dom; eauto).
    repeat match goal with
           | |- context [if ?c then _ else _] => destruct c
           end;
      cbn [fst snd notified_users successfully_connected last_status set_last_status
           set_notified_users].
    all: rewrite ?Hsc, ?Hn.
    all: split; [done|]; split; [set_solver|].
    all: intros [[= ->]|Hw]; [done|].
    all: unfold was_live_of in *; cbn [last_status set_last_status set_notified_users].
    all: by rewrite lookup_insert_ne, Hls.
  - rewrite bool_decide_eq_false_2
      by (rewrite elem_of_dom, Hlook; by intros [? ?]).
    rewrite Hsc, Hn.
    destruct (decide (u = b)) as [->|Hne].
    + rewrite (bool_decide_eq_false_2 (b ∈ successfully_connected s)) by done.
      rewrite (bool_decide_eq_true_2 (b ∈ notified_users s)) by done.
      rewrite !andb_false_r. cbn [negb andb fst snd].
      cbn [successfully_connected notified_users set_last_status].
      rewrite Hsc, Hn. split; [done|]. split; [done|]. intros _.
      unfold was_live_of. cbn [last_status set_last_status].
      by rewrite lookup_insert_eq.
    + repeat match goal with
             | |- context [if ?c then _ else _] => destruct c
             end;
        unfold forget_connection;
        cbn [fst snd notified_users successfully_connected last_status set_last_status
             set_connection_start_times set_successfully_connected].
      all: rewrite ?Hsc, ?Hn.
      all: split; [set_solver|]; split; [done|].
      all: intros [[= ->]|Hw]; [done|].
      all: unfold was_live_of in *;
        cbn [last_status set_last_status set_connection_start_times
             set_successfully_connected].
      all: rewrite ?lookup_insert_ne by done; by rewrite Hls.
Qed.

Lemma check_fold_unconnected (i : PollInput) (users : list string) (b : string) :
  ∀ (s : MonitoringService) (loc : PollLocals),
    current_live_users s !! b = None →
    b ∉ successfully_connected s →
    b ∈ notified_users s →
    watched users b ∨ was_live_of s b = false →
    was_live_of (fold_left (λ acc raw, check_one i raw acc) users (s, loc)).1 b = false.
Proof.
  induction users as [|raw users IH]; intros s loc Hlive Hconn Hnot Hw; cbn [fold_left].
  - destruct Hw as [(raw & Hin & _)|Hw]; [by apply elem_of_nil in Hin|done].
  - destruct (check_one_unconnected i raw s loc b Hlive Hconn Hnot)
      as (Hconn1 & Hnot1 & Hmark).
    pose proof (check_one_spec i raw s loc) as Hspec. cbv zeta in Hspec.
    destruct Hspec as (Hc1 & _).
    destruct (check_one i raw (s, loc)) as [s1 loc1]. cbn [fst snd] in *.
    apply IH; [by rewrite Hc1|done|done|].
    destruct Hw as [(raw' & [->|Hin]%elem_of_cons & Hnorm)|Hw].
    + right. apply Hmark. by left.
    + left. by exists raw'.
    + right. apply Hmark. by right.
Qed.

(** A poll cycle over a watch list with [b], in a state where [b] is
    notified but neither live nor connected, marks [b] not live. *)
Lemma poll_marks_unconnected_not_live (i : PollInput) (s : MonitoringService)
    (b : string) :
  webhook_configured s = true →
  watched (p_users i) b →
  current_live_users s !! b = None →
  b ∉ successfully_connected s →
  b ∈ notified_users s →
  was_live_of (check_users i s).1 b = false.
Proof.
  intros Hurl Hwatched Hlive Hconn Hnot. unfold check_users.
  set (s0 := if negb (opt_truthy (_webhook_url s)) then _ else s).
  assert (Hs0 : opt_truthy (_webhook_url s0) = true
                ∧ current_live_users s0 = current_live_users s
                ∧ successfully_connected s0 = successfully_connected s
                ∧ notified_users s0 = notified_users s).
  { unfold s0, webhook_configured in *.
    destruct (opt_truthy (_webhook_url s)) eqn:Hs; cbn in *; [done|].
    split; [|done]. unfold opt_truthy. cbn. exact Hurl. }
  destruct Hs0 as (Hcfg & Hc0 & Hsc0 & Hn0). rewrite Hcfg. cbn [negb].
  destruct (p_users i) as [|raw rest] eqn:Hpu.
  { destruct Hwatched as (raw & Hin & _). by apply elem_of_nil in Hin. }
  pose proof (check_fold_unconnected i (raw :: rest) b s0 (mkLocals [] [] [])) as Hfold.
  rewrite Hc0, Hsc0, Hn0 in Hfold.
  specialize (Hfold Hlive Hconn Hnot (or_introl Hwatched)).
  destruct (fold_left _ (raw :: rest) _) as [s1 loc]. cbn [fst] in Hfold.
  match goal with
  | |- context [fold_left ?f ?l (?a, [])] =>
      pose proof (notify_fold_last_status i
                    (Webhook.init (os_environ a) (Some (main_url a)) None)
                    (length (currently_live loc)) l a []) as Hls;
      destruct (fold_left f l (a, [])) as [s3 ds]
  end.
  cbn [fst] in *. unfold was_live_of in *.
  cbn [last_status set_current_live_users]. rewrite Hls.
  by destruct (currently_live loc).
Qed.

(** For every state in which [b] is announced, connected and marked live,
    with no end on record: a disconnect less than 30 seconds after the
    recorded connection time dispatches nothing and keeps [b] marked live,
    and the poll cycle that follows, with [b] on its watch list, marks [b]
    not live. *)
Theorem poll_after_short_disconnect_marks_not_live :
  ∀ (b : string) (i : DisconnectInput) (p : PollInput) (s : MonitoringService) (t0 : Z),
    b ∈ notified_users s →
    b ∈ successfully_connected s →
    b ∉ end_notification_sent s →
    end_notification_cooldown s !! b = None →
    was_live_of s b = true →
    connection_start_times s !! b = Some t0 →
    x_now i - t0 < 30 →
    webhook_configured s = true →
    watched (p_users p) b →
    (on_disconnect b i s).2 = [] ∧
    was_live_of (on_disconnect b i s).1 b = true ∧
    was_live_of (check_users p (on_disconnect b i s).1).1 b = false.
Proof.
  intros b i p s t0 Hnot Hconn Hend Hcool Hlive Hstart Hshort Hurl Hwatched.
  assert (Hrun : on_disconnect b i s
                 = (forget_connection b
                      (set_current_live_users (delete b (current_live_users s)) s), [])).
  { unfold on_disconnect. cbv zeta.
    cbn [successfully_connected notified_users end_notification_sent
         end_notification_cooldown connection_start_times set_current_live_users].
    rewrite (bool_decide_eq_true_2 _ Hconn), (bool_decide_eq_true_2 _ Hnot),
      (bool_decide_eq_false_2 _ Hend), Hcool, Hstart.
    cbn [andb default from_option id].
    change (999 <? 60) with false. cbv iota.
    change (was_live_of (set_current_live_users _ s) b) with (was_live_of s b).
    rewrite Hlive.
    assert (Hd : ((if 0 <? t0 then x_now i - t0 else 0) <? 30) = true).
    { apply Z.ltb_lt. destruct (0 <? t0); lia. }
    by rewrite Hd. }
  rewrite Hrun. cbn [fst snd].
  split; [done|]. split; [exact Hlive|].
  apply poll_marks_unconnected_not_live; try done.
  - cbn. apply lookup_delete_eq.
  - cbn. set_solver.
Qed.

(* --------------------------------------------------------------------- *)
(** ** The scenario of the specification *)

(** "alice" is confirmed and announced; she drops ten seconds later (no
    end notification), is confirmed again two seconds after that (no
    second start notification), and disconnects 38 seconds after the second
    confirmation with the re-verification finding her offline: the end
    notification is dispatched, she leaves [notified_users], the end is on
    record and the cooldown time is the time of sending. *)
Example alice_scenario :
  let history :=
    [Connect "alice" (Fixture.connect_at 1000 "2025-01-15T10:00:00" true);
     Disconnect "alice" (Fixture.disconnect_at 1010 "2025-01-15T10:00:10" true);
     Connect "alice" (Fixture.connect_at 1012 "2025-01-15T10:00:12" true);
     Disconnect "alice" (Fixture.disconnect_at 1050 "2025-01-15T10:00:50" true)] in
  (run Fixture.s0 history).2 = [Fixture.start_ok "alice" true; Fixture.end_ok "alice"] ∧
  bool_decide ("alice" ∈ notified_users (run Fixture.s0 history).1) = false ∧
  bool_decide ("alice" ∈ end_notification_sent (run Fixture.s0 history).1) = true ∧
  end_notification_cooldown (run Fixture.s0 history).1 !! "alice" = Some 1056.
Proof. vm_compute. repeat split; reflexivity. Qed.

(* ===================================================================== *)
(** * Further properties of the code *)
(* ===================================================================== *)

(* --------------------------------------------------------------------- *)
(** ** The embed colour *)

Lemma lor_shiftl_low (h x n : Z) :
  0 ≤ n → 0 ≤ x < 2 ^ n → Z.lor (Z.shiftl h n) x = h * 2 ^ n + x.
Proof.
  intros Hn Hx.
  assert (Hland : Z.land (Z.shiftl h n) x = 0).
  { apply Z.bits_inj'. intros k Hk. rewrite Z.land_spec, Z.bits_0.
    destruct (Z.lt_ge_cases k n) as [Hlt|Hge].
    - by rewrite Z.shiftl_spec_low.
    - destruct (Z.eq_dec x 0) as [->|Hx0]; [by rewrite Z.bits_0, andb_false_r|].
      assert (Hlog : Z.log2 x < k).
      { assert (Z.log2 x < n) by (apply Z.log2_lt_pow2; lia). lia. }
      assert (Hbit : Z.testbit x k = false) by (apply Z.bits_above_log2; lia).
      by rewrite Hbit, andb_false_r. }
  rewrite <- Z.lxor_lor by done. rewrite <- Z.add_nocarry_lxor by done.
  by rewrite Z.shiftl_mul_pow2.
Qed.

(** X1. For components in the range of [random.randint(50, 255)], the
    colour is the number [r * 65536 + g * 256 + b]: it lies between
    [0x323232] and [0xFFFFFF], and the components are read back from it by
    shifting and masking. *)
Theorem generate_random_color_packs_components :
  ∀ r g b : Z,
    Embed.vibrant r → Embed.vibrant g → Embed.vibrant b →
    let c := Embed._generate_random_color r g b in
    c = r * 65536 + g * 256 + b ∧
    0x323232 ≤ c ≤ 0xFFFFFF ∧
    Z.shiftr c 16 = r ∧
    Z.land (Z.shiftr c 8) 255 = g ∧
    Z.land c 255 = b.
Proof.
  intros r g b Hr Hg Hb c. unfold Embed.vibrant in *.
  assert (Hc : c = r * 65536 + g * 256 + b).
  { unfold c, Embed._generate_random_color.
    rewrite (Z.shiftl_mul_pow2 g 8) by lia.
    change (2 ^ 8) with 256.
    replace (Z.lor (Z.shiftl r 16) (g * 256)) with (r * 65536 + g * 256).
    2:{ symmetry. apply (lor_shiftl_low r (g * 256) 16); [lia|].
        change (2 ^ 16) with 65536. lia. }
    replace (r * 65536 + g * 256) with (Z.shiftl (r * 256 + g) 8)
      by (rewrite Z.shiftl_mul_pow2 by lia; change (2 ^ 8) with 256; lia).
    rewrite (lor_shiftl_low (r * 256 + g) b 8); [|lia|change (2 ^ 8) with 256; lia].
    by rewrite Z.shiftl_mul_pow2 by lia. }
  split; [exact Hc|]. split; [lia|].
  rewrite !Z.shiftr_div_pow2 by lia.
  change 255 with (Z.ones 8). rewrite !Z.land_ones by lia.
  change (2 ^ 16) with 65536. change (2 ^ 8) with 256.
  rewrite Hc. repeat split.
  - symmetry. apply (Z.div_unique _ 65536 r (g * 256 + b)); lia.
  - replace ((r * 65536 + g * 256 + b) / 256) with (r * 256 + g)
      by (apply (Z.div_unique _ 256 _ b); lia).
    symmetry. apply (Z.mod_unique _ 256 r g); lia.
  - symmetry. apply (Z.mod_unique _ 256 (r * 256 + g) b); lia.
Qed.

Lemma generate_random_color_packs_components_witness :
  Embed.vibrant 50 ∧ Embed.vibrant 128 ∧ Embed.vibrant 255 ∧
  Embed._generate_random_color 50 128 255 = 0x3280FF ∧
  Z.land (Z.shiftr (Embed._generate_random_color 50 128 255) 8) 255 = 128.
Proof.
  assert (H1 : Embed.vibrant 50) by (unfold Embed.vibrant; lia).
  assert (H2 : Embed.vibrant 128) by (unfold Embed.vibrant; lia).
  assert (H3 : Embed.vibrant 255) by (unfold Embed.vibrant; lia).
  destruct (generate_random_color_packs_components 50 128 255 H1 H2 H3)
    as (Hc & _ & _ & Hg & _).
  split; [exact H1|]. split; [exact H2|]. split; [exact H3|].
  split; [rewrite Hc; reflexivity|exact Hg].
Defined.

(* --------------------------------------------------------------------- *)
(** ** Lifecycle *)

Lemma currently_live_count_empty : currently_live_count ∅ = 0%nat.
Proof. unfold currently_live_count. by rewrite map_to_list_empty. Qed.

(** X2. Stopping a running service empties every tracking table (only the
    connection-attempt times are kept), and after a restart the first
    connect confirmation of any broadcaster is announced again, as host,
    whatever had been recorded before the stop. *)
Theorem restart_announces_again :
  ∀ (s : MonitoringService) (webhook_url gift_webhook_url : option string)
    (b : string) (i : ConnectInput),
    is_running s = true →
    (is_running (stop s) = false ∧
     last_status (stop s) = ∅ ∧ current_live_users (stop s) = ∅ ∧
     live_clients (stop s) = ∅ ∧ notified_users (stop s) = ∅ ∧
     successfully_connected (stop s) = ∅ ∧ connection_start_times (stop s) = ∅ ∧
     end_notification_sent (stop s) = ∅ ∧ end_notification_cooldown (stop s) = ∅ ∧
     host_priority (stop s) = None ∧
     connection_attempts (stop s) = connection_attempts s) ∧
    is_running (start webhook_url gift_webhook_url (stop s)) = true ∧
    ∃ d, (on_connect b i (start webhook_url gift_webhook_url (stop s))).2 = [d] ∧
         d_note d = GoLive b true.
Proof.
  intros s webhook_url gift_webhook_url b i Hrun. unfold is_running in Hrun.
  assert (Hstop : stop s =
    set_end_notification_cooldown ∅
      (set_end_notification_sent ∅
        (set_pending_end_notifications ∅
          (set_connection_start_times ∅
            (set_successfully_connected ∅
              (set_notified_users ∅
                (set_host_priority None
                  (set_current_live_users ∅
                    (set_last_status ∅
                      (set_running false
                        (set_scheduler_started false
                          (match loop (set_live_clients ∅ s) with
                           | Some _ => set_loop (Some false) (set_live_clients ∅ s)
                           | None => set_live_clients ∅ s
                           end)))))))))))).
  { unfold stop. by rewrite Hrun. }
  split.
  { rewrite Hstop. unfold is_running. cbn. by destruct (loop s). }
  assert (Hfresh : is_running (start webhook_url gift_webhook_url (stop s)) = true
                   ∧ notified_users (start webhook_url gift_webhook_url (stop s)) = ∅
                   ∧ last_status (start webhook_url gift_webhook_url (stop s)) = ∅).
  { rewrite Hstop. unfold start, is_running. cbn [_running set_end_notification_cooldown
      set_end_notification_sent set_pending_end_notifications set_connection_start_times
      set_successfully_connected set_notified_users set_host_priority
      set_current_live_users set_last_status set_running negb].
    cbv zeta. by destruct (opt_truthy webhook_url), (opt_truthy gift_webhook_url). }
  destruct Hfresh as (Hr & Hn & Hl).
  split; [exact Hr|].
  rewrite on_connect_dispatch_cases. unfold was_live_of.
  rewrite Hn, Hl, lookup_empty, currently_live_count_empty.
  rewrite bool_decide_eq_false_2 by set_solver.
  eexists. split; [reflexivity|].
  unfold Webhook.send_go_live_notification. by destruct (Webhook.send _ _ _).
Qed.

Lemma restart_announces_again_witness :
  is_running Fixture.alice_live = true ∧
  bool_decide ("alice" ∈ notified_users Fixture.alice_live) = true ∧
  ∃ d, (on_connect "alice" (Fixture.connect_at 300 "2025-01-15T10:05:00" true)
          (start None None (stop Fixture.alice_live))).2 = [d] ∧
       d_note d = GoLive "alice" true.
Proof.
  split; [reflexivity|]. split; [vm_compute; reflexivity|].
  exact (proj2 (proj2 (restart_announces_again Fixture.alice_live None None "alice"
                         (Fixture.connect_at 300 "2025-01-15T10:05:00" true) eq_refl))).
Defined.

(** The fields of a service after [start] found it stopped. *)
Lemma start_stopped_fields (s : MonitoringService)
    (webhook_url gift_webhook_url : option string) :
  is_running s = false →
  is_running (start webhook_url gift_webhook_url s) = true ∧
  _webhook_url (start webhook_url gift_webhook_url s)
    = (if opt_truthy webhook_url then webhook_url
       else Some (env_get (os_environ s) "DISCORD_WEBHOOK_URL")) ∧
  os_environ (start webhook_url gift_webhook_url s) !! "DISCORD_WEBHOOK_URL"
    = (if opt_truthy webhook_url then Some (opt_or webhook_url "")
       else os_environ s !! "DISCORD_WEBHOOK_URL") ∧
  _gift_webhook_url (start webhook_url gift_webhook_url s)
    = (if opt_truthy gift_webhook_url then gift_webhook_url
       else Some (env_get (os_environ s) "DISCORD_GIFT_WEBHOOK_URL")) ∧
  os_environ (start webhook_url gift_webhook_url s) !! "DISCORD_GIFT_WEBHOOK_URL"
    = (if opt_truthy gift_webhook_url then Some (opt_or gift_webhook_url "")
       else os_environ s !! "DISCORD_GIFT_WEBHOOK_URL") ∧
  last_status (start webhook_url gift_webhook_url s) = last_status s ∧
  notified_users (start webhook_url gift_webhook_url s) = notified_users s ∧
  current_live_users (start webhook_url gift_webhook_url s) = current_live_users s.
Proof.
  intros Hrun. unfold is_running in *. unfold start. rewrite Hrun. cbn [negb].
  unfold env_get.
  destruct (opt_truthy webhook_url), (opt_truthy gift_webhook_url); cbn;
    rewrite ?lookup_insert_eq; rewrite ?lookup_insert_ne by discriminate;
    rewrite ?lookup_insert_eq; by repeat split.
Qed.

(** X3. Starting a stopped service with a webhook URL stores the URL,
    makes it the URL of the service's notifications, and exports it to the
    environment, so that a [DiscordWebhook] created without arguments
    posts to the same URL; started without a URL, the service uses the
    environment's. *)
Theorem start_stores_and_exports_url :
  ∀ (s : MonitoringService) (url : string) (gift_webhook_url : option string),
    is_running s = false →
    (str_truthy url = true →
     is_running (start (Some url) gift_webhook_url s) = true ∧
     main_url (start (Some url) gift_webhook_url s) = url ∧
     Webhook.webhook_url
       (Webhook.init (os_environ (start (Some url) gift_webhook_url s)) None None) = url) ∧
    (is_running (start None gift_webhook_url s) = true ∧
     main_url (start None gift_webhook_url s)
       = env_get (os_environ s) "DISCORD_WEBHOOK_URL").
Proof.
  intros s url gift_webhook_url Hrun. split.
  - intros Hurl.
    destruct (start_stopped_fields s (Some url) gift_webhook_url Hrun)
      as (Hr & Hw & He & _).
    split; [exact Hr|].
    unfold main_url, Webhook.init, env_get, opt_or. rewrite Hw, He.
    unfold opt_truthy, opt_or. rewrite Hurl. cbn. rewrite Hurl. by split.
  - destruct (start_stopped_fields s None gift_webhook_url Hrun)
      as (Hr & Hw & He & _).
    split; [exact Hr|].
    unfold main_url, env_get, opt_or. rewrite Hw, He. cbn.
    by destruct (str_truthy _).
Qed.

Lemma start_stores_and_exports_url_witness :
  is_running (Service.init ∅) = false ∧
  str_truthy Fixture.hook = true ∧
  main_url (start (Some Fixture.hook) (Some Fixture.gift_hook) (Service.init ∅))
    = Fixture.hook ∧
  Webhook.webhook_url
    (Webhook.init
       (os_environ (start (Some Fixture.hook) (Some Fixture.gift_hook) (Service.init ∅)))
       None None) = Fixture.hook.
Proof.
  destruct (proj1 (start_stores_and_exports_url (Service.init ∅) Fixture.hook
                     (Some Fixture.gift_hook) eq_refl) eq_refl) as (_ & H1 & H2).
  split; [reflexivity|]. split; [reflexivity|]. split; [exact H1|exact H2].
Defined.

(* --------------------------------------------------------------------- *)
(** ** The callbacks touch one broadcaster *)

(** X4. A connect confirmation, a disconnect or a failed connection of
    [b] changes nothing that is recorded about another broadcaster, and
    none of them changes the running flag, the loop, the stored URLs, the
    environment or the host. *)
Theorem callbacks_touch_one_broadcaster :
  ∀ (b u : string) (c : ConnectInput) (x : DisconnectInput) (s : MonitoringService),
    u ≠ b →
    (same_for u s (on_connect b c s).1 ∧ same_settings s (on_connect b c s).1) ∧
    (same_for u s (on_disconnect b x s).1 ∧ same_settings s (on_disconnect b x s).1) ∧
    (same_for u s (on_start_failed b s) ∧ same_settings s (on_start_failed b s)).
Proof.
  intros b u c x s Hne.
  assert (Hne' : b ≠ u) by done.
  split; [|split].
  - unfold on_connect. cbv zeta.
    repeat match goal with
           | |- context [if ?t then _ else _] => destruct t
           end;
      cbn [fst]; split; split_same;
      cbn [last_status current_live_users connection_attempts connection_start_times
           end_notification_cooldown live_clients notified_users successfully_connected
           end_notification_sent _running loop _webhook_url _gift_webhook_url os_environ
           host_priority
           set_last_status set_current_live_users set_connection_attempts
           set_connection_start_times set_end_notification_cooldown
           set_notified_users set_successfully_connected set_end_notification_sent];
      rewrite ?lookup_insert_ne, ?lookup_delete_ne by done;
      try done; set_solver.
  - unfold on_disconnect, handled_disconnect, drop_client, forget_connection. cbv zeta.
    repeat match goal with
           | |- context [if ?t then _ else _] => destruct t
           | |- context [match x_probe x with _ => _ end] => destruct (x_probe x)
           end;
      cbn [fst]; split; split_same;
      cbn [last_status current_live_users connection_attempts connection_start_times
           end_notification_cooldown live_clients notified_users successfully_connected
           end_notification_sent _running loop _webhook_url _gift_webhook_url os_environ
           host_priority
           set_last_status set_current_live_users set_connection_attempts
           set_connection_start_times set_end_notification_cooldown set_live_clients
           set_notified_users set_successfully_connected set_end_notification_sent];
      rewrite ?lookup_insert_ne, ?lookup_delete_ne by done;
      try done; set_solver.
  - unfold on_start_failed, drop_client, forget_connection.
    split; split_same;
      cbn [last_status current_live_users connection_attempts connection_start_times
           end_notification_cooldown live_clients notified_users successfully_connected
           end_notification_sent _running loop _webhook_url _gift_webhook_url os_environ
           host_priority set_connection_start_times set_live_clients
           set_successfully_connected];
      rewrite ?lookup_delete_ne by done;
      try done; set_solver.
Qed.

Lemma callbacks_touch_one_broadcaster_witness :
  "carol" ≠ "bob" ∧
  (bool_decide ("carol" ∈ notified_users Fixture.two_live) = true) ∧
  ("carol" ∈ notified_users
     (on_disconnect "bob" (Fixture.disconnect_at 150 "2025-01-15T10:02:30" true)
        Fixture.two_live).1
   ↔ "carol" ∈ notified_users Fixture.two_live).
Proof.
  assert (Hne : "carol" ≠ "bob") by discriminate.
  destruct (callbacks_touch_one_broadcaster "bob" "carol"
              (Fixture.connect_at 150 "2025-01-15T10:02:30" true)
              (Fixture.disconnect_at 150 "2025-01-15T10:02:30" true)
              Fixture.two_live Hne) as (_ & (Hsame & _) & _).
  split; [exact Hne|]. split; [vm_compute; reflexivity|].
  unfold same_for in Hsame. tauto.
Defined.

(* --------------------------------------------------------------------- *)
(** ** What a connect confirmation leaves behind *)

(** X5. After every connect confirmation of [b], announced or not, [b] is
    in [successfully_connected] and in [current_live_users] with the time
    of the event, is marked live, has the clock reading of the event as
    connection start and no connection-attempt time; at most one
    notification was dispatched. If a start notification was delivered,
    [b] is in [notified_users] and has neither an end nor a cooldown time
    on record; otherwise these three records of [b] are as before. *)
Theorem connect_confirmation_postconditions :
  ∀ (b : string) (i : ConnectInput) (s : MonitoringService),
    let s' := (on_connect b i s).1 in
    let ds := (on_connect b i s).2 in
    b ∈ successfully_connected s' ∧
    (∃ room, current_live_users s' !! b = Some (mkLiveInfo (c_iso i) room)) ∧
    was_live_of s' b = true ∧
    connection_start_times s' !! b = Some (c_now i) ∧
    connection_attempts s' !! b = None ∧
    (length ds ≤ 1)%nat ∧
    (if existsb d_ok ds
     then b ∈ notified_users s' ∧ (b ∉ end_notification_sent s')
          ∧ end_notification_cooldown s' !! b = None
     else notified_users s' = notified_users s
          ∧ end_notification_sent s' = end_notification_sent s
          ∧ end_notification_cooldown s' = end_notification_cooldown s).
Proof.
  intros b i s. cbv zeta. unfold on_connect, was_live_of. cbv zeta.
  cbn [notified_users last_status set_connection_attempts set_current_live_users
       set_connection_start_times set_successfully_connected].
  set (room := if truthy (c_event i) && hasattr (c_event i) "room_id"
               then getattr (c_event i) "room_id" else PNone).
  destruct (bool_decide (b ∈ notified_users s)) eqn:Hn; [|destruct (negb _)];
    cbn [fst snd length existsb orb]; [|destruct (d_ok _) eqn:Hok|]; cbn [orb];
    cbn [last_status current_live_users connection_attempts connection_start_times
         end_notification_cooldown notified_users successfully_connected
         end_notification_sent
         set_last_status set_current_live_users set_connection_attempts
         set_connection_start_times set_end_notification_cooldown
         set_notified_users set_successfully_connected set_end_notification_sent];
    rewrite ?lookup_insert_eq, ?lookup_delete_eq;
    (split; [set_solver|]); (split; [by eexists|]);
    repeat split; try done; try lia; set_solver.
Qed.

(* --------------------------------------------------------------------- *)
(** ** The gates of the end sequence *)

Lemma cooldown_test (l n : Z) :
  ((if 0 <? l then n - l else 999) <? 60) = negb (negb (0 <? l) || (60 <=? n - l)).
Proof. destruct (0 <? l); cbn [negb orb]; [apply Z.ltb_antisym|done]. Qed.

Lemma duration_test (c n : Z) :
  ((if 0 <? c then n - c else 0) <? 30) = negb ((0 <? c) && (30 <=? n - c)).
Proof. destruct (0 <? c); cbn [negb andb]; [apply Z.ltb_antisym|done]. Qed.

(** The dispatches of a disconnect, in terms of the gates. *)
Lemma on_disconnect_dispatch_gates (b : string) (i : DisconnectInput)
    (s : MonitoringService) :
  (on_disconnect b i s).2 =
    if end_gates b i s
    then [Webhook.send_end_live_notification
            (Webhook.init (os_environ s) (Some (main_url s)) None) b (x_post_ok i)]
    else [].
Proof.
  unfold on_disconnect, end_gates. cbv zeta.
  cbn [successfully_connected notified_users end_notification_sent
       end_notification_cooldown connection_start_times os_environ
       set_current_live_users].
  change (was_live_of (set_current_live_users _ s) b) with (was_live_of s b).
  change (main_url (set_current_live_users _ s)) with (main_url s).
  rewrite cooldown_test, duration_test.
  destruct (bool_decide (b ∈ successfully_connected s)); [|done].
  destruct (bool_decide (b ∈ notified_users s)); [|done].
  destruct (bool_decide (b ∈ end_notification_sent s)); [done|].
  cbn [andb negb].
  destruct (negb (0 <? default 0 (end_notification_cooldown s !! b))
            || (60 <=? x_now i - default 0 (end_notification_cooldown s !! b)));
    [|done].
  cbn [negb andb].
  destruct (was_live_of s b); [|done].
  cbn [andb].
  destruct ((0 <? default 0 (connection_start_times s !! b))
            && (30 <=? x_now i - default 0 (connection_start_times s !! b)));
    [|done].
  cbn [negb andb].
  destruct (x_probe i) as [|code]; [done|].
  by destruct (code =? 200).
Qed.




(** X8. A disconnect of a broadcaster for whom no start notification is
    on record dispatches nothing, whatever else is recorded, leaves every
    live mark as it was, and clears the broadcaster's connection records:
    the live entry, the connection flag, the start time and the client. *)
Theorem disconnect_without_start_is_silent :
  ∀ (b : string) (i : DisconnectInput) (s : MonitoringService),
    b ∉ notified_users s →
    (on_disconnect b i s).2 = [] ∧
    last_status (on_disconnect b i s).1 = last_status s ∧
    notified_users (on_disconnect b i s).1 = notified_users s ∧
    current_live_users (on_disconnect b i s).1 !! b = None ∧
    connection_start_times (on_disconnect b i s).1 !! b = None ∧
    (b ∉ successfully_connected (on_disconnect b i s).1) ∧
    (b ∉ live_clients (on_disconnect b i s).1).
Proof.
  intros b i s Hn. unfold on_disconnect, handled_disconnect, drop_client,
    forget_connection. cbv zeta.
  cbn [successfully_connected notified_users set_current_live_users].
  rewrite (bool_decide_eq_false_2 (b ∈ notified_users s)) by done.
  rewrite andb_false_r.
  cbn [fst snd last_status notified_users current_live_users connection_start_times
       successfully_connected live_clients set_live_clients set_connection_start_times
       set_successfully_connected set_current_live_users].
  rewrite !lookup_delete_eq. repeat split; try done; set_solver.
Qed.

Lemma disconnect_without_start_is_silent_witness :
  let i := Fixture.disconnect_at 200 "2025-01-15T10:03:20" true in
  bool_decide ("alice" ∈ notified_users Fixture.alice_unannounced) = false ∧
  bool_decide ("alice" ∈ successfully_connected Fixture.alice_unannounced) = true ∧
  (on_disconnect "alice" i Fixture.alice_unannounced).2 = [] ∧
  ("alice" ∉ successfully_connected (on_disconnect "alice" i Fixture.alice_unannounced).1).
Proof.
  intros i.
  assert (Hn : "alice" ∉ notified_users Fixture.alice_unannounced)
    by (apply (proj1 (bool_decide_eq_false
                        ("alice" ∈ notified_users Fixture.alice_unannounced)));
        vm_compute; reflexivity).
  destruct (disconnect_without_start_is_silent "alice" i Fixture.alice_unannounced Hn)
    as (H1 & _ & _ & _ & _ & H2 & _).
  split; [vm_compute; reflexivity|]. split; [vm_compute; reflexivity|].
  split; [exact H1|exact H2].
Defined.

(* --------------------------------------------------------------------- *)
(** ** What a poll cycle leaves alone *)

Lemma connect_to_live_stream_frame2 (u : string) (s : MonitoringService) :
  end_notification_sent (connect_to_live_stream u s) = end_notification_sent s ∧
  end_notification_cooldown (connect_to_live_stream u s) = end_notification_cooldown s ∧
  _gift_webhook_url (connect_to_live_stream u s) = _gift_webhook_url s ∧
  connection_start_times (connect_to_live_stream u s) = connection_start_times s ∧
  loop (connect_to_live_stream u s) = loop s ∧
  _running (connect_to_live_stream u s) = _running s.
Proof.
  unfold connect_to_live_stream.
  destruct (bool_decide _); [done|].
  destruct (loop s) as [[]|] eqn:Hloop; by repeat split.
Qed.

Lemma poll_connection_frame2 (i : PollInput) (u : string) (live : bool)
    (s : MonitoringService) :
  end_notification_sent (poll_connection i u live s) = end_notification_sent s ∧
  end_notification_cooldown (poll_connection i u live s) = end_notification_cooldown s ∧
  _gift_webhook_url (poll_connection i u live s) = _gift_webhook_url s ∧
  connection_start_times (poll_connection i u live s) = connection_start_times s ∧
  loop (poll_connection i u live s) = loop s ∧
  _running (poll_connection i u live s) = _running s.
Proof.
  unfold poll_connection. cbv zeta.
  destruct (_ && _).
  - exact (connect_to_live_stream_frame2 u
             (set_connection_attempts (<[u := p_now i]> (connection_attempts s)) s)).
  - destruct (_ && _); [|done]. destruct (loop s) eqn:Hloop; by repeat split.
Qed.

(** One iteration of the poll loop never adds to [notified_users] and does
    not touch the end records, the gift URL, the loop or the running flag. *)
Lemma check_one_frame (i : PollInput) (raw : string) (s : MonitoringService)
    (loc : PollLocals) :
  notified_users (check_one i raw (s, loc)).1 ⊆ notified_users s ∧
  end_notification_sent (check_one i raw (s, loc)).1 = end_notification_sent s ∧
  end_notification_cooldown (check_one i raw (s, loc)).1 = end_notification_cooldown s ∧
  _gift_webhook_url (check_one i raw (s, loc)).1 = _gift_webhook_url s ∧
  loop (check_one i raw (s, loc)).1 = loop s ∧
  _running (check_one i raw (s, loc)).1 = _running s.
Proof.
  unfold check_one.
  destruct (normalize_username raw) as [u|]; [|done].
  cbv zeta.
  destruct (poll_connection_frame i u
              (bool_decide (u ∈ dom (current_live_users s))) s)
    as (_ & _ & _ & _ & Hn).
  destruct (poll_connection_frame2 i u
              (bool_decide (u ∈ dom (current_live_users s))) s)
    as (He & Hc & Hg & _ & Hl & Hr).
  set (s1 := poll_connection i u _ s) in *. clearbody s1.
  rewrite <- Hn, <- He, <- Hc, <- Hg, <- Hl, <- Hr.
  repeat match goal with
         | |- context [if ?t then _ else _] => destruct t
         end;
    unfold forget_connection;
    cbn [fst snd notified_users end_notification_sent end_notification_cooldown
         _gift_webhook_url loop _running set_last_status set_notified_users
         set_connection_start_times set_successfully_connected];
    repeat split; try done; set_solver.
Qed.

Lemma check_fold_frame (i : PollInput) (users : list string) :
  ∀ (s : MonitoringService) (loc : PollLocals),
    let r := fold_left (λ acc raw, check_one i raw acc) users (s, loc) in
    notified_users r.1 ⊆ notified_users s ∧
    end_notification_sent r.1 = end_notification_sent s ∧
    end_notification_cooldown r.1 = end_notification_cooldown s ∧
    _gift_webhook_url r.1 = _gift_webhook_url s ∧
    loop r.1 = loop s ∧
    _running r.1 = _running s.
Proof.
  induction users as [|raw users IH]; intros s loc; cbn [fold_left]; [done|].
  pose proof (check_one_frame i raw s loc) as H1.
  destruct (check_one i raw (s, loc)) as [s1 loc1]. cbn [fst] in H1.
  specialize (IH s1 loc1). cbv zeta in *.
  destruct H1 as (? & ? & ? & ? & ? & ?), IH as (? & ? & ? & ? & ? & ?).
  repeat split; try congruence. set_solver.
Qed.

(** The notification loop changes [notified_users] only. *)
Lemma notify_one_frame (i : PollInput) (w : Webhook.DiscordWebhook) (n : nat)
    (user_data : string * string) (s : MonitoringService) (ds : list Dispatch) :
  let r := notify_one i w n user_data (s, ds) in
  end_notification_sent r.1 = end_notification_sent s ∧
  end_notification_cooldown r.1 = end_notification_cooldown s ∧
  _gift_webhook_url r.1 = _gift_webhook_url s ∧
  _webhook_url r.1 = _webhook_url s ∧
  os_environ r.1 = os_environ s ∧
  loop r.1 = loop s ∧
  _running r.1 = _running s ∧
  live_clients r.1 = live_clients s ∧
  connection_attempts r.1 = connection_attempts s.
Proof.
  unfold notify_one. cbv zeta.
  destruct (bool_decide _); [by repeat split|].
  destruct (negb _); [|by repeat split].
  destruct (d_ok _); by repeat split.
Qed.

Lemma notify_fold_frame (i : PollInput) (w : Webhook.DiscordWebhook) (n : nat)
    (l : list (string * string)) :
  ∀ (s : MonitoringService) (ds : list Dispatch),
    let r := fold_left (λ acc user_data, notify_one i w n user_data acc) l (s, ds) in
    end_notification_sent r.1 = end_notification_sent s ∧
    end_notification_cooldown r.1 = end_notification_cooldown s ∧
    _gift_webhook_url r.1 = _gift_webhook_url s ∧
    _webhook_url r.1 = _webhook_url s ∧
    os_environ r.1 = os_environ s ∧
    loop r.1 = loop s ∧
    _running r.1 = _running s ∧
    live_clients r.1 = live_clients s ∧
    connection_attempts r.1 = connection_attempts s.
Proof.
  induction l as [|user_data l IH]; intros s ds; cbn [fold_left]; [by repeat split|].
  pose proof (notify_one_frame i w n user_data s ds) as H1.
  destruct (notify_one i w n user_data (s, ds)) as [s1 ds1].
  specialize (IH s1 ds1). cbv zeta in *. cbn [fst] in H1.
  destruct H1 as (? & ? & ? & ? & ? & ? & ? & ? & ?),
    IH as (? & ? & ? & ? & ? & ? & ? & ? & ?).
  repeat split; congruence.
Qed.

(** A poll cycle does not touch the end records, the gift URL, the
    environment, the loop or the running flag, and keeps the main URL of
    the notifications. *)
Lemma check_users_frame (i : PollInput) (s : MonitoringService) :
  end_notification_sent (check_users i s).1 = end_notification_sent s ∧
  end_notification_cooldown (check_users i s).1 = end_notification_cooldown s ∧
  _gift_webhook_url (check_users i s).1 = _gift_webhook_url s ∧
  os_environ (check_users i s).1 = os_environ s ∧
  main_url (check_users i s).1 = main_url s ∧
  loop (check_users i s).1 = loop s ∧
  _running (check_users i s).1 = _running s.
Proof.
  unfold check_users.
  set (s0 := if negb (opt_truthy (_webhook_url s)) then _ else s).
  assert (Hs0 : end_notification_sent s0 = end_notification_sent s
                ∧ end_notification_cooldown s0 = end_notification_cooldown s
                ∧ _gift_webhook_url s0 = _gift_webhook_url s
                ∧ os_environ s0 = os_environ s
                ∧ main_url s0 = main_url s
                ∧ loop s0 = loop s
                ∧ _running s0 = _running s).
  { unfold s0. destruct (opt_truthy (_webhook_url s)) eqn:Hw; cbn [negb]; [done|].
    repeat split; try done.
    unfold main_url, opt_or. cbn [_webhook_url os_environ set_webhook_url].
    destruct (_webhook_url s) as [w|]; cbn in Hw; [rewrite Hw|];
      by destruct (str_truthy (env_get _ _)). }
  destruct (negb (opt_truthy (_webhook_url s0))); [exact Hs0|].
  destruct (p_users i) as [|raw rest]; [exact Hs0|].
  pose proof (check_fold_frame i (raw :: rest) s0 (mkLocals [] [] [])) as Hf.
  pose proof (check_fold_spec i (raw :: rest) s0 (mkLocals [] [] [])) as Hspec.
  cbv zeta in Hf, Hspec.
  destruct (fold_left _ (raw :: rest) _) as [s1 loc]. cbn [fst snd] in Hf, Hspec.
  destruct Hspec as (_ & He1 & Hw1 & _).
  { split; cbn; [constructor|]. intros u t Hin. by apply elem_of_nil in Hin. }
  set (s2 := match currently_live loc with [] => _ | _ => _ end).
  assert (Hs2 : end_notification_sent s2 = end_notification_sent s1
                ∧ end_notification_cooldown s2 = end_notification_cooldown s1
                ∧ _gift_webhook_url s2 = _gift_webhook_url s1
                ∧ os_environ s2 = os_environ s1
                ∧ _webhook_url s2 = _webhook_url s1
                ∧ loop s2 = loop s1
                ∧ _running s2 = _running s1).
  { unfold s2. by destruct (currently_live loc). }
  match goal with
  | |- context [fold_left ?f ?l (s2, [])] =>
      pose proof (notify_fold_frame i
                    (Webhook.init (os_environ s2) (Some (main_url s2)) None)
                    (length (currently_live loc)) l s2 []) as Hn;
      destruct (fold_left f l (s2, [])) as [s3 ds]
  end.
  cbv zeta in Hn. cbn [fst snd] in *.
  destruct Hn as (N1 & N2 & N3 & N4 & N5 & N6 & N7 & _).
  destruct Hs2 as (A1 & A2 & A3 & A4 & A5 & A6 & A7).
  destruct Hf as (_ & F2 & F3 & F4 & F6 & F7).
  destruct Hs0 as (B1 & B2 & B3 & B4 & B5 & B6 & B7).
  unfold main_url in *.
  cbn [end_notification_sent end_notification_cooldown _gift_webhook_url os_environ
       _webhook_url loop _running set_current_live_users].
  repeat split; congruence.
Qed.

(* --------------------------------------------------------------------- *)
(** ** Where the notifications go *)

Lemma init_main_url (s : MonitoringService) (gift : option string) :
  Webhook.webhook_url (Webhook.init (os_environ s) (Some (main_url s)) gift) = main_url s.
Proof.
  unfold Webhook.init, main_url, opt_or. cbn [Webhook.webhook_url].
  destruct (_webhook_url s) as [w|]; [destruct (str_truthy w) eqn:Hw|].
  - by rewrite Hw.
  - by destruct (str_truthy (env_get _ _)).
  - by destruct (str_truthy (env_get _ _)).
Qed.

Lemma init_gift_url (s : MonitoringService) (url : option string) :
  Webhook.gift_webhook_url (Webhook.init (os_environ s) url (Some (gift_url s)))
  = gift_url s.
Proof.
  unfold Webhook.init, gift_url, opt_or. cbn [Webhook.gift_webhook_url].
  destruct (_gift_webhook_url s) as [w|]; [destruct (str_truthy w) eqn:Hw|].
  - by rewrite Hw.
  - by destruct (str_truthy (env_get _ _)).
  - by destruct (str_truthy (env_get _ _)).
Qed.

Lemma live_route_start (w : Webhook.DiscordWebhook) (u : string) (h ok : bool) :
  live_route (Webhook.webhook_url w) (Webhook.send_go_live_notification w u h ok).
Proof.
  unfold live_route, is_start, is_end, Webhook.send_go_live_notification, Webhook.send.
  destruct (str_truthy (Webhook.webhook_url w)); cbn; by split.
Qed.

Lemma live_route_end (w : Webhook.DiscordWebhook) (u : string) (ok : bool) :
  live_route (Webhook.webhook_url w) (Webhook.send_end_live_notification w u ok).
Proof.
  unfold live_route, is_start, is_end, Webhook.send_end_live_notification, Webhook.send.
  destruct (str_truthy (Webhook.webhook_url w)); cbn; by split.
Qed.

(** The callbacks keep the running flag, the loop, the stored URLs, the
    environment and the host. *)
Lemma callbacks_keep_settings (b : string) (c : ConnectInput) (x : DisconnectInput)
    (s : MonitoringService) :
  same_settings s (on_connect b c s).1 ∧
  same_settings s (on_disconnect b x s).1 ∧
  same_settings s (on_start_failed b s).
Proof.
  split; [|split].
  - unfold on_connect. cbv zeta.
    repeat match goal with
           | |- context [if ?t then _ else _] => destruct t
           end; by split_same.
  - unfold on_disconnect, handled_disconnect, drop_client, forget_connection. cbv zeta.
    repeat match goal with
           | |- context [if ?t then _ else _] => destruct t
           | |- context [match x_probe x with _ => _ end] => destruct (x_probe x)
           end; by split_same.
  - by split_same.
Qed.

Lemma same_settings_main_url (s s' : MonitoringService) :
  same_settings s s' → main_url s' = main_url s.
Proof. intros (_ & _ & Hw & _ & He & _). unfold main_url. by rewrite Hw, He. Qed.

(** The dispatches of the notification loop are start notifications sent
    through the loop's [DiscordWebhook], and a broadcaster enters
    [notified_users] only with a delivered one. *)
Lemma notify_fold_sent (i : PollInput) (w : Webhook.DiscordWebhook) (n : nat)
    (l : list (string * string)) :
  ∀ (s : MonitoringService) (ds : list Dispatch),
  ∃ ds1,
    (fold_left (λ acc user_data, notify_one i w n user_data acc) l (s, ds)).2
      = (ds ++ ds1)%list ∧
    Forall (λ d, ∃ u h ok, d = Webhook.send_go_live_notification w u h ok) ds1 ∧
    ∀ b, b ∈ notified_users
               (fold_left (λ acc user_data, notify_one i w n user_data acc) l (s, ds)).1 →
         b ∈ notified_users s ∨
         Exists (λ d, is_start_for b d && d_ok d = true) ds1.
Proof.
  induction l as [|user_data l IH]; intros s ds; cbn [fold_left].
  - exists []. rewrite app_nil_r. split; [done|]. split; [constructor|]. by left.
  - unfold notify_one at 2 4. cbv zeta.
    destruct (bool_decide (user_data.1 ∈ notified_users s)); [apply IH|].
    destruct (negb _); [|apply IH].
    set (d := Webhook.send_go_live_notification w user_data.1 _ _).
    destruct (IH (if d_ok d
                  then set_notified_users (notified_users s ∪ {[user_data.1]}) s
                  else s) (ds ++ [d])%list) as (ds1 & -> & Hall & Hn).
    exists (d :: ds1). rewrite <- app_assoc. split; [done|]. split.
    { constructor; [|done]. unfold d. eauto. }
    intros b Hb. destruct (Hn b Hb) as [Hin|Hex].
    + destruct (d_ok d) eqn:Hok; [|by left].
      cbn [notified_users set_notified_users] in Hin.
      apply elem_of_union in Hin as [Hin|Hin%elem_of_singleton]; [by left|].
      right. apply Exists_cons_hd. subst b. rewrite Hok, andb_true_r.
      unfold is_start_for, d, Webhook.send_go_live_notification.
      destruct (Webhook.send _ _ _). cbn. apply String.eqb_refl.
    + right. by apply Exists_cons_tl.
Qed.

(** The dispatches of a poll cycle, and what it does to [notified_users]. *)
Lemma check_users_sent (i : PollInput) (s : MonitoringService) :
  Forall (λ d, is_start d = true ∧ live_route (main_url s) d ∧ sent_with (main_url s) d)
         (check_users i s).2 ∧
  ∀ b, b ∈ notified_users (check_users i s).1 →
       b ∈ notified_users s ∨
       Exists (λ d, is_start_for b d && d_ok d = true) (check_users i s).2.
Proof.
  unfold check_users.
  set (s0 := if negb (opt_truthy (_webhook_url s)) then _ else s).
  assert (Hs0 : notified_users s0 = notified_users s ∧ main_url s0 = main_url s).
  { unfold s0. destruct (opt_truthy (_webhook_url s)) eqn:Hw; cbn [negb]; [done|].
    split; [done|].
    unfold main_url, opt_or. cbn [_webhook_url os_environ set_webhook_url].
    destruct (_webhook_url s) as [w|]; cbn in Hw; [rewrite Hw|];
      by destruct (str_truthy (env_get _ _)). }
  destruct Hs0 as [Hn0 Hm0].
  destruct (negb (opt_truthy (_webhook_url s0))).
  { cbn [fst snd]. split; [constructor|]. intros b Hb. left. by rewrite <- Hn0. }
  destruct (p_users i) as [|raw rest].
  { cbn [fst snd]. split; [constructor|]. intros b Hb. left. by rewrite <- Hn0. }
  pose proof (check_fold_frame i (raw :: rest) s0 (mkLocals [] [] [])) as Hf.
  pose proof (check_fold_spec i (raw :: rest) s0 (mkLocals [] [] [])) as Hspec.
  cbv zeta in Hf, Hspec.
  destruct (fold_left _ (raw :: rest) _) as [s1 loc]. cbn [fst snd] in Hf, Hspec.
  destruct Hspec as (_ & He1 & Hw1 & _).
  { split; cbn; [constructor|]. intros u t Hin. by apply elem_of_nil in Hin. }
  destruct Hf as (Hsub & _).
  set (s2 := match currently_live loc with [] => _ | _ => _ end).
  assert (Hs2 : notified_users s2 = notified_users s1 ∧ main_url s2 = main_url s0).
  { unfold s2, main_url. rewrite <- He1, <- Hw1. by destruct (currently_live loc). }
  destruct Hs2 as [Hn2 Hm2].
  match goal with
  | |- context [fold_left ?f ?l (s2, [])] =>
      destruct (notify_fold_sent i
                  (Webhook.init (os_environ s2) (Some (main_url s2)) None)
                  (length (currently_live loc)) l s2 [])
        as (ds1 & Hds & Hall & Hnot);
      destruct (fold_left f l (s2, [])) as [s3 ds]
  end.
  cbn [fst snd app] in *. subst ds. split.
  - eapply Forall_impl; [exact Hall|]. intros d (u & h & ok & ->). split.
    + unfold is_start, Webhook.send_go_live_notification. by destruct (Webhook.send _ _ _).
    + assert (HW : Webhook.webhook_url
                     (Webhook.init (os_environ s2) (Some (main_url s2)) None) = main_url s)
        by (rewrite init_main_url; congruence).
      split; [rewrite <- HW at 1; apply live_route_start|].
      eexists _, u, h, ok. split; [exact HW|by left].
  - intros b Hb. cbn [notified_users set_current_live_users] in Hb.
    destruct (Hnot b Hb) as [Hin|Hex]; [left|by right].
    rewrite <- Hn0. apply Hsub. by rewrite <- Hn2.
Qed.

Lemma live_route_main_start (s : MonitoringService) (u : string) (h ok : bool) :
  live_route (main_url s)
    (Webhook.send_go_live_notification
       (Webhook.init (os_environ s) (Some (main_url s)) None) u h ok).
Proof.
  pose proof (live_route_start
                (Webhook.init (os_environ s) (Some (main_url s)) None) u h ok) as H.
  by rewrite init_main_url in H.
Qed.

Lemma live_route_main_end (s : MonitoringService) (u : string) (ok : bool) :
  live_route (main_url s)
    (Webhook.send_end_live_notification
       (Webhook.init (os_environ s) (Some (main_url s)) None) u ok).
Proof.
  pose proof (live_route_end
                (Webhook.init (os_environ s) (Some (main_url s)) None) u ok) as H.
  by rewrite init_main_url in H.
Qed.

Lemma step_route (s : MonitoringService) (e : Event) :
  main_url (step s e).1 = main_url s ∧
  Forall (live_route (main_url s)) (step s e).2.
Proof.
  destruct e as [u i|u i|u ev ok|u|i]; cbn [step].
  - split.
    + apply same_settings_main_url.
      apply (callbacks_keep_settings u i (mkDisconnect 0 ProbeRaised false 0 "") s).
    + rewrite on_connect_dispatch_cases.
      destruct (bool_decide _); [constructor|].
      destruct (was_live_of s u); [constructor|].
      constructor; [apply live_route_main_start|constructor].
  - split.
    + apply same_settings_main_url.
      apply (callbacks_keep_settings u (mkConnect PNone 0 "" false) i s).
    + rewrite on_disconnect_dispatch_gates.
      destruct (end_gates u i s); constructor; [apply live_route_main_end|constructor].
  - destruct (on_gift u ev ok s) as [ds|exc] eqn:Hg; cbn [fst snd];
      (split; [done|]); [|constructor].
    eapply Forall_impl; [exact (on_gift_shape _ _ _ _ _ Hg)|].
    intros d [Hs He]. unfold live_route. by rewrite Hs, He.
  - cbn [fst snd]. split; [|constructor].
    apply same_settings_main_url.
    apply (callbacks_keep_settings u (mkConnect PNone 0 "" false)
             (mkDisconnect 0 ProbeRaised false 0 "") s).
  - split; [apply check_users_frame|].
    eapply Forall_impl; [apply check_users_sent|]. by intros d (_ & H & _).
Qed.

Lemma run_cons (s : MonitoringService) (e : Event) (es : list Event) :
  run s (e :: es) =
    ((run (step s e).1 es).1, ((step s e).2 ++ (run (step s e).1 es).2)%list).
Proof.
  change (run s (e :: es))
    with (let '(s1, ds) := step s e in
          let '(s2, ds') := run s1 es in (s2, (ds ++ ds')%list)).
  destruct (step s e) as [s1 ds]. cbn [fst snd]. by destruct (run s1 es).
Qed.

Lemma run_route (es : list Event) :
  ∀ s, main_url (run s es).1 = main_url s ∧
       Forall (live_route (main_url s)) (run s es).2.
Proof.
  induction es as [|e es IH]; intros s; [by split; [|constructor]|].
  rewrite run_cons. cbn [fst snd].
  destruct (step_route s e) as [Hm Hds], (IH (step s e).1) as [Hm' Hds'].
  rewrite Hm in Hm', Hds'. split; [done|]. by apply Forall_app.
Qed.

Lemma step_sent_with (s : MonitoringService) (e : Event) :
  Forall (λ d, is_start d || is_end d = true → sent_with (main_url s) d) (step s e).2.
Proof.
  destruct e as [u i|u i|u ev ok|u|i]; cbn [step].
  - rewrite on_connect_dispatch_cases.
    destruct (bool_decide _); [constructor|].
    destruct (was_live_of s u); [constructor|].
    constructor; [|constructor]. intros _.
    eexists _, _, _, _. split; [apply (init_main_url s None)|by left].
  - rewrite on_disconnect_dispatch_gates.
    destruct (end_gates u i s); constructor; [|constructor]. intros _.
    eexists _, u, false, _. split; [apply (init_main_url s None)|by right].
  - destruct (on_gift u ev ok s) as [ds|exc] eqn:Hg; cbn [snd]; [|constructor].
    eapply Forall_impl; [exact (on_gift_shape _ _ _ _ _ Hg)|].
    intros d [Hs He]. by rewrite Hs, He.
  - constructor.
  - eapply Forall_impl; [apply check_users_sent|]. by intros d (_ & _ & H) _.
Qed.

Lemma run_sent_with (es : list Event) :
  ∀ s, Forall (λ d, is_start d || is_end d = true → sent_with (main_url s) d)
              (run s es).2.
Proof.
  induction es as [|e es IH]; intros s; [constructor|].
  rewrite run_cons. cbn [snd]. apply Forall_app. split; [apply step_sent_with|].
  specialize (IH (step s e).1). by rewrite (proj1 (step_route s e)) in IH.
Qed.

(** X9. In every history of callbacks and poll cycles, no event changes
    the main webhook URL (the stored URL, else [DISCORD_WEBHOOK_URL]), and
    every start or end notification is the call of
    [send_go_live_notification] or [send_end_live_notification] on a
    [DiscordWebhook] whose [webhook_url] is the main URL of the state the
    history began in. *)
Theorem history_notifications_go_to_main_url :
  ∀ (s : MonitoringService) (es : list Event),
    main_url (run s es).1 = main_url s ∧
    ∀ d, d ∈ (run s es).2 → is_start d || is_end d = true →
         sent_with (main_url s) d.
Proof.
  intros s es. split; [apply run_route|].
  intros d Hin Hkind. pose proof (run_sent_with es s) as Hds.
  rewrite Forall_forall in Hds. by apply Hds.
Qed.

(* --------------------------------------------------------------------- *)
(** ** Announcements in a history *)

Lemma step_announces (s : MonitoringService) (e : Event) (b : string) :
  b ∈ notified_users (step s e).1 →
  b ∈ notified_users s ∨
  Exists (λ d, is_start_for b d && d_ok d = true) (step s e).2.
Proof.
  destruct e as [u i|u i|u ev ok|u|i]; cbn [step].
  - destruct (on_connect_cases u i s) as [[_ ->]|(d & h & -> & Hnote & _ & ->)];
      [by left|].
    destruct (d_ok d) eqn:Hok; [|by left].
    intros [Hin|Hin%elem_of_singleton]%elem_of_union; [by left|]. subst u.
    right. apply Exists_cons_hd. unfold is_start_for.
    by rewrite Hnote, Hok, String.eqb_refl.
  - intros Hin. left. revert Hin. unfold on_disconnect, handled_disconnect,
      drop_client, forget_connection. cbv zeta.
    repeat match goal with
           | |- context [if ?t then _ else _] => destruct t
           | |- context [match x_probe i with _ => _ end] => destruct (x_probe i)
           end;
      cbn [fst notified_users set_live_clients set_connection_start_times
           set_successfully_connected set_last_status set_notified_users
           set_end_notification_cooldown set_end_notification_sent
           set_current_live_users];
      set_solver.
  - destruct (on_gift u ev ok s); by left.
  - by left.
  - apply check_users_sent.
Qed.

(** With no main webhook URL, stored or in the environment, no start or
    end notification of a history is delivered. *)
Lemma unconfigured_run (es : list Event) :
  ∀ s, str_truthy (main_url s) = false →
       notified_users (run s es).1 ⊆ notified_users s.
Proof.
  induction es as [|e es IH]; intros s Hurl; [done|].
  rewrite run_cons. cbn [fst].
  destruct (step_route s e) as [Hm Hds].
  assert (Hstep : notified_users (step s e).1 ⊆ notified_users s).
  { intros b Hb. destruct (step_announces s e b Hb) as [Hin|Hex]; [done|].
    apply Exists_exists in Hex as (d & Hd & Hdel).
    rewrite Forall_forall in Hds. specialize (Hds d Hd).
    apply andb_true_iff in Hdel as [Hst Hok].
    unfold live_route, is_start in Hds. unfold is_start_for in Hst.
    destruct (d_note d); try done. cbn in Hds.
    destruct Hds as [_ Hfail]. rewrite (Hfail Hurl) in Hok. done. }
  specialize (IH (step s e).1). rewrite Hm in IH. set_solver.
Qed.

(** X10. A service without a main webhook URL, stored or in the
    environment, announces nobody: whatever the callbacks and poll cycles,
    no broadcaster enters [notified_users], and every start or end
    notification of the history is dispatched without a request and counts
    as failed. *)
Theorem unconfigured_service_announces_nobody :
  ∀ (s : MonitoringService) (es : list Event),
    str_truthy (main_url s) = false →
    notified_users (run s es).1 ⊆ notified_users s ∧
    ∀ d, d ∈ (run s es).2 → is_start d || is_end d = true →
         d_posted d = None ∧ d_ok d = false.
Proof.
  intros s es Hurl. split; [by apply unconfigured_run|].
  intros d Hin Hkind. destruct (run_route es s) as [_ Hds].
  rewrite Forall_forall in Hds. specialize (Hds d Hin).
  unfold live_route in Hds. rewrite Hkind, Hurl in Hds.
  destruct Hds as [Hp Hok]. by split; [|apply Hok].
Qed.

Lemma unconfigured_service_announces_nobody_witness :
  let s := start None None (Service.init ∅) in
  let es := [Connect "alice" (Fixture.connect_at 105 "2025-01-15T10:01:45" true);
             Poll (Fixture.poll_at 120 "2025-01-15T10:02:00" ["alice"]);
             Disconnect "alice" (Fixture.disconnect_at 200 "2025-01-15T10:03:20" true)] in
  str_truthy (main_url s) = false ∧
  (run s es).2 = [mkDispatch (GoLive "alice" true) None false] ∧
  notified_users (run s es).1 ⊆ notified_users s ∧
  ∀ d, d ∈ (run s es).2 → is_start d || is_end d = true →
       d_posted d = None ∧ d_ok d = false.
Proof.
  cbv zeta. split; [reflexivity|]. split; [by vm_compute|].
  apply (unconfigured_service_announces_nobody
           (start None None (Service.init ∅))).
  reflexivity.
Defined.

Lemma announced_after_app (b : string) (ds ds' : list Dispatch) :
  ∀ o, announced_after b o (ds ++ ds')
       = announced_after b (announced_after b o ds) ds'.
Proof.
  induction ds as [|d ds IH]; intros o; cbn [app announced_after]; [done|].
  destruct (is_end_for b d); [apply IH|]. destruct (_ && _); apply IH.
Qed.

Lemma ends_follow_starts_app (b : string) (ds ds' : list Dispatch) :
  ∀ o, ends_follow_starts b o (ds ++ ds')
       = ends_follow_starts b o ds
         && ends_follow_starts b (announced_after b o ds) ds'.
Proof.
  induction ds as [|d ds IH]; intros o;
    cbn [app ends_follow_starts announced_after]; [done|].
  destruct (is_end_for b d); [by rewrite IH, andb_assoc|].
  destruct (_ && _); apply IH.
Qed.

Lemma no_end_follows (b : string) (ds : list Dispatch) :
  Forall (λ d, is_end_for b d = false) ds →
  ∀ o, ends_follow_starts b o ds = true ∧
       (o = true ∨ Exists (λ d, is_start_for b d && d_ok d = true) ds →
        announced_after b o ds = true).
Proof.
  induction 1 as [|d ds Hd _ IH]; intros o; cbn [ends_follow_starts announced_after].
  - split; [done|]. intros [H|H]; [done|]. by apply Exists_nil in H.
  - rewrite Hd. destruct (is_start_for b d && d_ok d) eqn:Hst.
    + split; [apply IH|]. intros _. apply IH. by left.
    + split; [apply IH|]. intros [H|H]; apply IH; [by left|].
      apply Exists_cons in H as [H|H]; [congruence|by right].
Qed.

Lemma is_end_for_is_end (b : string) (d : Dispatch) :
  is_end d = false → is_end_for b d = false.
Proof. unfold is_end, is_end_for. by destruct (d_note d). Qed.

Lemma end_gates_announced (b : string) (i : DisconnectInput) (s : MonitoringService) :
  end_gates b i s = true → b ∈ notified_users s.
Proof.
  unfold end_gates. intros H.
  do 5 (apply andb_true_iff in H as [H _]).
  apply andb_true_iff in H as [_ H]. by apply bool_decide_eq_true in H.
Qed.

Lemma step_ends_follow (s : MonitoringService) (e : Event) (b : string) (o : bool) :
  (b ∈ notified_users s → o = true) →
  ends_follow_starts b o (step s e).2 = true ∧
  (b ∈ notified_users (step s e).1 → announced_after b o (step s e).2 = true).
Proof.
  intros Ho.
  assert (Hgen : Forall (λ d, is_end_for b d = false) (step s e).2 →
                 ends_follow_starts b o (step s e).2 = true ∧
                 (b ∈ notified_users (step s e).1 →
                  announced_after b o (step s e).2 = true)).
  { intros Hno. destruct (no_end_follows b _ Hno o) as [H1 H2]. split; [done|].
    intros Hb. apply H2. destruct (step_announces s e b Hb); [left|right]; auto. }
  destruct e as [u i|u i|u ev ok|u|i].
  - apply Hgen. cbn [step]. eapply Forall_impl; [apply on_connect_only_starts|].
    intros d Hd. unfold is_start in Hd. unfold is_end_for. by destruct (d_note d).
  - destruct (decide (u = b)) as [->|Hne].
    + cbn [step] in *.
      pose proof (on_disconnect_dispatch_gates b i s) as Hds.
      destruct (end_gates b i s) eqn:Hg.
      * destruct (on_disconnect b i s) as [s1 ds] eqn:Hrun. cbn [fst snd] in *.
        subst ds. destruct (on_disconnect_dispatched b i s s1 _ Hrun) as (_ & -> & _).
        cbn [ends_follow_starts announced_after].
        assert (He : is_end_for b
                       (Webhook.send_end_live_notification
                          (Webhook.init (os_environ s) (Some (main_url s)) None) b
                          (x_post_ok i)) = true).
        { unfold is_end_for, Webhook.send_end_live_notification.
          destruct (Webhook.send _ _ _). cbn. apply String.eqb_refl. }
        rewrite He. split.
        { rewrite Ho; [done|]. by eapply end_gates_announced. }
        unfold after_end_dispatch, handled_disconnect, drop_client, forget_connection.
        cbv zeta. destruct (d_ok _);
          cbn [notified_users set_live_clients set_connection_start_times
               set_successfully_connected set_last_status set_notified_users
               set_end_notification_cooldown set_end_notification_sent
               set_current_live_users]; set_solver.
      * apply Hgen. cbn [step]. rewrite Hds. constructor.
    + apply Hgen. cbn [step].
      destruct (on_disconnect_shape u i s) as [->|(d & -> & Hd)]; [constructor|].
      constructor; [|constructor]. unfold is_end_for. rewrite Hd.
      by apply String.eqb_neq.
  - apply Hgen. cbn [step].
    destruct (on_gift u ev ok s) as [ds|exc] eqn:Hg; [|constructor].
    eapply Forall_impl; [exact (on_gift_only_gifts _ _ _ _ _ Hg)|].
    intros d. apply is_end_for_is_end.
  - apply Hgen. constructor.
  - apply Hgen. cbn [step]. eapply Forall_impl; [apply check_users_only_starts|].
    intros d Hd. unfold is_start in Hd. unfold is_end_for. by destruct (d_note d).
Qed.

Lemma run_ends_follow (b : string) (es : list Event) :
  ∀ (s : MonitoringService) (o : bool),
    (b ∈ notified_users s → o = true) →
    ends_follow_starts b o (run s es).2 = true ∧
    (b ∈ notified_users (run s es).1 → announced_after b o (run s es).2 = true).
Proof.
  induction es as [|e es IH]; intros s o Ho; [by split|].
  rewrite run_cons. cbn [fst snd].
  destruct (step_ends_follow s e b o Ho) as [H1 H2].
  destruct (IH (step s e).1 (announced_after b o (step s e).2) H2) as [H3 H4].
  rewrite ends_follow_starts_app, announced_after_app, H1, H3. by split.
Qed.

(** X11. No end notification without an announcement: in the dispatches of
    any history, every end notification for a broadcaster is preceded by a
    delivered start notification for that broadcaster with no other end
    notification for it in between (for a broadcaster already in
    [notified_users] at the beginning, the first end notification may come
    without one). *)
Theorem every_end_follows_a_delivered_start :
  ∀ (s : MonitoringService) (es : list Event) (b : string),
    ends_follow_starts b (bool_decide (b ∈ notified_users s)) (run s es).2 = true.
Proof.
  intros s es b. apply run_ends_follow. intros Hb. by apply bool_decide_eq_true.
Qed.

(** The predicate tells histories apart: an end notification that no
    delivered start precedes, or a second end after one start, fails it. *)
Example ends_follow_starts_rejects :
  ends_follow_starts "alice" false [Fixture.end_ok "alice"] = false ∧
  ends_follow_starts "alice" false
    [Fixture.start_failed "alice" true; Fixture.end_ok "alice"] = false ∧
  ends_follow_starts "alice" false
    [Fixture.start_ok "alice" true; Fixture.end_ok "alice"; Fixture.end_ok "alice"]
    = false ∧
  ends_follow_starts "alice" false
    [Fixture.start_ok "alice" true; Fixture.end_ok "bob"; Fixture.end_failed "alice"]
    = true.
Proof. by vm_compute. Qed.

(* --------------------------------------------------------------------- *)
(** ** The records of sent end notifications *)

Lemma step_cooldown_with_end (s : MonitoringService) (e : Event) :
  cooldown_with_end s → cooldown_with_end (step s e).1.
Proof.
  intros Hinv. destruct e as [u i|u i|u ev ok|u|i]; cbn [step].
  - intros b. unfold on_connect. cbv zeta.
    repeat match goal with
           | |- context [if ?t then _ else _] => destruct t
           end;
      cbn [fst end_notification_cooldown end_notification_sent set_last_status
           set_connection_attempts set_current_live_users set_connection_start_times
           set_successfully_connected set_end_notification_cooldown
           set_end_notification_sent set_notified_users];
      try apply Hinv.
    all: destruct (decide (b = u)) as [->|Hne];
      [rewrite lookup_delete_eq; by intros [? ?]
      |rewrite lookup_delete_ne by done; intros Hb; specialize (Hinv b Hb); set_solver].
  - intros b. unfold on_disconnect, handled_disconnect, drop_client, forget_connection.
    cbv zeta.
    repeat match goal with
           | |- context [if ?t then _ else _] => destruct t
           | |- context [match x_probe i with _ => _ end] => destruct (x_probe i)
           end;
      cbn [fst end_notification_cooldown end_notification_sent set_last_status
           set_live_clients set_current_live_users set_connection_start_times
           set_successfully_connected set_end_notification_cooldown
           set_end_notification_sent set_notified_users];
      try apply Hinv.
    all: destruct (decide (b = u)) as [->|Hne]; [set_solver|];
      rewrite lookup_insert_ne by done; intros Hb; specialize (Hinv b Hb); set_solver.
  - by destruct (on_gift u ev ok s).
  - exact Hinv.
  - intros b. destruct (check_users_frame i s) as (-> & -> & _). apply Hinv.
Qed.

Lemma run_cooldown_with_end (es : list Event) :
  ∀ s, cooldown_with_end s → cooldown_with_end (run s es).1.
Proof.
  induction es as [|e es IH]; intros s Hinv; [done|].
  rewrite run_cons. cbn [fst]. by apply IH, step_cooldown_with_end.
Qed.

Lemma started_cooldown_with_end (env : environ) (w g : option string) :
  cooldown_with_end (start w g (Service.init env)).
Proof.
  intros b [t Ht]. revert Ht. unfold start. cbn [_running Service.init negb].
  destruct (opt_truthy w), (opt_truthy g); cbn; by rewrite lookup_empty.
Qed.

(** X12. The 60-second cooldown never decides. A cooldown time is written
    only together with the record of the sent end notification and removed
    only together with it, so in any history from a state where every
    cooldown time has its record (a freshly started service is one), a
    disconnect that gets past the test for a recorded end finds no cooldown
    time for its broadcaster. *)
Theorem cooldown_gate_finds_no_time :
  ∀ (s : MonitoringService) (es : list Event) (b : string),
    cooldown_with_end s →
    cooldown_with_end (run s es).1 ∧
    (reaches_cooldown_gate b (run s es).1 = true →
     end_notification_cooldown (run s es).1 !! b = None).
Proof.
  intros s es b Hinv.
  pose proof (run_cooldown_with_end es s Hinv) as Hrun. split; [done|].
  unfold reaches_cooldown_gate. intros Hgate.
  apply andb_true_iff in Hgate as [_ Hsent].
  apply negb_true_iff, bool_decide_eq_false in Hsent.
  destruct (end_notification_cooldown (run s es).1 !! b) eqn:Hc; [|done].
  destruct Hsent. apply Hrun. by rewrite Hc.
Qed.

Lemma cooldown_gate_finds_no_time_witness :
  let s := Fixture.s0 in
  let es := [Connect "alice" (Fixture.connect_at 105 "2025-01-15T10:01:45" true);
             Disconnect "alice" (Fixture.disconnect_at 140 "2025-01-15T10:02:20" true);
             Connect "alice" (Fixture.connect_at 150 "2025-01-15T10:02:30" true)] in
  cooldown_with_end s ∧
  reaches_cooldown_gate "alice" (run s es).1 = true ∧
  cooldown_with_end (run s es).1 ∧
  (reaches_cooldown_gate "alice" (run s es).1 = true →
   end_notification_cooldown (run s es).1 !! "alice" = None).
Proof.
  cbv zeta. split; [apply started_cooldown_with_end|]. split; [by vm_compute|].
  apply (cooldown_gate_finds_no_time Fixture.s0). apply started_cooldown_with_end.
Defined.

(* --------------------------------------------------------------------- *)
(** ** Poll cycles in a history *)

Lemma step_keeps_marks (s : MonitoringService) (e : Event) :
  live_implies_marked s → live_implies_marked (step s e).1.
Proof.
  intros Hinv. destruct e as [u i|u i|u ev ok|u|i]; cbn [step].
  - by apply on_connect_keeps_marks.
  - by apply on_disconnect_keeps_marks.
  - by destruct (on_gift u ev ok s).
  - exact Hinv.
  - by apply check_users_marked.
Qed.

Lemma run_keeps_marks (es : list Event) :
  ∀ s, live_implies_marked s → live_implies_marked (run s es).1.
Proof.
  induction es as [|e es IH]; intros s Hinv; [done|].
  rewrite run_cons. cbn [fst]. by apply IH, step_keeps_marks.
Qed.

(** X13. Start notifications come from connect confirmations only. When
    callbacks and poll cycles run one at a time, from a state in which every
    entry of [current_live_users] has a live status (after [start] there is
    no entry), a poll cycle at any point of the history dispatches nothing
    and leaves [notified_users] as it is: it never finds a user who is live
    and was not. *)
Theorem poll_cycles_dispatch_nothing :
  ∀ (s : MonitoringService) (es : list Event) (i : PollInput),
    live_implies_marked s →
    (check_users i (run s es).1).2 = [] ∧
    notified_users (check_users i (run s es).1).1 = notified_users (run s es).1.
Proof.
  intros s es i Hinv.
  destruct (check_users_marked i (run s es).1 (run_keeps_marks es s Hinv))
    as (Hds & Hn & _).
  by split.
Qed.

Lemma poll_cycles_dispatch_nothing_witness :
  let s := Fixture.s0 in
  let es := [Connect "alice" (Fixture.connect_at 105 "2025-01-15T10:01:45" false);
             Connect "bob" (Fixture.connect_at 110 "2025-01-15T10:01:50" true)] in
  let i := Fixture.poll_at 120 "2025-01-15T10:02:00" ["alice"; "bob"; "carol"] in
  live_implies_marked s ∧
  ("alice" ∉ notified_users (run s es).1) ∧
  (check_users i (run s es).1).2 = [] ∧
  notified_users (check_users i (run s es).1).1 = notified_users (run s es).1.
Proof.
  cbv zeta. split; [apply fresh_service_marked|]. split; [by vm_compute|].
  apply (poll_cycles_dispatch_nothing Fixture.s0). apply fresh_service_marked.
Defined.

(* --------------------------------------------------------------------- *)
(** ** What a gift notification carries and where it goes *)

Lemma gift_send_route (s : MonitoringService) (serializable post_ok : bool) :
  let w := Webhook.init (os_environ s) (Some (main_url s)) (Some (gift_url s)) in
  Webhook.send
    (if str_truthy (Webhook.gift_webhook_url w)
     then {| Webhook.webhook_url := Webhook.gift_webhook_url w;
             Webhook.gift_webhook_url := Webhook.gift_webhook_url w |}
     else w)
    serializable post_ok
  = Webhook.send {| Webhook.webhook_url := gift_route s;
                    Webhook.gift_webhook_url := gift_url s |}
                 serializable post_ok.
Proof.
  cbv zeta. rewrite init_gift_url. unfold gift_route, Webhook.send.
  destruct (str_truthy (gift_url s)) eqn:Hg; cbn [Webhook.webhook_url]; [done|].
  by rewrite init_main_url.
Qed.

(** X14. The one dispatch of the gift handler is settled by three
    look-ups. The name is the first usable value among the attributes
    [name], [gift_name], [giftName], [giftId], [gift_id] of the gift object
    and then the entries [name], [gift_name], [giftName] of its
    [__dict__]; the count the first among the attributes [repeat_count],
    [repeatCount], [count], [amount] and then the entries [repeat_count],
    [count] of [__dict__]; the gifter the first among [unique_id],
    [uniqueId], [nickname], [name] of [event.user]; the placeholders are
    ['Gift'], [1] and ['']. The attempt to replace an id by a name never
    changes the name. A count that is neither an integer nor a float gives
    no dispatch. The embed is handed to [send] on a [DiscordWebhook] whose
    [webhook_url] is the gift URL, or the main URL when there is no gift
    URL; nothing of the session state (announced, live, connected) is
    read. *)
Theorem on_gift_first_usable_fields :
  ∀ (username : string) (event : pyval) (post_ok : bool) (s : MonitoringService),
    let gift := gift_of event in
    let name := or_chain (name_probes gift) (PStr "Gift") in
    let count := or_chain (count_probes gift) (PInt 1) in
    let gifter := or_chain (gifter_probes event) (PStr "") in
    let w := {| Webhook.webhook_url := gift_route s;
                Webhook.gift_webhook_url := gift_url s |} in
    on_gift username event post_ok s =
      Returned
        (if is_number count
         then [mkDispatch (Gift username name count gifter)
                 (Webhook.send w (Webhook.json_ok name) post_ok).2
                 (Webhook.send w (Webhook.json_ok name) post_ok).1]
         else []).
Proof.
  intros username event post_ok s. cbv zeta.
  unfold on_gift, on_gift_body. cbv zeta.
  rewrite on_gift_fields, extract_gifter_first_truthy.
  unfold Webhook.send_gift_notification.
  destruct (or_chain (count_probes (gift_of event)) (PInt 1)) eqn:Hc;
    cbn [Webhook.format_thousands is_number]; try done.
  all: rewrite gift_send_route; by destruct (Webhook.send _ _ _).
Qed.

(** A gift reaches the gift channel although no main URL is configured,
    and a numeric id stands in for a missing name. *)
Example gift_without_main_url :
  let s := start None (Some Fixture.gift_hook) (Service.init ∅) in
  main_url s = "" ∧
  on_gift "bob" (PObj [("gift", PObj [("giftId", PInt 5655); ("amount", PInt 2)] None)]
                      None)
          true s
  = Returned [mkDispatch (Gift "bob" (PInt 5655) (PInt 2) (PStr ""))
                         (Some Fixture.gift_hook) true].
Proof. by vm_compute. Qed.

(* --------------------------------------------------------------------- *)
(** ** New connections of a poll cycle *)

Lemma poll_connection_backoff (i : PollInput) (v : string) (live : bool)
    (s : MonitoringService) :
  let r := poll_connection i v live s in
  loop r = loop s ∧
  ∀ u, (u ∈ live_clients r →
        u ∈ live_clients s ∨
        (u = v ∧ backoff_over i v s = true ∧ loop s = Some true)) ∧
       (connection_attempts r !! u = connection_attempts s !! u ∨
        (u = v ∧ backoff_over i v s = true ∧
         connection_attempts r !! u = Some (p_now i))).
Proof.
  cbv zeta. unfold poll_connection, backoff_over. cbv zeta.
  destruct (negb (bool_decide (v ∈ live_clients s))) eqn:Hc; cbn [andb].
  - destruct (15 <? _) eqn:Hb.
    + unfold connect_to_live_stream.
      cbn [live_clients loop set_connection_attempts].
      assert (Hat : ∀ u, <[v := p_now i]> (connection_attempts s) !! u
                         = connection_attempts s !! u ∨
                         (u = v ∧ true = true ∧
                          <[v := p_now i]> (connection_attempts s) !! u = Some (p_now i))).
      { intros u. destruct (decide (u = v)) as [->|Hne].
        - right. by rewrite lookup_insert_eq.
        - left. by rewrite lookup_insert_ne. }
      destruct (bool_decide (v ∈ live_clients s)); [done|].
      destruct (loop s) as [[|]|] eqn:Hloop;
        cbn [live_clients loop connection_attempts set_connection_attempts
             set_live_clients]; (split; [done|]); intros u; (split; [|apply Hat]);
        try (by left).
      intros [Hin|Hin%elem_of_singleton]%elem_of_union; [by left|by right].
    + destruct (negb live && bool_decide (v ∈ live_clients s)).
      * destruct (loop s) eqn:Hloop;
          cbn [live_clients loop connection_attempts set_live_clients];
          (split; [done|]); intros u; (split; [|by left]); set_solver.
      * split; [done|]. intros u. split; by left.
  - destruct (negb live && bool_decide (v ∈ live_clients s)).
    + destruct (loop s) eqn:Hloop;
        cbn [live_clients loop connection_attempts set_live_clients];
        (split; [done|]); intros u; (split; [|by left]); set_solver.
    + split; [done|]. intros u. split; by left.
Qed.

Lemma check_one_backoff (i : PollInput) (raw : string) (s : MonitoringService)
    (loc : PollLocals) :
  let r := (check_one i raw (s, loc)).1 in
  loop r = loop s ∧
  ∀ u, (u ∈ live_clients r →
        u ∈ live_clients s ∨
        (normalize_username raw = Some u ∧ backoff_over i u s = true ∧
         loop s = Some true)) ∧
       (connection_attempts r !! u = connection_attempts s !! u ∨
        (normalize_username raw = Some u ∧ backoff_over i u s = true ∧
         connection_attempts r !! u = Some (p_now i))).
Proof.
  cbv zeta. unfold check_one.
  destruct (normalize_username raw) as [v|]; [|split; [done|]; intros u; split; by left].
  cbv zeta.
  pose proof (poll_connection_backoff i v
                (bool_decide (v ∈ dom (current_live_users s))) s) as Hp.
  cbv zeta in Hp. destruct Hp as [Hl Hp].
  set (s1 := poll_connection i v _ s) in *. clearbody s1.
  assert (Hgoal : loop s1 = loop s ∧
                  ∀ u, (u ∈ live_clients s1 →
                        u ∈ live_clients s ∨
                        (Some v = Some u ∧ backoff_over i u s = true ∧ loop s = Some true)) ∧
                       (connection_attempts s1 !! u = connection_attempts s !! u ∨
                        (Some v = Some u ∧ backoff_over i u s = true ∧
                         connection_attempts s1 !! u = Some (p_now i)))).
  { split; [done|]. intros u. destruct (Hp u) as [H1 H2]. split.
    - intros Hin. destruct (H1 Hin) as [?|(-> & ? & ?)]; [by left|by right].
    - destruct H2 as [?|(-> & ? & ?)]; [by left|by right]. }
  repeat match goal with
         | |- context [if ?t then _ else _] => destruct t
         end;
    cbn [fst loop live_clients connection_attempts set_last_status set_notified_users
         set_connection_start_times set_successfully_connected forget_connection];
    exact Hgoal.
Qed.

Lemma backoff_over_ext (i : PollInput) (u : string) (s s' : MonitoringService) :
  connection_attempts s' !! u = connection_attempts s !! u →
  backoff_over i u s' = backoff_over i u s.
Proof. unfold backoff_over. by intros ->. Qed.

Lemma check_fold_backoff (i : PollInput) (all : list string) (s : MonitoringService)
    (users : list string) :
  (∀ raw, raw ∈ users → raw ∈ all) →
  ∀ (sT : MonitoringService) (loc : PollLocals),
    (loop sT = loop s ∧
     ∀ u, (u ∈ live_clients sT →
           u ∈ live_clients s ∨
           (watched all u ∧ backoff_over i u s = true ∧ loop s = Some true)) ∧
          (connection_attempts sT !! u = connection_attempts s !! u ∨
           (watched all u ∧ backoff_over i u s = true ∧
            connection_attempts sT !! u = Some (p_now i)))) →
    let r := (fold_left (λ acc raw, check_one i raw acc) users (sT, loc)).1 in
    loop r = loop s ∧
    ∀ u, (u ∈ live_clients r →
          u ∈ live_clients s ∨
          (watched all u ∧ backoff_over i u s = true ∧ loop s = Some true)) ∧
         (connection_attempts r !! u = connection_attempts s !! u ∨
          (watched all u ∧ backoff_over i u s = true ∧
           connection_attempts r !! u = Some (p_now i))).
Proof.
  induction users as [|raw users IH]; intros Hall sT loc Hinv; cbn [fold_left]; [done|].
  pose proof (check_one_backoff i raw sT loc) as H1. cbv zeta in H1.
  destruct (check_one i raw (sT, loc)) as [s1 loc1]. cbn [fst] in H1.
  apply IH; [intros r Hr; apply Hall; by right|].
  destruct Hinv as [HlT HT], H1 as [Hl1 H1].
  split; [congruence|]. intros u.
  destruct (HT u) as [HcT HaT], (H1 u) as [Hc1 Ha1].
  assert (Hw : normalize_username raw = Some u → watched all u).
  { intros Hn. exists raw. split; [apply Hall; by left|done]. }
  assert (Hb : backoff_over i u sT = true → watched all u → backoff_over i u s = true).
  { intros Hb _. destruct HaT as [Heq|(_ & Hbs & _)]; [|done].
    by rewrite <- (backoff_over_ext i u s sT Heq). }
  split.
  - intros Hin. destruct (Hc1 Hin) as [Hin'|(Hn & Hbo & Hloop)]; [by apply HcT|].
    right. split; [by apply Hw|]. split; [by apply Hb, Hw|congruence].
  - destruct Ha1 as [Heq|(Hn & Hbo & Hat)].
    + rewrite Heq. exact HaT.
    + right. split; [by apply Hw|]. split; [by apply Hb, Hw|done].
Qed.

(** The clients, the attempt times and the loop after one iteration are
    those that its connection step leaves. *)
Lemma check_one_connection (i : PollInput) (raw : string) (s : MonitoringService)
    (loc : PollLocals) :
  let r := (check_one i raw (s, loc)).1 in
  let p := match normalize_username raw with
           | Some v => poll_connection i v (bool_decide (v ∈ dom (current_live_users s))) s
           | None => s
           end in
  live_clients r = live_clients p ∧
  connection_attempts r = connection_attempts p ∧
  loop r = loop p.
Proof.
  cbv zeta. unfold check_one.
  destruct (normalize_username raw) as [v|]; [|done].
  cbv zeta. set (s1 := poll_connection i v _ s). clearbody s1.
  repeat match goal with
         | |- context [if ?t then _ else _] => destruct t
         end;
    cbn [fst loop live_clients connection_attempts set_last_status set_notified_users
         set_connection_start_times set_successfully_connected forget_connection];
    done.
Qed.

Lemma poll_connection_other (i : PollInput) (v u : string) (live : bool)
    (s : MonitoringService) :
  u ≠ v →
  (u ∈ live_clients (poll_connection i v live s) ↔ u ∈ live_clients s) ∧
  connection_attempts (poll_connection i v live s) !! u = connection_attempts s !! u.
Proof.
  intros Hne. unfold poll_connection, connect_to_live_stream. cbv zeta.
  cbn [live_clients loop set_connection_attempts].
  repeat match goal with
         | |- context [if ?t then _ else _] => destruct t
         | |- context [match loop s with _ => _ end] => destruct (loop s) as [[|]|]
         end;
    cbn [live_clients connection_attempts set_connection_attempts set_live_clients];
    rewrite ?lookup_insert_ne by done; (split; [set_solver|done]).
Qed.

Lemma poll_connection_same (i : PollInput) (u : string) (live : bool)
    (s : MonitoringService) :
  (connection_attempts s !! u = Some (p_now i) →
   connection_attempts (poll_connection i u live s) !! u = Some (p_now i)) ∧
  ((u ∉ live_clients s) → backoff_over i u s = true →
   connection_attempts (poll_connection i u live s) !! u = Some (p_now i) ∧
   (loop s = Some true → u ∈ live_clients (poll_connection i u live s))).
Proof.
  unfold poll_connection, connect_to_live_stream, backoff_over. cbv zeta.
  cbn [live_clients loop set_connection_attempts]. split.
  - intros Hat.
    repeat match goal with
           | |- context [if ?t then _ else _] => destruct t
           | |- context [match loop s with _ => _ end] => destruct (loop s) as [[|]|]
           end;
      cbn [live_clients connection_attempts set_connection_attempts set_live_clients];
      rewrite ?lookup_insert_eq; done.
  - intros Hno Hb. rewrite (bool_decide_eq_false_2 _ Hno), Hb. cbn [negb andb].
    destruct (loop s) as [[|]|] eqn:Hloop;
      cbn [live_clients connection_attempts set_connection_attempts set_live_clients];
      rewrite lookup_insert_eq; (split; [done|]); intros [=]. set_solver.
Qed.

(** Iterations for other users leave the client and the attempt time of
    [u] alone. *)
Lemma check_fold_other (i : PollInput) (u : string) (users : list string) :
  (∀ r, r ∈ users → normalize_username r ≠ Some u) →
  ∀ (s : MonitoringService) (loc : PollLocals),
    let r := (fold_left (λ acc raw, check_one i raw acc) users (s, loc)).1 in
    (u ∈ live_clients r ↔ u ∈ live_clients s) ∧
    connection_attempts r !! u = connection_attempts s !! u ∧
    loop r = loop s.
Proof.
  induction users as [|raw users IH]; intros Hall s loc; cbn [fold_left]; [done|].
  pose proof (check_one_connection i raw s loc) as H1. cbv zeta in H1.
  destruct (check_one i raw (s, loc)) as [s1 loc1]. cbn [fst] in H1.
  destruct H1 as (Hc & Ha & Hl).
  destruct (IH (λ r Hr, Hall r (list_elem_of_further r raw users Hr)) s1 loc1)
    as (IHc & IHa & IHl).
  cbv zeta. rewrite IHc, IHa, IHl, Hc, Ha, Hl.
  assert (Hraw : normalize_username raw ≠ Some u) by (apply Hall; by left).
  destruct (normalize_username raw) as [v|]; [|done].
  assert (Hne : u ≠ v) by congruence.
  destruct (poll_connection_other i v u (bool_decide (v ∈ dom (current_live_users s)))
              s Hne) as [Hoc Hoa].
  split; [done|]. split; [done|]. apply poll_connection_backoff.
Qed.

Lemma check_fold_keeps_attempt (i : PollInput) (u : string) (users : list string) :
  ∀ (s : MonitoringService) (loc : PollLocals),
    connection_attempts s !! u = Some (p_now i) →
    connection_attempts
      (fold_left (λ acc raw, check_one i raw acc) users (s, loc)).1 !! u
    = Some (p_now i).
Proof.
  induction users as [|raw users IH]; intros s loc Hat; cbn [fold_left]; [done|].
  pose proof (check_one_connection i raw s loc) as H1. cbv zeta in H1.
  destruct (check_one i raw (s, loc)) as [s1 loc1]. cbn [fst] in H1.
  destruct H1 as (_ & Ha & _). apply IH. rewrite Ha.
  destruct (normalize_username raw) as [v|]; [|done].
  destruct (decide (u = v)) as [<-|Hne].
  - exact (proj1 (poll_connection_same i u _ s) Hat).
  - by rewrite (proj2 (poll_connection_other i v u _ s Hne)).
Qed.

Lemma check_fold_attempts (i : PollInput) (u : string) (users : list string) :
  watched users u →
  ∀ (s : MonitoringService) (loc : PollLocals),
    (u ∉ live_clients s) → backoff_over i u s = true →
    connection_attempts
      (fold_left (λ acc raw, check_one i raw acc) users (s, loc)).1 !! u
    = Some (p_now i).
Proof.
  induction users as [|raw users IH]; intros (r & Hin & Hr) s loc Hno Hb.
  { by apply elem_of_nil in Hin. }
  cbn [fold_left].
  pose proof (check_one_connection i raw s loc) as H1. cbv zeta in H1.
  destruct (check_one i raw (s, loc)) as [s1 loc1] eqn:Hone. cbn [fst] in H1.
  destruct H1 as (Hc & Ha & _).
  destruct (decide (normalize_username raw = Some u)) as [Heq|Hneq].
  - apply check_fold_keeps_attempt. rewrite Ha, Heq.
    exact (proj1 (proj2 (poll_connection_same i u _ s) Hno Hb)).
  - apply IH.
    + apply elem_of_cons in Hin as [->|Hin]; [done|]. by exists r.
    + rewrite Hc. destruct (normalize_username raw) as [v|]; [|done].
      assert (Hne : u ≠ v) by congruence.
      by rewrite (proj1 (poll_connection_other i v u _ s Hne)).
    + rewrite <- Hb. apply backoff_over_ext. rewrite Ha.
      destruct (normalize_username raw) as [v|]; [|done].
      assert (Hne : u ≠ v) by congruence.
      by rewrite (proj2 (poll_connection_other i v u _ s Hne)).
Qed.

(** The clients and attempt times that a poll cycle with a webhook and a
    watch list leaves are those that its first loop leaves. *)
Lemma check_users_connections (i : PollInput) (s : MonitoringService) :
  webhook_configured s = true →
  p_users i ≠ [] →
  ∃ s0,
    live_clients s0 = live_clients s ∧
    connection_attempts s0 = connection_attempts s ∧
    loop s0 = loop s ∧
    live_clients (check_users i s).1
      = live_clients
          (fold_left (λ acc raw, check_one i raw acc) (p_users i)
             (s0, mkLocals [] [] [])).1 ∧
    connection_attempts (check_users i s).1
      = connection_attempts
          (fold_left (λ acc raw, check_one i raw acc) (p_users i)
             (s0, mkLocals [] [] [])).1.
Proof.
  intros Hurl Husers. unfold check_users.
  set (s0 := if negb (opt_truthy (_webhook_url s)) then _ else s).
  assert (Hs0 : opt_truthy (_webhook_url s0) = true
                ∧ live_clients s0 = live_clients s
                ∧ connection_attempts s0 = connection_attempts s
                ∧ loop s0 = loop s).
  { unfold s0, webhook_configured in *.
    destruct (opt_truthy (_webhook_url s)) eqn:Hs; cbn in *; [done|].
    by rewrite Hurl. }
  destruct Hs0 as (Ht0 & Hc0 & Ha0 & Hl0).
  exists s0. rewrite Ht0. cbn [negb].
  destruct (p_users i) as [|raw rest] eqn:Hpu; [done|]. rewrite <- Hpu.
  destruct (fold_left _ (p_users i) _) as [s1 loc]. cbn [fst].
  set (s2 := match currently_live loc with [] => _ | _ => _ end).
  assert (Hs2 : live_clients s2 = live_clients s1
                ∧ connection_attempts s2 = connection_attempts s1).
  { unfold s2. by destruct (currently_live loc). }
  destruct Hs2 as [Hc2 Ha2].
  match goal with
  | |- context [fold_left ?f ?l (s2, [])] =>
      pose proof (notify_fold_frame i
                    (Webhook.init (os_environ s2) (Some (main_url s2)) None)
                    (length (currently_live loc)) l s2 []) as Hn;
      cbv zeta in Hn;
      destruct (fold_left f l (s2, [])) as [s3 ds]
  end.
  cbn [fst] in *. destruct Hn as (_ & _ & _ & _ & _ & _ & _ & Hc3 & Ha3).
  cbn [live_clients connection_attempts set_current_live_users].
  by rewrite Hc3, Ha3, Hc2, Ha2.
Qed.

(** X15. A poll cycle opens connections under a back-off. (1) After the
    cycle a user has a client only if the user had one before, or is on
    the watch list, the last attempt on record was more than 15 seconds
    before the poll (or there was none) and the event loop runs. (2) The
    attempt time of a user changes only for such a user, to the time of
    the poll. (3) For a watched user without a client whose back-off is
    over, a cycle that has a webhook records the time of the poll as the
    attempt time, whether or not the loop runs. (4) If moreover the loop
    runs and no other entry of the watch list stands for the same user,
    the user has a client after the cycle. *)
Theorem poll_connects_after_backoff_only :
  ∀ (i : PollInput) (s : MonitoringService) (u : string),
    (u ∈ live_clients (check_users i s).1 →
     u ∈ live_clients s ∨
     (watched (p_users i) u ∧ backoff_over i u s = true ∧ loop s = Some true)) ∧
    (connection_attempts (check_users i s).1 !! u = connection_attempts s !! u ∨
     (watched (p_users i) u ∧ backoff_over i u s = true ∧
      connection_attempts (check_users i s).1 !! u = Some (p_now i))) ∧
    (webhook_configured s = true → watched (p_users i) u →
     (u ∉ live_clients s) → backoff_over i u s = true →
     connection_attempts (check_users i s).1 !! u = Some (p_now i)) ∧
    (∀ (before after : list string) (raw : string),
       webhook_configured s = true →
       p_users i = (before ++ raw :: after)%list →
       normalize_username raw = Some u →
       (∀ r, r ∈ (before ++ after)%list → normalize_username r ≠ Some u) →
       (u ∉ live_clients s) → backoff_over i u s = true → loop s = Some true →
       u ∈ live_clients (check_users i s).1).
Proof.
  intros i s u. split; [|split; [|split]].
  - unfold check_users.
    set (s0 := if negb (opt_truthy (_webhook_url s)) then _ else s).
    assert (Hs0 : live_clients s0 = live_clients s
                  ∧ connection_attempts s0 = connection_attempts s
                  ∧ loop s0 = loop s).
    { unfold s0. by destruct (negb _). }
    destruct Hs0 as (Hc0 & Ha0 & Hl0).
    destruct (negb (opt_truthy (_webhook_url s0))).
    { cbn [fst]. rewrite Hc0. by left. }
    destruct (p_users i) as [|raw rest] eqn:Hpu.
    { cbn [fst]. rewrite Hc0. by left. }
    rewrite <- Hpu.
    pose proof (check_fold_backoff i (p_users i) s (p_users i) (λ r H, H) s0
                  (mkLocals [] [] [])) as Hf.
    cbv zeta in Hf.
    destruct (fold_left _ (p_users i) _) as [s1 loc]. cbn [fst] in Hf.
    destruct Hf as [_ Hf].
    { split; [done|]. intros v. rewrite Hc0, Ha0. split; by left. }
    set (s2 := match currently_live loc with [] => _ | _ => _ end).
    assert (Hs2 : live_clients s2 = live_clients s1).
    { unfold s2. by destruct (currently_live loc). }
    match goal with
    | |- context [fold_left ?f ?l (s2, [])] =>
        pose proof (notify_fold_frame i
                      (Webhook.init (os_environ s2) (Some (main_url s2)) None)
                      (length (currently_live loc)) l s2 []) as Hn;
        cbv zeta in Hn;
        destruct (fold_left f l (s2, [])) as [s3 ds]
    end.
    cbn [fst] in *. destruct Hn as (_ & _ & _ & _ & _ & _ & _ & Hc3 & _).
    cbn [live_clients set_current_live_users].
    rewrite Hc3, Hs2. apply Hf.
  - unfold check_users.
    set (s0 := if negb (opt_truthy (_webhook_url s)) then _ else s).
    assert (Hs0 : live_clients s0 = live_clients s
                  ∧ connection_attempts s0 = connection_attempts s
                  ∧ loop s0 = loop s).
    { unfold s0. by destruct (negb _). }
    destruct Hs0 as (Hc0 & Ha0 & Hl0).
    destruct (negb (opt_truthy (_webhook_url s0))).
    { cbn [fst]. rewrite Ha0. by left. }
    destruct (p_users i) as [|raw rest] eqn:Hpu.
    { cbn [fst]. rewrite Ha0. by left. }
    rewrite <- Hpu.
    pose proof (check_fold_backoff i (p_users i) s (p_users i) (λ r H, H) s0
                  (mkLocals [] [] [])) as Hf.
    cbv zeta in Hf.
    destruct (fold_left _ (p_users i) _) as [s1 loc]. cbn [fst] in Hf.
    destruct Hf as [_ Hf].
    { split; [done|]. intros v. rewrite Hc0, Ha0. split; by left. }
    set (s2 := match currently_live loc with [] => _ | _ => _ end).
    assert (Hs2 : connection_attempts s2 = connection_attempts s1).
    { unfold s2. by destruct (currently_live loc). }
    match goal with
    | |- context [fold_left ?f ?l (s2, [])] =>
        pose proof (notify_fold_frame i
                      (Webhook.init (os_environ s2) (Some (main_url s2)) None)
                      (length (currently_live loc)) l s2 []) as Hn;
        cbv zeta in Hn;
        destruct (fold_left f l (s2, [])) as [s3 ds]
    end.
    cbn [fst] in *. destruct Hn as (_ & _ & _ & _ & _ & _ & _ & _ & Ha3).
    cbn [connection_attempts set_current_live_users].
    rewrite Ha3, Hs2. apply Hf.
  - intros Hurl Hw Hno Hb.
    assert (Husers : p_users i ≠ []).
    { destruct Hw as (r & Hin & _). intros Hnil. rewrite Hnil in Hin.
      by apply elem_of_nil in Hin. }
    destruct (check_users_connections i s Hurl Husers)
      as (s0 & Hc0 & Ha0 & _ & _ & ->).
    apply check_fold_attempts; [done|by rewrite Hc0|].
    rewrite <- Hb. by apply backoff_over_ext; rewrite Ha0.
  - intros before after raw Hurl Hsplit Hraw Hothers Hno Hb Hloop.
    assert (Husers : p_users i ≠ []).
    { rewrite Hsplit. by destruct before. }
    destruct (check_users_connections i s Hurl Husers)
      as (s0 & Hc0 & Ha0 & Hl0 & -> & _).
    rewrite Hsplit, fold_left_app. cbn [fold_left].
    pose proof (check_fold_other i u before
                  (λ r Hr, Hothers r (proj2 (elem_of_app _ _ r) (or_introl Hr)))
                  s0 (mkLocals [] [] [])) as Hpre.
    cbv zeta in Hpre.
    destruct (fold_left _ before _) as [s1 loc1]. cbn [fst] in Hpre.
    destruct Hpre as (Hc1 & Ha1 & Hl1).
    pose proof (check_one_connection i raw s1 loc1) as Hone. cbv zeta in Hone.
    rewrite Hraw in Hone.
    destruct (check_one i raw (s1, loc1)) as [s2 loc2]. cbn [fst] in Hone.
    destruct Hone as (Hc2 & _ & _).
    apply (check_fold_other i u after
             (λ r Hr, Hothers r (proj2 (elem_of_app _ _ r) (or_intror Hr)))
             s2 loc2).
    rewrite Hc2.
    apply (proj2 (poll_connection_same i u _ s1)).
    + rewrite Hc1. by rewrite Hc0.
    + rewrite <- Hb. apply backoff_over_ext. by rewrite Ha1, Ha0.
    + by rewrite Hl1, Hl0.
Qed.

(** Two entries for one user undo each other: the second finds the client
    that the first has just opened, and a user who is not live loses it. *)
Example duplicate_entry_drops_new_client :
  let s := (check_users (Fixture.poll_at 100 "2025-01-15T10:01:40" ["alice"; "@alice"])
              Fixture.s0).1 in
  elements (live_clients s) = [] ∧ connection_attempts s !! "alice" = Some 100.
Proof. by vm_compute. Qed.

(** A poll 10 seconds after a failed attempt leaves "alice" alone; a poll
    20 seconds after it opens a connection and records the new attempt. *)
Example backoff_scenario :
  let s := (check_users (Fixture.poll_at 100 "2025-01-15T10:01:40" ["@alice"])
              Fixture.s0).1 in
  let failed := on_start_failed "alice" s in
  let early := (check_users (Fixture.poll_at 110 "2025-01-15T10:01:50" ["@alice"])
                  failed).1 in
  let late := (check_users (Fixture.poll_at 120 "2025-01-15T10:02:00" ["@alice"])
                 failed).1 in
  live_clients s = {["alice"]} ∧ connection_attempts s !! "alice" = Some 100 ∧
  live_clients failed = ∅ ∧
  live_clients early = ∅ ∧ connection_attempts early !! "alice" = Some 100 ∧
  live_clients late = {["alice"]} ∧ connection_attempts late !! "alice" = Some 120.
Proof. by vm_compute. Qed.

(* --------------------------------------------------------------------- *)
(** ** The live table after a poll cycle *)

(** X16. A poll cycle with a webhook and a non-empty watch list rebuilds
    [current_live_users] from the watch list: the entry of a watched user
    survives with its [connected_at] and without its [room_id], and the
    entry of a user who is not (or no longer) on the watch list is gone,
    whatever connection that user still has. *)
Theorem poll_rebuilds_live_table_from_watch_list :
  ∀ (i : PollInput) (s : MonitoringService) (u : string),
    webhook_configured s = true →
    p_users i ≠ [] →
    (watched (p_users i) u →
     current_live_users (check_users i s).1 !! u
       = (λ info, mkLiveInfo (connected_at info) None) <$> current_live_users s !! u) ∧
    (¬ watched (p_users i) u →
     current_live_users (check_users i s).1 !! u = None).
Proof.
  intros i s u Hurl Husers.
  destruct (check_users_poll_state i s Hurl Husers) as (cl & Hnd & Hcl & -> & _).
  assert (Hkeys : (live_entry <$> cl).*1 = cl.*1).
  { rewrite <- list_fmap_compose. by apply list_fmap_ext. }
  assert (Hnone : (∀ t, (u, t) ∉ cl) →
                  (list_to_map (live_entry <$> cl) : gmap string LiveInfo) !! u = None).
  { intros Hno. apply not_elem_of_list_to_map_1. rewrite Hkeys.
    intros ([u' t] & Heq & Hin)%list_elem_of_fmap. cbn in Heq. subst u'.
    by apply (Hno t). }
  split.
  - intros Hw. destruct (current_live_users s !! u) as [info|] eqn:Hlook; cbn [fmap option_fmap option_map].
    + apply elem_of_list_to_map_1; [by rewrite Hkeys|].
      apply list_elem_of_fmap. exists (u, connected_at info). split; [done|].
      apply Hcl. split; [done|]. by exists info.
    + apply Hnone. intros t Hin. apply Hcl in Hin as (_ & info & Hinfo & _). congruence.
  - intros Hnw. apply Hnone. intros t Hin. apply Hcl in Hin as (Hw & _). by apply Hnw.
Qed.

Lemma poll_rebuilds_live_table_from_watch_list_witness :
  let i := Fixture.poll_at 120 "2025-01-15T10:02:00" ["@bob"] in
  webhook_configured Fixture.two_live = true ∧
  p_users i ≠ [] ∧
  watched (p_users i) "bob" ∧
  is_Some (current_live_users Fixture.two_live !! "carol") ∧
  current_live_users (check_users i Fixture.two_live).1 !! "bob"
    = (λ info, mkLiveInfo (connected_at info) None)
        <$> current_live_users Fixture.two_live !! "bob" ∧
  (¬ watched (p_users i) "carol" →
   current_live_users (check_users i Fixture.two_live).1 !! "carol" = None).
Proof.
  cbv zeta.
  assert (Hw : watched ["@bob"] "bob").
  { exists "@bob". split; [by left|reflexivity]. }
  assert (Hurl : webhook_configured Fixture.two_live = true) by (by vm_compute).
  assert (Hne : p_users (Fixture.poll_at 120 "2025-01-15T10:02:00" ["@bob"]) ≠ [])
    by done.
  split; [exact Hurl|]. split; [exact Hne|]. split; [exact Hw|].
  split; [eexists; by vm_compute|].
  destruct (poll_rebuilds_live_table_from_watch_list
              (Fixture.poll_at 120 "2025-01-15T10:02:00" ["@bob"])
              Fixture.two_live "bob" Hurl Hne) as [Ha _].
  destruct (poll_rebuilds_live_table_from_watch_list
              (Fixture.poll_at 120 "2025-01-15T10:02:00" ["@bob"])
              Fixture.two_live "carol" Hurl Hne) as [_ Hb].
  split; [exact (Ha Hw)|exact Hb].
Defined.

(* --------------------------------------------------------------------- *)
(** ** app.py: the users file *)

Lemma existsb_false_elem {A : Type} (f : A → bool) (l : list A) :
  existsb f l = false → ∀ x, x ∈ l → f x = false.
Proof.
  intros H x Hin. destruct (f x) eqn:Hf; [|done].
  assert (existsb f l = true); [|congruence].
  apply existsb_exists. exists x. split; [by apply list_elem_of_In|done].
Qed.

Lemma filter_keeps_distinct (str_lower : string → string)
    (P : App.UserData → bool) (l : list App.UserData) :
  distinct_users str_lower l → distinct_users str_lower (List.filter P l).
Proof.
  unfold distinct_users. induction l as [|u l IH]; [done|].
  cbn [List.filter fmap list_fmap]. intros [Hnd Hall].
  apply NoDup_cons in Hnd as [Hu Hnd]. apply Forall_cons in Hall as [Hu' Hall].
  destruct (IH (conj Hnd Hall)) as [IH1 IH2].
  destruct (P u); [|done]. split.
  - cbn [fmap list_fmap]. apply NoDup_cons. split; [|done].
    intros (v & Hv & Hin)%list_elem_of_fmap. apply Hu.
    apply list_elem_of_fmap. exists v. split; [done|].
    apply list_elem_of_In. apply list_elem_of_In in Hin.
    by apply List.filter_In in Hin as [? _].
  - by constructor.
Qed.

Lemma filter_no_match (str_lower : string → string) (name : string)
    (l : list App.UserData) :
  existsb (App.same_user str_lower name) l = false →
  List.filter (λ u, negb (App.same_user str_lower name u)) l = l.
Proof.
  induction l as [|u l IH]; [done|]. cbn [existsb List.filter].
  intros [Hu Hl]%orb_false_iff. rewrite Hu. cbn [negb]. by rewrite IH.
Qed.

(** X17. The routes keep the users file well formed, whatever
    [str.lower()] does to a name. If no two entries have the same name
    after [str.lower()] and no name is empty, this is still so after
    [add_user] and after [remove_user], whatever the request; and a
    request that [add_user] rejects (a name that is empty once stripped,
    or one that an entry equals after [str.lower()]) leaves the file as it
    is. *)
Theorem users_file_stays_distinct :
  ∀ (str_lower : string → string) (raw now_iso name : string) (a : App.AppState),
    distinct_users str_lower (App.load_users a) →
    distinct_users str_lower
      (App.load_users (App.add_user str_lower raw now_iso a).1) ∧
    distinct_users str_lower
      (App.load_users (App.remove_user str_lower name a).1) ∧
    (App.status (App.add_user str_lower raw now_iso a).2 ≠ 200 →
     (App.add_user str_lower raw now_iso a).1 = a).
Proof.
  intros str_lower raw now_iso name a Hd. split; [|split].
  - unfold App.add_user. cbv zeta.
    destruct (negb (str_truthy (strip raw))) eqn:He; [done|].
    destruct (existsb _ _) eqn:Hx; [done|].
    cbn [fst App.save_users App.load_users App.users_file default from_option id].
    destruct Hd as [Hnd Hall]. split.
    + rewrite fmap_app. apply NoDup_app. split; [done|]. split.
      * intros x (u & -> & Hin)%list_elem_of_fmap [Heq|Hno]%elem_of_cons;
          [|by apply elem_of_nil in Hno].
        pose proof (existsb_false_elem _ _ Hx u Hin) as Hu.
        unfold App.same_user in Hu. cbn [App.ud_username] in Heq.
        rewrite Heq, String.eqb_refl in Hu. done.
      * apply NoDup_singleton.
    + apply Forall_app. split; [done|]. constructor; [|constructor].
      cbn [App.ud_username]. by apply negb_false_iff in He.
  - unfold App.remove_user. cbv zeta.
    cbn [fst App.save_users App.load_users App.users_file default from_option id].
    by apply filter_keeps_distinct.
  - unfold App.add_user. cbv zeta.
    destruct (negb (str_truthy (strip raw))); [done|].
    destruct (existsb _ _); [done|]. cbn. done.
Qed.

Lemma users_file_stays_distinct_witness :
  let a := App.mkApp (Some [App.mkUser "Alice" "2025-01-15T09:00:00"])
             (Service.init ∅) in
  distinct_users lower (App.load_users a) ∧
  App.add_user lower " ALICE " "2025-01-15T10:00:00" a
    = (a, App.mkResponse 400 "User already in list") ∧
  distinct_users lower
    (App.load_users (App.add_user lower "bob" "2025-01-15T10:00:00" a).1).
Proof.
  cbv zeta.
  assert (Hd : distinct_users lower [App.mkUser "Alice" "2025-01-15T09:00:00"]).
  { split; [apply NoDup_singleton|]. by repeat constructor. }
  split; [exact Hd|]. split; [reflexivity|].
  exact (proj1 (users_file_stays_distinct lower "bob" "2025-01-15T10:00:00" ""
                  (App.mkApp (Some [App.mkUser "Alice" "2025-01-15T09:00:00"])
                     (Service.init ∅)) Hd)).
Defined.

(** X18. Adding and removing cancel, whatever [str.lower()] does to a
    name. After an [add_user] that succeeded, [remove_user] with a name
    that [str.lower()] maps to the same text as the name added gives back
    the list as it was before. *)
Theorem add_then_remove_restores_users :
  ∀ (str_lower : string → string) (raw now_iso name : string) (a : App.AppState),
    App.status (App.add_user str_lower raw now_iso a).2 = 200 →
    str_lower name = str_lower (strip raw) →
    App.load_users
      (App.remove_user str_lower name (App.add_user str_lower raw now_iso a).1).1
      = App.load_users a.
Proof.
  intros str_lower raw now_iso name a. unfold App.add_user. cbv zeta.
  destruct (negb (str_truthy (strip raw))); [done|].
  destruct (existsb _ _) eqn:Hx; [done|]. intros _ Hname.
  unfold App.remove_user. cbv zeta.
  cbn [fst App.save_users App.load_users App.users_file default from_option id].
  assert (Hsame : ∀ u, App.same_user str_lower name u
                       = App.same_user str_lower (strip raw) u).
  { intros u. unfold App.same_user. by rewrite Hname. }
  rewrite List.filter_app. cbn [List.filter].
  rewrite Hsame. unfold App.same_user at 2. cbn [App.ud_username].
  rewrite String.eqb_refl. cbn [negb]. rewrite app_nil_r.
  apply filter_no_match. rewrite <- Hx. clear Hx.
  induction (App.load_users a) as [|u l IH]; [done|].
  cbn [existsb]. by rewrite Hsame, IH.
Qed.

Lemma add_then_remove_restores_users_witness :
  let a := App.mkApp (Some [App.mkUser "Alice" "2025-01-15T09:00:00"])
             (Service.init ∅) in
  App.status (App.add_user lower " Bob " "2025-01-15T10:00:00" a).2 = 200 ∧
  App.load_users (App.add_user lower " Bob " "2025-01-15T10:00:00" a).1
    = [App.mkUser "Alice" "2025-01-15T09:00:00"; App.mkUser "Bob" "2025-01-15T10:00:00"] ∧
  App.load_users
    (App.remove_user lower "BOB"
       (App.add_user lower " Bob " "2025-01-15T10:00:00" a).1).1
    = App.load_users a.
Proof.
  cbv zeta. split; [reflexivity|]. split; [reflexivity|].
  apply (add_then_remove_restores_users lower " Bob " "2025-01-15T10:00:00" "BOB");
    reflexivity.
Defined.

Lemma rstrip_cons_cases (c : ascii) (s : string) :
  rstrip (String c s) = EmptyString ∨ rstrip (String c s) = String c (rstrip s).
Proof.
  cbn [rstrip]. destruct (is_space c); [destruct (rstrip s); auto|].
  destruct s as [|c2 s2]; [by right|].
  destruct (is_space2 c c2); [destruct (rstrip s2); auto|].
  destruct s2 as [|c3 s3]; [by right|].
  destruct (is_space3 c c2 c3); [destruct (rstrip s3); auto|by right].
Qed.

Lemma rstrip_length (s : string) :
  (String.length (rstrip s) ≤ String.length s)%nat.
Proof.
  induction s as [|c s IH]; [done|].
  destruct (rstrip_cons_cases c s) as [->| ->]; cbn [String.length]; lia.
Qed.

Lemma lstrip_length (n : nat) :
  ∀ s, (String.length s ≤ n)%nat →
       (String.length (lstrip s) ≤ String.length s)%nat.
Proof.
  induction n as [|n IH]; intros s Hn.
  { destruct s; [done|]. cbn [String.length] in Hn. lia. }
  destruct s as [|c1 s1]; [done|]. cbn [lstrip]. cbn [String.length] in *.
  destruct (is_space c1).
  { specialize (IH s1). lia. }
  destruct s1 as [|c2 s2]; [done|]. cbn [String.length] in *.
  destruct (is_space2 c1 c2).
  { specialize (IH s2). lia. }
  destruct s2 as [|c3 s3]; [done|]. cbn [String.length] in *.
  destruct (is_space3 c1 c2 c3); [|done].
  specialize (IH s3). lia.
Qed.

Lemma lstrip_cases (s : string) :
  lstrip s = s ∨ (String.length (lstrip s) < String.length s)%nat.
Proof.
  destruct s as [|c1 s1]; [by left|]. cbn [lstrip].
  destruct (is_space c1).
  { right. pose proof (lstrip_length _ s1 (le_n _)). cbn [String.length]. lia. }
  destruct s1 as [|c2 s2]; [by left|].
  destruct (is_space2 c1 c2).
  { right. pose proof (lstrip_length _ s2 (le_n _)). cbn [String.length]. lia. }
  destruct s2 as [|c3 s3]; [by left|].
  destruct (is_space3 c1 c2 c3); [|by left].
  right. pose proof (lstrip_length _ s3 (le_n _)). cbn [String.length]. lia.
Qed.

(** A name that [strip] leaves alone has no white space at either end. *)
Lemma strip_fixed (s : string) : strip s = s → lstrip s = s ∧ rstrip s = s.
Proof.
  unfold strip. intros H. destruct (lstrip_cases s) as [Hl|Hl].
  - by rewrite Hl in H.
  - pose proof (rstrip_length (lstrip s)) as Hr. rewrite H in Hr. lia.
Qed.

Lemma strip_at (s : string) : strip s = s → strip (String "@" s) = String "@" s.
Proof.
  intros [_ Hr]%strip_fixed. unfold strip.
  assert (Hl : lstrip (String "@" s) = String "@" s).
  { by destruct s as [|c2 [|c3 s3]]. }
  rewrite Hl.
  assert (Hat : rstrip (String "@" s) = String "@" (rstrip s)).
  { by destruct s as [|c2 [|c3 s3]]. }
  by rewrite Hat, Hr.
Qed.

(** X19. The duplicate test of [add_user] does not see the [@] that the
    poll cycle removes. For a name without white space at its ends that
    the poll cycle watches as it stands, the name and the name with [@] in
    front (which [str.lower()] keeps apart, the second being the longer)
    are both accepted, one after the other, and the poll cycle watches both
    entries as the same user. *)
Theorem at_sign_escapes_duplicate_test :
  ∀ (str_lower : string → string) (name t1 t2 : string) (a : App.AppState),
    strip name = name →
    normalize_username name = Some name →
    str_lower (String "@" name) ≠ str_lower name →
    existsb (App.same_user str_lower name) (App.load_users a) = false →
    existsb (App.same_user str_lower (String "@" name)) (App.load_users a) = false →
    let a1 := (App.add_user str_lower name t1 a).1 in
    let r := App.add_user str_lower (String "@" name) t2 a1 in
    App.status r.2 = 200 ∧
    App.load_users r.1
      = (App.load_users a
           ++ [App.mkUser name t1; App.mkUser (String "@" name) t2])%list ∧
    normalize_username (String "@" name) = normalize_username name.
Proof.
  intros str_lower name t1 t2 a Hstrip Hnorm Hlow Hx1 Hx2. cbv zeta.
  assert (Ht : str_truthy name = true).
  { revert Hnorm. unfold normalize_username. cbv zeta. rewrite Hstrip.
    by destruct (str_truthy name). }
  assert (Hat : normalize_username (String "@" name) = Some name).
  { unfold normalize_username. cbv zeta. by rewrite (strip_at name Hstrip). }
  assert (H1 : App.add_user str_lower name t1 a
               = (App.save_users (App.load_users a ++ [App.mkUser name t1]) a,
                  App.mkResponse 200 "User added successfully")).
  { unfold App.add_user. cbv zeta. by rewrite Hstrip, Ht, Hx1. }
  rewrite H1. cbn [fst].
  unfold App.add_user. cbv zeta. rewrite (strip_at name Hstrip).
  change (str_truthy (String "@" name)) with true. cbn [negb].
  change (App.load_users (App.save_users ?l a)) with l.
  rewrite existsb_app, Hx2. cbn [existsb orb].
  assert (Hnew : App.same_user str_lower (String "@" name) (App.mkUser name t1)
                 = false).
  { unfold App.same_user. cbn [App.ud_username]. apply String.eqb_neq. congruence. }
  rewrite Hnew. cbn [orb fst snd App.status].
  change (App.load_users (App.save_users ?l ?b)) with l.
  split; [done|]. split; [by rewrite <- (assoc_L (++))|]. by rewrite Hat, Hnorm.
Qed.

Lemma at_sign_escapes_duplicate_test_witness :
  let a := App.mkApp None (Service.init ∅) in
  let r := App.add_user lower "@alice" "2025-01-15T10:05:00"
             (App.add_user lower "alice" "2025-01-15T10:00:00" a).1 in
  App.status r.2 = 200 ∧
  App.load_users r.1
    = ([] ++ [App.mkUser "alice" "2025-01-15T10:00:00";
              App.mkUser "@alice" "2025-01-15T10:05:00"])%list ∧
  normalize_username "@alice" = normalize_username "alice".
Proof.
  cbv zeta.
  apply (at_sign_escapes_duplicate_test lower "alice" "2025-01-15T10:00:00"
           "2025-01-15T10:05:00" (App.mkApp None (Service.init ∅)));
    try reflexivity.
  discriminate.
Defined.

(* --------------------------------------------------------------------- *)
(** ** app.py: starting, stopping and testing *)







(** White space around a URL or a name is Unicode white space: a request
    whose URL is a no-break space has no URL, and a name padded with
    no-break spaces is stored without them. *)
Example routes_strip_unicode_space :
  let a := App.mkApp None (Service.init ∅) in
  App.start_monitoring " " "" a
    = (a, App.mkResponse 400 "Discord webhook URL is required") ∧
  App.load_users (App.add_user lower " carol " "2025-01-15T10:00:00" a).1
    = [App.mkUser "carol" "2025-01-15T10:00:00"] ∧
  normalize_username " @carol " = Some "carol".
Proof. by vm_compute. Qed.

(** A first start from the web form. *)
Example start_monitoring_scenario :
  let a := App.mkApp (Some [App.mkUser "alice" "2025-01-15T09:00:00"])
             (Service.init {[ "DISCORD_GIFT_WEBHOOK_URL" := Fixture.gift_hook ]}) in
  let r := App.start_monitoring (" " ++ Fixture.hook ++ " ") "" a in
  App.status r.2 = 200 ∧
  App.monitoring_status r.1 = (true, 1%nat) ∧
  main_url (App.monitoring_service r.1) = Fixture.hook ∧
  gift_url (App.monitoring_service r.1) = "" ∧
  App.start_monitoring "   " Fixture.gift_hook a
    = (a, App.mkResponse 400 "Discord webhook URL is required").
Proof. by vm_compute. Qed.



(** X22. [test_webhook] answers 400 and sends nothing when neither the
    request, nor the environment, nor the service has a URL. Otherwise it
    calls [send_go_live_notification] once, for [TEST_USER] without the
    host flag, on a [DiscordWebhook] whose [webhook_url] is the first of
    these three that is not empty, and answers 200 if the call returned
    [True] and 500 if it returned [False]. The environment comes before
    the stored URL here; for the notifications of the service it is the
    other way round. *)
Theorem test_webhook_posts_to_test_url :
  ∀ (raw_url : string) (post_ok : bool) (a : App.AppState),
    let url := App.test_url raw_url a in
    let m := App.monitoring_service a in
    let w := Webhook.init (os_environ m) (Some url) None in
    let d := Webhook.send_go_live_notification w "TEST_USER" false post_ok in
    (str_truthy url = false →
     App.test_webhook raw_url post_ok a
       = (App.mkResponse 400 "Discord webhook URL is required", [])) ∧
    (str_truthy url = true →
     Webhook.webhook_url w = url ∧
     (App.test_webhook raw_url post_ok a).2 = [d] ∧
     App.status (App.test_webhook raw_url post_ok a).1
       = (if d_ok d then 200 else 500)) ∧
    (str_truthy (strip raw_url) = true → url = strip raw_url) ∧
    (str_truthy (strip raw_url) = false →
     str_truthy (env_get (os_environ m) "DISCORD_WEBHOOK_URL") = true →
     url = env_get (os_environ m) "DISCORD_WEBHOOK_URL" ∧
     (opt_truthy (_webhook_url m) = true → Some (main_url m) = _webhook_url m)).
Proof.
  intros raw_url post_ok a. cbv zeta. split; [|split; [|split]].
  - intros Hu. unfold App.test_webhook. cbv zeta. by rewrite Hu.
  - intros Hu. unfold App.test_webhook. cbv zeta. rewrite Hu. cbn [negb].
    split; [unfold Webhook.init, opt_or; cbn [Webhook.webhook_url]; by rewrite Hu|].
    by destruct (d_ok _).
  - intros Hreq. unfold App.test_url. cbv zeta. by rewrite Hreq.
  - intros Hreq Henv. unfold App.test_url. cbv zeta. rewrite Hreq, Henv.
    split; [done|]. unfold main_url, opt_or.
    destruct (_webhook_url (App.monitoring_service a)) as [w|]; [|done].
    cbn [opt_truthy]. by intros ->.
Qed.

(** A test without a URL in the request goes to the URL of the
    environment, not to the one the running service posts to. *)
Example test_webhook_scenario :
  let a := (App.start_monitoring "https://discord.example/api/webhooks/new" ""
              (App.mkApp None Fixture.s_both)).1 in
  App.test_webhook " " false a
    = (App.mkResponse 500 "Failed to send test notification. Check console for details.",
       [mkDispatch (GoLive "TEST_USER" false)
          (Some "https://discord.example/api/webhooks/new") false]) ∧
  App.test_webhook "" true (App.mkApp None (Service.init ∅))
    = (App.mkResponse 400 "Discord webhook URL is required", []).
Proof. by vm_compute. Qed.

(* --------------------------------------------------------------------- *)
(** ** The end cooldown over histories *)









(* --------------------------------------------------------------------- *)
(** ** The host and the host flag *)

(** C5, as amended. (1) A poll cycle that runs elects as host the entry of
    the live set it computed (the watched broadcasters found in
    [current_live_users]) with the earliest [connected_at]: no entry is
    strictly earlier; no host is elected only when the live set is empty.
    (2) When that live set has one broadcaster, that broadcaster is the
    host. (3) In every history of a service in which every entry of
    [current_live_users] has a live mark (after [start] there is no
    entry), a start notification is dispatched by a connect confirmation
    only, and it carries [is_host = True] exactly when no broadcaster is
    marked live in [last_status] at that moment, whether or not the
    broadcasters marked live are still connected. *)
Theorem host_is_earliest_and_flag_counts_live_marks :
  (∀ (i : PollInput) (s : MonitoringService),
     webhook_configured s = true → p_users i ≠ [] →
     match host_priority (check_users i s).1 with
     | None => current_live_users (check_users i s).1 = ∅
     | Some h =>
         ∃ info,
           current_live_users (check_users i s).1 !! h = Some info ∧
           ∀ u info', current_live_users (check_users i s).1 !! u = Some info' →
                      String.ltb (connected_at info') (connected_at info) = false
     end) ∧
  (∀ (i : PollInput) (s : MonitoringService) (b : string) (info : LiveInfo),
     webhook_configured s = true → p_users i ≠ [] →
     current_live_users (check_users i s).1 = {[ b := info ]} →
     host_priority (check_users i s).1 = Some b) ∧
  (∀ (s : MonitoringService) (es : list Event) (e : Event) (d : Dispatch),
     live_implies_marked s →
     d ∈ (step (run s es).1 e).2 →
     is_start d = true →
     ∃ (b : string) (c : ConnectInput),
       e = Connect b c ∧
       d_note d
         = GoLive b (Nat.eqb (currently_live_count (last_status (run s es).1)) 0)).
Proof.
  assert (Helect : ∀ (i : PollInput) (s : MonitoringService),
     webhook_configured s = true → p_users i ≠ [] →
     match host_priority (check_users i s).1 with
     | None => current_live_users (check_users i s).1 = ∅
     | Some h =>
         ∃ info,
           current_live_users (check_users i s).1 !! h = Some info ∧
           ∀ u info', current_live_users (check_users i s).1 !! u = Some info' →
                      String.ltb (connected_at info') (connected_at info) = false
     end).
  { intros i s Hurl Husers.
    destruct (check_users_poll_state i s Hurl Husers)
      as (cl & Hnd & _ & -> & -> & _).
    assert (Hnd' : NoDup (live_entry <$> cl).*1).
    { rewrite <- list_fmap_compose.
      by rewrite (list_fmap_ext (fst ∘ live_entry) fst cl) by done. }
    destruct cl as [|p cl'] eqn:Hcl; [done|]. rewrite <- Hcl in *.
    destruct (elect_host_earliest cl) as (h & e & -> & Hin & Hmin); [by subst|].
    exists (mkLiveInfo e None). split.
    - apply elem_of_list_to_map_1; [done|].
      apply list_elem_of_fmap. by exists (h, e).
    - intros u info' Hl. apply elem_of_list_to_map_2 in Hl.
      apply list_elem_of_fmap in Hl as ([u' t'] & [= -> ->] & Hin').
      cbn. by eapply Hmin. }
  split; [exact Helect|]. split.
  - intros i s b info Hurl Husers Hone.
    specialize (Helect i s Hurl Husers).
    destruct (host_priority (check_users i s).1) as [h|].
    + destruct Helect as (info' & Hl & _). rewrite Hone in Hl.
      apply lookup_singleton_Some in Hl as [-> _]. done.
    + rewrite Hone in Helect.
      apply (f_equal (λ m : gmap string LiveInfo, m !! b)) in Helect.
      by rewrite lookup_singleton_eq, lookup_empty in Helect.
  - intros s es e d Hinv Hin Hstart.
    pose proof (run_keeps_marks es s Hinv) as Hmarks.
    destruct e as [u c|u x|u ev ok|u|i]; cbn [step] in Hin.
    + exists u, c. split; [done|].
      rewrite on_connect_dispatch_cases in Hin.
      destruct (bool_decide _); [by apply elem_of_nil in Hin|].
      destruct (was_live_of _ u); [by apply elem_of_nil in Hin|].
      apply list_elem_of_singleton in Hin as ->.
      unfold Webhook.send_go_live_notification. by destruct (Webhook.send _ _ _).
    + destruct (on_disconnect_shape u x (run s es).1) as [Hq|(d' & Hd' & Hnote)];
        rewrite ?Hq, ?Hd' in Hin; [by apply elem_of_nil in Hin|].
      apply list_elem_of_singleton in Hin as ->.
      unfold is_start in Hstart. by rewrite Hnote in Hstart.
    + destruct (on_gift u ev ok (run s es).1) as [ds|exc] eqn:Hg;
        cbn [snd] in Hin; [|by apply elem_of_nil in Hin].
      pose proof (on_gift_shape _ _ _ _ _ Hg) as Hshape.
      rewrite Forall_forall in Hshape. destruct (Hshape d Hin) as [Hs _]. congruence.
    + by apply elem_of_nil in Hin.
    + destruct (check_users_marked i (run s es).1 Hmarks) as (Hnil & _).
      rewrite Hnil in Hin. by apply elem_of_nil in Hin.
Qed.

Lemma host_is_earliest_and_flag_counts_live_marks_witness :
  let poll := Fixture.poll_at 130 "2025-01-15T10:02:10" ["bob"; "carol"] in
  let polled := (check_users poll Fixture.two_live).1 in
  let es := [Connect "bob" (Fixture.connect_at 105 "2025-01-15T10:01:45" true)] in
  let e := Connect "carol" (Fixture.connect_at 110 "2025-01-15T10:01:50" true) in
  webhook_configured Fixture.two_live = true ∧
  p_users poll ≠ [] ∧
  host_priority polled = Some "bob" ∧
  (∃ info,
     current_live_users polled !! "bob" = Some info ∧
     ∀ u info', current_live_users polled !! u = Some info' →
                String.ltb (connected_at info') (connected_at info) = false) ∧
  live_implies_marked Fixture.s0 ∧
  (step (run Fixture.s0 es).1 e).2 = [Fixture.start_ok "carol" false] ∧
  ∃ b c, e = Connect b c ∧
         d_note (Fixture.start_ok "carol" false)
           = GoLive b (Nat.eqb (currently_live_count
                                  (last_status (run Fixture.s0 es).1)) 0).
Proof.
  intros poll polled es e.
  assert (H1 : webhook_configured Fixture.two_live = true) by (vm_compute; reflexivity).
  assert (H2 : p_users poll ≠ []) by discriminate.
  assert (H3 : host_priority polled = Some "bob") by (vm_compute; reflexivity).
  destruct host_is_earliest_and_flag_counts_live_marks as (Helect & _ & Hflag).
  pose proof (Helect poll Fixture.two_live H1 H2) as H.
  fold polled in H. rewrite H3 in H.
  assert (H4 : (step (run Fixture.s0 es).1 e).2 = [Fixture.start_ok "carol" false])
    by (vm_compute; reflexivity).
  split; [exact H1|]. split; [exact H2|]. split; [exact H3|]. split; [exact H|].
  split; [apply fresh_service_marked|]. split; [exact H4|].
  apply (Hflag Fixture.s0 es e (Fixture.start_ok "carol" false)).
  - apply fresh_service_marked.
  - rewrite H4. by left.
  - reflexivity.
Defined.

(** C5, counterexample. The start notification of "dave" fails at his
    confirmation at 100, and he disconnects at 140: nothing is sent, his
    connection records are cleared, and by the handler's own rule his live
    mark stays. "alice" is confirmed at 145. She is the only broadcaster
    with a confirmed connection, the next poll cycle elects her host, and
    her start notification was dispatched with [is_host = False]. *)
Lemma lone_broadcaster_announced_without_host_flag :
  let quiet :=
    run Fixture.s0
      [Connect "dave" (Fixture.connect_at 100 "2025-01-15T10:01:40" false);
       Disconnect "dave" (Fixture.disconnect_at 140 "2025-01-15T10:02:20" true)] in
  let alice_in :=
    on_connect "alice" (Fixture.connect_at 145 "2025-01-15T10:02:25" true) quiet.1 in
  let polled :=
    check_users (Fixture.poll_at 150 "2025-01-15T10:02:30" ["dave"; "alice"])
      alice_in.1 in
  quiet.2 = [Fixture.start_failed "dave" true] ∧
  elements (dom (current_live_users quiet.1)) = [] ∧
  elements (successfully_connected quiet.1) = [] ∧
  elements (notified_users quiet.1) = [] ∧
  alice_in.2 = [Fixture.start_ok "alice" false] ∧
  elements (dom (current_live_users alice_in.1)) = ["alice"] ∧
  elements (successfully_connected alice_in.1) = ["alice"] ∧
  host_priority polled.1 = Some "alice" ∧
  polled.2 = [].
Proof. vm_compute. repeat split; reflexivity. Qed.
